(** * Wealth-Management-System: valuation and purchase core

    A shallow embedding of [database_manager.py] and of the buy-asset page
    of [app.py], with the properties of the valuation engine and of the
    purchase workflow stated over it.

    - Python [Decimal] values are exact decimals: an integer coefficient
      and a count of fractional digits.
    - The relational store is a record of tables, each a list of rows in
      table order.
    - Every [execute_query] opens its own connection, runs one statement
      and commits it; connection failures and statement errors are drawn
      from two schedules carried by the world.
    - [st.session_state] and the messages written to the page are part of
      the world as well. *)

From Stdlib Require Import ZArith List String Bool Lia.
Import ListNotations.
Open Scope string_scope.
Open Scope list_scope.
Open Scope Z_scope.

Set Implicit Arguments.

(* ================================================================== *)
(** ** Decimal arithmetic *)

Module Dec.

(** [mkDec c s] is the number [c * 10^(-s)]: [Decimal('70.00')] is
    [mkDec 7000 2].  Addition, subtraction and multiplication are exact,
    as Python's are while the coefficient fits the context precision. *)
Record Decimal : Type := mkDec { coef : Z; scale : nat }.

Definition pow10 (n : nat) : Z := 10 ^ Z.of_nat n.

(** The coefficient of [d] written with [s] fractional digits
    ([s] at least [scale d]). *)
Definition rescale (d : Decimal) (s : nat) : Z :=
  coef d * pow10 (s - scale d).

Definition add (a b : Decimal) : Decimal :=
  let s := Nat.max (scale a) (scale b) in
  mkDec (rescale a s + rescale b s) s.

Definition sub (a b : Decimal) : Decimal :=
  let s := Nat.max (scale a) (scale b) in
  mkDec (rescale a s - rescale b s) s.

Definition mul (a b : Decimal) : Decimal :=
  mkDec (coef a * coef b) (scale a + scale b).

Definition compare (a b : Decimal) : comparison :=
  let s := Nat.max (scale a) (scale b) in
  Z.compare (rescale a s) (rescale b s).

Definition eqb (a b : Decimal) : bool :=
  match compare a b with Eq => true | _ => false end.
Definition ltb (a b : Decimal) : bool :=
  match compare a b with Lt => true | _ => false end.
Definition leb (a b : Decimal) : bool :=
  match compare a b with Gt => false | _ => true end.
Definition gtb (a b : Decimal) : bool := ltb b a.

(** [Decimal('0.00')] *)
Definition zero2 : Decimal := mkDec 0 2.

(** Numeric equality, cross-multiplied: [a] and [b] denote one number. *)
Definition equiv (a b : Decimal) : Prop :=
  coef a * pow10 (scale b) = coef b * pow10 (scale a).

(** The plain sum of a list, from zero. *)
Definition sum (l : list Decimal) : Decimal :=
  fold_right add (mkDec 0 0) l.

(** A bound on the fractional digits of the decimals of a list. *)
Definition max_scale (l : list Decimal) : nat :=
  fold_right (fun d n => Nat.max (scale d) n) 0%nat l.

End Dec.

Abbreviation Decimal := Dec.Decimal.
Abbreviation mkDec := Dec.mkDec.

Declare Scope dec_scope.
Delimit Scope dec_scope with dec.
Infix "+" := Dec.add : dec_scope.
Infix "-" := Dec.sub : dec_scope.
Infix "*" := Dec.mul : dec_scope.
Infix "==" := Dec.equiv (at level 70, no associativity) : dec_scope.

(* ================================================================== *)
(** ** Rows and tables *)

Record User : Type := mkUser {
  user_id : Z;
  username : string;
  password : string;
  email : option string;
  role : string }.

Record Account : Type := mkAccount {
  account_id : Z;
  acc_user_id : Z;
  account_name : string;
  account_type : string;
  current_balance : Decimal;
  acc_currency : string }.

Record Portfolio : Type := mkPortfolio {
  portfolio_id : Z;
  pf_user_id : Z;
  portfolio_name : string;
  pf_description : option string }.

Record AssetType : Type := mkAssetType {
  asset_type_id : Z;
  type_name : string;
  at_description : option string }.

Record Asset : Type := mkAsset {
  asset_id : Z;
  name : string;
  unit_price : Decimal;
  unit_type : string }.

(** An investment row has no column for its current value. *)
Record Investment : Type := mkInvestment {
  investment_id : Z;
  inv_user_id : Z;
  inv_portfolio_id : Z;
  inv_asset_category_id : Z;
  inv_asset_id : Z;
  investment_name : string;
  symbol : option string;
  initial_investment_amount : Decimal;
  purchase_date : string;
  quantity : Decimal;
  inv_currency : string;
  notes : option string }.

(** The text of a transaction's description: a plain string, or the
    purchase line [f"Bought {quantity:.4f} {unit_type} of {name}"], kept
    by its three parts. *)
Inductive Description : Type :=
| Text (s : string)
| BoughtText (qty : Decimal) (unit asset : string).

Record Transaction : Type := mkTransaction {
  transaction_id : Z;
  tx_user_id : Z;
  tx_account_id : option Z;
  tx_investment_id : option Z;
  tx_asset_id : option Z;
  transaction_type : option string;
  amount : option Decimal;
  tx_quantity : option Decimal;
  unit_price_at_transaction : option Decimal;
  tx_description : option Description }.

(** The database: seven tables, the AUTO_INCREMENT counters of the two
    tables the purchase workflow inserts into, and the order the server's
    collation puts on names (what [ORDER BY] a text column sorts by). *)
Record Store : Type := mkStore {
  users : list User;
  accounts : list Account;
  portfolios : list Portfolio;
  asset_types : list AssetType;
  assets : list Asset;
  investments : list Investment;
  transactions : list Transaction;
  next_investment_id : Z;
  next_transaction_id : Z;
  collation : string -> string -> bool }.

Definition set_users (l : list User) (d : Store) : Store :=
  mkStore l (accounts d) (portfolios d) (asset_types d) (assets d)
          (investments d) (transactions d)
          (next_investment_id d) (next_transaction_id d) (collation d).

Definition set_accounts (l : list Account) (d : Store) : Store :=
  mkStore (users d) l (portfolios d) (asset_types d) (assets d)
          (investments d) (transactions d)
          (next_investment_id d) (next_transaction_id d) (collation d).

Definition set_portfolios (l : list Portfolio) (d : Store) : Store :=
  mkStore (users d) (accounts d) l (asset_types d) (assets d)
          (investments d) (transactions d)
          (next_investment_id d) (next_transaction_id d) (collation d).

Definition set_assets (l : list Asset) (d : Store) : Store :=
  mkStore (users d) (accounts d) (portfolios d) (asset_types d) l
          (investments d) (transactions d)
          (next_investment_id d) (next_transaction_id d) (collation d).

Definition set_investments (l : list Investment) (d : Store) : Store :=
  mkStore (users d) (accounts d) (portfolios d) (asset_types d) (assets d)
          l (transactions d)
          (next_investment_id d) (next_transaction_id d) (collation d).

Definition set_transactions (l : list Transaction) (d : Store) : Store :=
  mkStore (users d) (accounts d) (portfolios d) (asset_types d) (assets d)
          (investments d) l
          (next_investment_id d) (next_transaction_id d) (collation d).

(* ================================================================== *)
(** ** The world: store, failure schedules, session state, page *)

(** The row of [get_investments_by_user]: an investment joined with its
    portfolio, its category and its asset. *)
Record InvestmentRow : Type := mkInvestmentRow {
  r_investment_id : Z;
  r_user_id : Z;
  r_portfolio_id : Z;
  r_portfolio_name : string;
  r_asset_category_id : Z;
  r_asset_category_name : string;
  r_asset_id : Z;
  r_asset_name : string;
  current_unit_price : Decimal;
  r_unit_type : string;
  r_investment_name : string;
  r_symbol : option string;
  r_initial_investment_amount : Decimal;
  r_purchase_date : string;
  r_quantity : Decimal;
  current_value : Decimal;
  r_currency : string;
  r_notes : option string }.

Record Summary : Type := mkSummary {
  total_account_balance : Decimal;
  total_investment_value : Decimal;
  total_portfolio_value : Decimal }.

(** The keys of [st.session_state] that the purchase workflow and the
    valuation code read.  The investment and transaction frames and the
    admin frames are filled for display only and are left out. *)
Record Session : Type := mkSession {
  ss_user_id : Z;
  ss_user_role : string;
  accounts_df : list Account;
  portfolios_df : list Portfolio;
  asset_types_df : list AssetType;
  assets_df : list Asset;
  portfolio_summary : Summary }.

Inductive exn : Type :=
| MySQLError                    (* mysql.connector.Error *)
| PyException (msg : string)    (* raise Exception(msg) *)
| TypeError
| IndexError
| RerunException.               (* st.rerun(): not an Exception *)

(** What [st.warning], [st.error] and [st.success] write on the buy page. *)
Inductive Msg : Type :=
| WarnNoAssets
| WarnNoAccounts
| WarnSelectAccount
| WarnSelectAsset
| WarnLoginToRefresh
| ErrSelectAccount
| ErrSelectAsset
| ErrQuantity
| ErrInsufficientBalance (required available : Decimal) (account : string)
| SuccessUpdatedHoldings (asset : string)
| WarnNoHolding
| SuccessAddedInvestment (asset : string)
| ErrSelectPortfolioAndCategory
| SuccessPurchased (qty : Decimal) (unit asset : string) (cost : Decimal)
| ErrDatabase
| ErrTransactionFailed (e : exn).

Definition is_error (m : Msg) : bool :=
  match m with
  | ErrSelectAccount | ErrSelectAsset | ErrQuantity
  | ErrInsufficientBalance _ _ _ | ErrSelectPortfolioAndCategory
  | ErrDatabase | ErrTransactionFailed _ => true
  | _ => false
  end.

(** [conn_faults]: one entry per [create_connection], [true] when the
    connection cannot be made.  [stmt_faults]: one entry per
    [cursor.execute], [true] when the statement raises.  A schedule that
    has run out means no further failure. *)
Record World : Type := mkWorld {
  db : Store;
  conn_faults : list bool;
  stmt_faults : list bool;
  session : Session;
  page : list Msg }.

Definition set_db (d : Store) (w : World) : World :=
  mkWorld d (conn_faults w) (stmt_faults w) (session w) (page w).
Definition set_conn_faults (f : list bool) (w : World) : World :=
  mkWorld (db w) f (stmt_faults w) (session w) (page w).
Definition set_stmt_faults (f : list bool) (w : World) : World :=
  mkWorld (db w) (conn_faults w) f (session w) (page w).
Definition set_session (s : Session) (w : World) : World :=
  mkWorld (db w) (conn_faults w) (stmt_faults w) s (page w).
Definition set_page (p : list Msg) (w : World) : World :=
  mkWorld (db w) (conn_faults w) (stmt_faults w) (session w) p.

(** State and exceptions. *)
Definition M (A : Type) : Type := World -> (A + exn) * World.

Definition ret {A} (a : A) : M A := fun w => (inl a, w).
Definition raise {A} (e : exn) : M A := fun w => (inr e, w).
Definition bind {A B} (m : M A) (k : A -> M B) : M B :=
  fun w => match m w with
           | (inl a, w') => k a w'
           | (inr e, w') => (inr e, w')
           end.

Notation "x <- m ;; k" := (bind m (fun x => k))
  (at level 61, m at next level, right associativity).
Notation "m ;; k" := (bind m (fun _ => k))
  (at level 61, right associativity).

Definition try_except {A} (body : M A) (handler : exn -> M A) : M A :=
  fun w => match body w with
           | (inl a, w') => (inl a, w')
           | (inr e, w') => handler e w'
           end.

Definition get_session : M Session := fun w => (inl (session w), w).
Definition put_session (s : Session) : M unit :=
  fun w => (inl tt, set_session s w).
Definition st_write (m : Msg) : M unit :=
  fun w => (inl tt, set_page (page w ++ [m]) w).

(* ================================================================== *)
(** ** database_manager.py *)

Definition create_connection : M bool :=
  fun w => match conn_faults w with
           | true :: fs => (inl false, set_conn_faults fs w)
           | false :: fs => (inl true, set_conn_faults fs w)
           | [] => (inl true, w)
           end.

(** One [cursor.execute]: the statement takes effect, or raises and has
    none. *)
Definition cursor_execute {R} (stmt : Store -> Store * R) : M R :=
  fun w =>
    let run (w' : World) : (R + exn) * World :=
      (inl (snd (stmt (db w'))), set_db (fst (stmt (db w'))) w') in
    match stmt_faults w with
    | true :: fs => (inr MySQLError, set_stmt_faults fs w)
    | false :: fs => run (set_stmt_faults fs w)
    | [] => run w
    end.

(** [execute_query], by the three shapes of its result.  [None] is the
    Python [None] returned when no connection could be made.  The
    statement is committed on success; on an error it is rolled back and
    the error re-raised. *)
Definition execute_query_fetch {R} (q : Store -> list R)
  : M (option (list R)) :=
  ok <- create_connection ;;
  if ok then rows <- cursor_execute (fun d => (d, q d)) ;; ret (Some rows)
  else ret None.

Definition execute_query_insert (q : Store -> Store * Z) : M (option Z) :=
  ok <- create_connection ;;
  if ok then lastrowid <- cursor_execute q ;; ret (Some lastrowid)
  else ret None.

Definition execute_query_update (q : Store -> Store * nat)
  : M (option bool) :=
  ok <- create_connection ;;
  if ok then rowcount <- cursor_execute q ;; ret (Some (0 <? rowcount)%nat)
  else ret None.

(** Python truth of the values the callers test. *)
Definition truthy_bool (r : option bool) : bool :=
  match r with Some b => b | None => false end.
Definition truthy_id (r : option Z) : bool :=
  match r with Some z => negb (z =? 0) | None => false end.
Definition truthy_rows {R} (r : option (list R)) : bool :=
  match r with Some (_ :: _) => true | _ => false end.

(** [UPDATE t SET ... WHERE ...]: the rows after the statement and the
    affected-row count, which in MySQL counts the rows whose contents
    changed. *)
Definition update_rows {R} (matches : R -> bool) (assign : R -> R)
           (same : R -> R -> bool) (rows : list R) : list R :=
  map (fun r => if matches r && negb (same r (assign r)) then assign r
                else r) rows.

Definition changed_rows {R} (matches : R -> bool) (assign : R -> R)
           (same : R -> R -> bool) (rows : list R) : nat :=
  List.length (filter (fun r => matches r && negb (same r (assign r))) rows).

(** [SUM(...)]: NULL over no rows. *)
Definition sql_sum (l : list Decimal) : option Decimal :=
  match l with
  | [] => None
  | x :: t => Some (fold_left Dec.add t x)
  end.

Definition opt_eqb {A} (eqb : A -> A -> bool) (a b : option A) : bool :=
  match a, b with
  | Some x, Some y => eqb x y
  | None, None => true
  | _, _ => false
  end.

(** [ORDER BY key]: a stable insertion sort under the collation. *)
Fixpoint insert_by {R} (leb : string -> string -> bool) (key : R -> string)
         (r : R) (l : list R) : list R :=
  match l with
  | [] => [r]
  | x :: t => if leb (key r) (key x) then r :: x :: t
              else x :: insert_by leb key r t
  end.

Definition order_by {R} (leb : string -> string -> bool) (key : R -> string)
           (l : list R) : list R :=
  fold_right (insert_by leb key) [] l.

(** *** Accounts *)

Definition get_accounts_by_user (uid : Z) : M (option (list Account)) :=
  execute_query_fetch
    (fun d => filter (fun a => acc_user_id a =? uid) (accounts d)).

Definition get_all_accounts : M (option (list Account)) :=
  execute_query_fetch
    (fun d => flat_map
                (fun a => map (fun _ => a)
                            (filter (fun u => acc_user_id a =? user_id u)
                                    (users d)))
                (accounts d)).

Definition set_current_balance (b : Decimal) (a : Account) : Account :=
  mkAccount (account_id a) (acc_user_id a) (account_name a)
            (account_type a) b (acc_currency a).

Definition same_balance (a a' : Account) : bool :=
  Dec.eqb (current_balance a) (current_balance a').

Definition update_account_balance (aid : Z) (new_balance : Decimal)
  : M (option bool) :=
  execute_query_update
    (fun d =>
       let m := fun a => account_id a =? aid in
       let asg := set_current_balance new_balance in
       (set_accounts (update_rows m asg same_balance (accounts d)) d,
        changed_rows m asg same_balance (accounts d))).

(** *** Portfolios *)

Definition get_portfolios_by_user (uid : Z) : M (option (list Portfolio)) :=
  execute_query_fetch
    (fun d => filter (fun p => pf_user_id p =? uid) (portfolios d)).

Inductive PortfolioAssign : Type :=
| SetPortfolioName (v : string)
| SetDescription (v : string).

Definition apply_portfolio_assign (p : Portfolio) (u : PortfolioAssign)
  : Portfolio :=
  match u with
  | SetPortfolioName v =>
      mkPortfolio (portfolio_id p) (pf_user_id p) v (pf_description p)
  | SetDescription v =>
      mkPortfolio (portfolio_id p) (pf_user_id p) (portfolio_name p) (Some v)
  end.

Definition same_portfolio (p p' : Portfolio) : bool :=
  (portfolio_id p =? portfolio_id p') && (pf_user_id p =? pf_user_id p')
  && String.eqb (portfolio_name p) (portfolio_name p')
  && opt_eqb String.eqb (pf_description p) (pf_description p').

Definition opt_assign {A U} (mk : A -> U) (v : option A) : list U :=
  match v with Some x => [mk x] | None => [] end.

Definition update_portfolio (pid : Z) (portfolio_name description
                                        : option string)
  : M (option bool) :=
  let updates :=
    opt_assign SetPortfolioName portfolio_name
    ++ opt_assign SetDescription description in
  match updates with
  | [] => ret (Some false)
  | _ =>
      execute_query_update
        (fun d =>
           let m := fun p => portfolio_id p =? pid in
           let asg := fun p => fold_left apply_portfolio_assign updates p in
           (set_portfolios (update_rows m asg same_portfolio (portfolios d)) d,
            changed_rows m asg same_portfolio (portfolios d)))
  end.

(** *** Asset types and assets *)

Definition get_asset_types : M (option (list AssetType)) :=
  execute_query_fetch
    (fun d => order_by (collation d) type_name (asset_types d)).

Definition get_all_assets : M (option (list Asset)) :=
  execute_query_fetch (fun d => order_by (collation d) name (assets d)).

Definition get_asset_by_id (aid : Z) : M (option Asset) :=
  result <- execute_query_fetch
              (fun d => filter (fun a => asset_id a =? aid) (assets d)) ;;
  ret (match result with
       | Some (a :: _) => Some a
       | _ => None
       end).

Definition set_unit_price (p : Decimal) (a : Asset) : Asset :=
  mkAsset (asset_id a) (name a) p (unit_type a).

Definition same_price (a a' : Asset) : bool :=
  Dec.eqb (unit_price a) (unit_price a').

Definition update_asset_price (aid : Z) (new_unit_price : Decimal)
  : M (option bool) :=
  execute_query_update
    (fun d =>
       let m := fun a => asset_id a =? aid in
       let asg := set_unit_price new_unit_price in
       (set_assets (update_rows m asg same_price (assets d)) d,
        changed_rows m asg same_price (assets d))).

(** *** Investments *)

Definition add_investment (uid pid category_id aid : Z)
           (investment_name : string) (symbol : option string)
           (initial_investment_amount : Decimal) (purchase_date : string)
           (quantity : Decimal) (currency : string) (notes : option string)
  : M (option Z) :=
  execute_query_insert
    (fun d =>
       let id := next_investment_id d in
       let row := mkInvestment id uid pid category_id aid investment_name
                               symbol initial_investment_amount
                               purchase_date quantity currency notes in
       (mkStore (users d) (accounts d) (portfolios d) (asset_types d)
                (assets d) (investments d ++ [row]) (transactions d)
                (id + 1) (next_transaction_id d) (collation d),
        id)).

Definition join_row (i : Investment) (p : Portfolio) (t : AssetType)
           (a : Asset) : InvestmentRow :=
  mkInvestmentRow (investment_id i) (inv_user_id i)
                  (inv_portfolio_id i) (portfolio_name p)
                  (inv_asset_category_id i) (type_name t)
                  (inv_asset_id i) (name a) (unit_price a) (unit_type a)
                  (investment_name i) (symbol i)
                  (initial_investment_amount i) (purchase_date i)
                  (quantity i)
                  (quantity i * unit_price a)%dec
                  (inv_currency i) (notes i).

(** The three inner joins of one investment, in table order. *)
Definition join_investment (d : Store) (i : Investment)
  : list InvestmentRow :=
  flat_map
    (fun p =>
       flat_map
         (fun t =>
            map (join_row i p t)
                (filter (fun a => inv_asset_id i =? asset_id a) (assets d)))
         (filter (fun t => inv_asset_category_id i =? asset_type_id t)
                 (asset_types d)))
    (filter (fun p => inv_portfolio_id i =? portfolio_id p) (portfolios d)).

Definition select_investments_by_user (uid : Z) (d : Store)
  : list InvestmentRow :=
  flat_map (join_investment d)
           (filter (fun i => inv_user_id i =? uid) (investments d)).

Definition get_investments_by_user (uid : Z)
  : M (option (list InvestmentRow)) :=
  execute_query_fetch (select_investments_by_user uid).

Inductive InvestmentAssign : Type :=
| SetInvestmentName (v : string)
| SetSymbol (v : string)
| SetInitialInvestmentAmount (v : Decimal)
| SetPurchaseDate (v : string)
| SetQuantity (v : Decimal)
| SetCurrency (v : string)
| SetNotes (v : string)
| SetPortfolioId (v : Z)
| SetAssetCategoryId (v : Z)
| SetAssetId (v : Z).

Definition apply_investment_assign (i : Investment) (u : InvestmentAssign)
  : Investment :=
  let mk := mkInvestment (investment_id i) (inv_user_id i) in
  match u with
  | SetInvestmentName v =>
      mk (inv_portfolio_id i) (inv_asset_category_id i) (inv_asset_id i) v
         (symbol i) (initial_investment_amount i) (purchase_date i)
         (quantity i) (inv_currency i) (notes i)
  | SetSymbol v =>
      mk (inv_portfolio_id i) (inv_asset_category_id i) (inv_asset_id i)
         (investment_name i) (Some v) (initial_investment_amount i)
         (purchase_date i) (quantity i) (inv_currency i) (notes i)
  | SetInitialInvestmentAmount v =>
      mk (inv_portfolio_id i) (inv_asset_category_id i) (inv_asset_id i)
         (investment_name i) (symbol i) v (purchase_date i) (quantity i)
         (inv_currency i) (notes i)
  | SetPurchaseDate v =>
      mk (inv_portfolio_id i) (inv_asset_category_id i) (inv_asset_id i)
         (investment_name i) (symbol i) (initial_investment_amount i) v
         (quantity i) (inv_currency i) (notes i)
  | SetQuantity v =>
      mk (inv_portfolio_id i) (inv_asset_category_id i) (inv_asset_id i)
         (investment_name i) (symbol i) (initial_investment_amount i)
         (purchase_date i) v (inv_currency i) (notes i)
  | SetCurrency v =>
      mk (inv_portfolio_id i) (inv_asset_category_id i) (inv_asset_id i)
         (investment_name i) (symbol i) (initial_investment_amount i)
         (purchase_date i) (quantity i) v (notes i)
  | SetNotes v =>
      mk (inv_portfolio_id i) (inv_asset_category_id i) (inv_asset_id i)
         (investment_name i) (symbol i) (initial_investment_amount i)
         (purchase_date i) (quantity i) (inv_currency i) (Some v)
  | SetPortfolioId v =>
      mk v (inv_asset_category_id i) (inv_asset_id i)
         (investment_name i) (symbol i) (initial_investment_amount i)
         (purchase_date i) (quantity i) (inv_currency i) (notes i)
  | SetAssetCategoryId v =>
      mk (inv_portfolio_id i) v (inv_asset_id i)
         (investment_name i) (symbol i) (initial_investment_amount i)
         (purchase_date i) (quantity i) (inv_currency i) (notes i)
  | SetAssetId v =>
      mk (inv_portfolio_id i) (inv_asset_category_id i) v
         (investment_name i) (symbol i) (initial_investment_amount i)
         (purchase_date i) (quantity i) (inv_currency i) (notes i)
  end.

Definition same_investment (i j : Investment) : bool :=
  (investment_id i =? investment_id j)
  && (inv_user_id i =? inv_user_id j)
  && (inv_portfolio_id i =? inv_portfolio_id j)
  && (inv_asset_category_id i =? inv_asset_category_id j)
  && (inv_asset_id i =? inv_asset_id j)
  && String.eqb (investment_name i) (investment_name j)
  && opt_eqb String.eqb (symbol i) (symbol j)
  && Dec.eqb (initial_investment_amount i) (initial_investment_amount j)
  && String.eqb (purchase_date i) (purchase_date j)
  && Dec.eqb (quantity i) (quantity j)
  && String.eqb (inv_currency i) (inv_currency j)
  && opt_eqb String.eqb (notes i) (notes j).

(** [UPDATE investments SET ... WHERE investment_id = %s] *)
Definition update_investment_stmt (iid : Z) (updates : list InvestmentAssign)
           (d : Store) : Store * nat :=
  let m := fun i => investment_id i =? iid in
  let asg := fun i => fold_left apply_investment_assign updates i in
  (set_investments (update_rows m asg same_investment (investments d)) d,
   changed_rows m asg same_investment (investments d)).

Definition update_investment (iid : Z)
           (investment_name symbol : option string)
           (initial_investment_amount : option Decimal)
           (purchase_date : option string)
           (quantity : option Decimal)
           (currency notes : option string)
           (portfolio_id asset_category_id asset_id : option Z)
  : M (option bool) :=
  let updates :=
    opt_assign SetInvestmentName investment_name
    ++ opt_assign SetSymbol symbol
    ++ opt_assign SetInitialInvestmentAmount initial_investment_amount
    ++ opt_assign SetPurchaseDate purchase_date
    ++ opt_assign SetQuantity quantity
    ++ opt_assign SetCurrency currency
    ++ opt_assign SetNotes notes
    ++ opt_assign SetPortfolioId portfolio_id
    ++ opt_assign SetAssetCategoryId asset_category_id
    ++ opt_assign SetAssetId asset_id in
  match updates with
  | [] => ret (Some false)
  | _ => execute_query_update (update_investment_stmt iid updates)
  end.

(** *** Transactions *)

Definition add_transaction (uid : Z) (account_id investment_id asset_id
                                       : option Z)
           (transaction_type : option string)
           (amount quantity unit_price_at_transaction : option Decimal)
           (description : option Description)
  : M (option Z) :=
  execute_query_insert
    (fun d =>
       let id := next_transaction_id d in
       let row := mkTransaction id uid account_id investment_id asset_id
                                transaction_type amount quantity
                                unit_price_at_transaction description in
       (mkStore (users d) (accounts d) (portfolios d) (asset_types d)
                (assets d) (investments d) (transactions d ++ [row])
                (next_investment_id d) (id + 1) (collation d),
        id)).

(** *** Dashboard data *)

Definition select_total_balance (uid : Z) (d : Store)
  : list (option Decimal) :=
  [sql_sum (map current_balance
                (filter (fun a => acc_user_id a =? uid) (accounts d)))].

Definition select_total_investment_value (uid : Z) (d : Store)
  : list (option Decimal) :=
  [sql_sum
     (flat_map
        (fun i =>
           map (fun a => (quantity i * unit_price a)%dec)
               (filter (fun a => inv_asset_id i =? asset_id a) (assets d)))
        (filter (fun i => inv_user_id i =? uid) (investments d)))].

(** [rows[0][col] if rows and rows[0][col] is not None else
    Decimal('0.00')] *)
Definition first_or_zero (rows : option (list (option Decimal)))
  : Decimal :=
  match rows with
  | Some (Some v :: _) => v
  | _ => Dec.zero2
  end.

Definition get_portfolio_summary (uid : Z) : M Summary :=
  account_balances <- execute_query_fetch (select_total_balance uid) ;;
  let total_account_balance := first_or_zero account_balances in
  investment_values <-
    execute_query_fetch (select_total_investment_value uid) ;;
  let total_investment_value := first_or_zero investment_values in
  ret (mkSummary total_account_balance total_investment_value
                 (total_account_balance + total_investment_value)%dec).

(** *** Deleting a user *)

Definition delete_where {R} (p : R -> bool) (rows : list R)
  : list R * nat :=
  (filter (fun r => negb (p r)) rows, List.length (filter p rows)).

Definition delete_user_statements (uid : Z) : M unit :=
  cursor_execute
    (fun d => let (l, n) := delete_where (fun t => tx_user_id t =? uid)
                                         (transactions d) in
              (set_transactions l d, n)) ;;
  cursor_execute
    (fun d => let (l, n) := delete_where (fun i => inv_user_id i =? uid)
                                         (investments d) in
              (set_investments l d, n)) ;;
  cursor_execute
    (fun d => let (l, n) := delete_where (fun a => acc_user_id a =? uid)
                                         (accounts d) in
              (set_accounts l d, n)) ;;
  cursor_execute
    (fun d => let (l, n) := delete_where (fun p => pf_user_id p =? uid)
                                         (portfolios d) in
              (set_portfolios l d, n)) ;;
  cursor_execute
    (fun d => let (l, n) := delete_where (fun u => user_id u =? uid)
                                         (users d) in
              (set_users l d, n)) ;;
  ret tt.

(** The five deletions run in one transaction: committed together, or
    rolled back to the store at [start_transaction] and the error
    re-raised. *)
Definition delete_user_and_all_data (uid : Z) : M bool :=
  ok <- create_connection ;;
  if negb ok then ret false
  else
    fun w0 =>
      try_except
        (delete_user_statements uid ;; ret true)
        (fun e => fun w => (inr e, set_db (db w0) w))
        w0.

(** *** Data frames *)

Definition frame {R} (rows : option (list R)) : list R :=
  match rows with
  | Some l => l
  | None => []
  end.

Definition get_account_balances_df (uid : Z) : M (list Account) :=
  accounts <- (if negb (uid =? 0) then get_accounts_by_user uid
               else get_all_accounts) ;;
  ret (frame accounts).

Definition get_portfolios_df (uid : Z) : M (list Portfolio) :=
  portfolios <- get_portfolios_by_user uid ;;
  ret (frame portfolios).

Definition get_asset_types_df : M (list AssetType) :=
  asset_types <- get_asset_types ;;
  ret (frame asset_types).

Definition get_assets_df : M (list Asset) :=
  assets <- get_all_assets ;;
  ret (frame assets).

(* ================================================================== *)
(** ** app.py *)

Definition empty_summary : Summary :=
  mkSummary Dec.zero2 Dec.zero2 Dec.zero2.

Definition modify_session (f : Session -> Session) : M unit :=
  fun w => (inl tt, set_session (f (session w)) w).

Definition with_accounts_df (l : list Account) (s : Session) : Session :=
  mkSession (ss_user_id s) (ss_user_role s) l (portfolios_df s)
            (asset_types_df s) (assets_df s) (portfolio_summary s).
Definition with_portfolios_df (l : list Portfolio) (s : Session) : Session :=
  mkSession (ss_user_id s) (ss_user_role s) (accounts_df s) l
            (asset_types_df s) (assets_df s) (portfolio_summary s).
Definition with_asset_types_df (l : list AssetType) (s : Session)
  : Session :=
  mkSession (ss_user_id s) (ss_user_role s) (accounts_df s)
            (portfolios_df s) l (assets_df s) (portfolio_summary s).
Definition with_assets_df (l : list Asset) (s : Session) : Session :=
  mkSession (ss_user_id s) (ss_user_role s) (accounts_df s)
            (portfolios_df s) (asset_types_df s) l (portfolio_summary s).
Definition with_portfolio_summary (x : Summary) (s : Session) : Session :=
  mkSession (ss_user_id s) (ss_user_role s) (accounts_df s)
            (portfolios_df s) (asset_types_df s) (assets_df s) x.

(** [load_data]: every frame is first reset, then read from the store.
    For an ordinary user the source also fills the investment and the
    transaction frame before the summary, and for an admin the four admin
    frames; these reads only feed the display and are left out, so the
    failure schedules count the reads kept here. *)
Definition load_data (uid : Z) (user_role : string) : M unit :=
  modify_session
    (fun s => mkSession (ss_user_id s) (ss_user_role s) [] [] [] []
                        empty_summary) ;;
  a <- get_account_balances_df uid ;;
  modify_session (with_accounts_df a) ;;
  p <- get_portfolios_df uid ;;
  modify_session (with_portfolios_df p) ;;
  t <- get_asset_types_df ;;
  modify_session (with_asset_types_df t) ;;
  x <- get_assets_df ;;
  modify_session (with_assets_df x) ;;
  if String.eqb user_role "admin" then ret tt
  else
    summary <- get_portfolio_summary uid ;;
    modify_session (with_portfolio_summary summary).

Definition refresh_data : M unit :=
  s <- get_session ;;
  if negb (ss_user_id s =? 0) && negb (String.eqb (ss_user_role s) "")
  then load_data (ss_user_id s) (ss_user_role s)
  else st_write WarnLoginToRefresh.

Definition st_rerun : M unit := raise RerunException.

(** [st.selectbox]: the option at the widget's index, the first option
    when the index does not fit, [None] when there are no options. *)
Definition selectbox {A} (options : list A) (index : nat) : option A :=
  match nth_error options index with
  | Some x => Some x
  | None => hd_error options
  end.

(** [df[cond].iloc[0]] *)
Definition iloc0 {R} (rows : list R) : M R :=
  match rows with
  | r :: _ => ret r
  | [] => raise IndexError
  end.

(** What the form of the buy page holds when the script runs.  The
    quantity is the decimal that [Decimal(str(quantity_to_buy))] makes of
    the number typed in. *)
Record Request : Type := mkRequest {
  buy_asset_account_select : nat;
  buy_asset_select : nat;
  quantity_to_buy : Decimal;
  submitted : bool;
  new_inv_portfolio_select : nat;
  new_inv_asset_category_select : nat;
  today : string }.

(** Lines 360-374: the row of the account chosen for payment. *)
Definition select_account (s : Session) (rq : Request)
  : M (option Account) :=
  let account_options := "None" :: map account_name (accounts_df s) in
  match selectbox account_options (buy_asset_account_select rq) with
  | Some selected_account_name =>
      if negb (String.eqb selected_account_name "None") then
        row <- iloc0 (filter (fun a => String.eqb (account_name a)
                                                  selected_account_name)
                             (accounts_df s)) ;;
        ret (Some row)
      else st_write WarnSelectAccount ;; ret None
  | None => raise IndexError
  end.

(** Lines 376-389: the row of the asset chosen. *)
Definition select_asset (s : Session) (rq : Request) : M (option Asset) :=
  let asset_options := map name (assets_df s) in
  match selectbox asset_options (buy_asset_select rq) with
  | Some selected_asset_name =>
      if negb (String.eqb selected_asset_name "") then
        row <- iloc0 (filter (fun a => String.eqb (name a)
                                                  selected_asset_name)
                             (assets_df s)) ;;
        ret (Some row)
      else st_write WarnSelectAsset ;; ret None
  | None => st_write WarnSelectAsset ;; ret None
  end.

(** Lines 436-472: no holding of the asset yet. *)
Definition add_new_holding (s : Session) (rq : Request) (acc : Account)
           (ast : Asset) (total_cost : Decimal) (continue : M unit)
  : M unit :=
  st_write WarnNoHolding ;;
  let portfolio_options := map portfolio_name (portfolios_df s) in
  let asset_category_options := map type_name (asset_types_df s) in
  match selectbox portfolio_options (new_inv_portfolio_select rq),
        selectbox asset_category_options (new_inv_asset_category_select rq)
  with
  | Some pname, Some cname =>
      if negb (String.eqb pname "") && negb (String.eqb cname "") then
        prow <- iloc0 (filter (fun p => String.eqb (portfolio_name p) pname)
                              (portfolios_df s)) ;;
        crow <- iloc0 (filter (fun t => String.eqb (type_name t) cname)
                              (asset_types_df s)) ;;
        new_investment_id <-
          add_investment (ss_user_id s) (portfolio_id prow)
                         (asset_type_id crow) (asset_id ast)
                         (name ast ++ " Holdings")%string None
                         total_cost (today rq) (quantity_to_buy rq)
                         (acc_currency acc)
                         (Some ("Initial purchase of " ++ name ast)%string) ;;
        if negb (truthy_id new_investment_id)
        then raise (PyException "Failed to add new investment.")
        else st_write (SuccessAddedInvestment (name ast)) ;; continue
      else st_write ErrSelectPortfolioAndCategory
  | _, _ => st_write ErrSelectPortfolioAndCategory
  end.

(** Lines 474-491: the log row, then the refresh and the rerun. *)
Definition log_transaction (s : Session) (rq : Request) (acc : Account)
           (ast : Asset) (total_cost : Decimal) : M unit :=
  transaction_id <-
    add_transaction (ss_user_id s) (Some (account_id acc)) None
                    (Some (asset_id ast)) (Some "Buy") (Some total_cost)
                    (Some (quantity_to_buy rq)) (Some (unit_price ast))
                    (Some (BoughtText (quantity_to_buy rq) (unit_type ast)
                                      (name ast))) ;;
  if negb (truthy_id transaction_id)
  then raise (PyException "Failed to log transaction.")
  else
    st_write (SuccessPurchased (quantity_to_buy rq) (unit_type ast)
                               (name ast) total_cost) ;;
    refresh_data ;;
    st_rerun.

(** Lines 419-491: the body of the [try]. *)
Definition purchase (s : Session) (rq : Request) (acc : Account)
           (ast : Asset) (total_cost : Decimal) : M unit :=
  let new_account_balance := (current_balance acc - total_cost)%dec in
  debited <- update_account_balance (account_id acc) new_account_balance ;;
  if negb (truthy_bool debited)
  then raise (PyException "Failed to update account balance.")
  else
    user_investments <- get_investments_by_user (ss_user_id s) ;;
    match user_investments with
    | None => raise TypeError
    | Some rows =>
        match find (fun inv => r_asset_id inv =? asset_id ast) rows with
        | Some existing_investment =>
            let new_quantity :=
              (r_quantity existing_investment + quantity_to_buy rq)%dec in
            updated <-
              update_investment (r_investment_id existing_investment)
                                None None None None (Some new_quantity)
                                None None None None None ;;
            if negb (truthy_bool updated)
            then raise (PyException
                          "Failed to update existing investment quantity.")
            else
              st_write (SuccessUpdatedHoldings (name ast)) ;;
              log_transaction s rq acc ast total_cost
        | None =>
            add_new_holding s rq acc ast total_cost
                            (log_transaction s rq acc ast total_cost)
        end
    end.

(** Lines 492-495: [except Error] and [except Exception].  [st.rerun]
    raises past both. *)
Definition purchase_failed (e : exn) : M unit :=
  match e with
  | MySQLError => st_write ErrDatabase
  | RerunException => raise RerunException
  | _ => st_write (ErrTransactionFailed e)
  end.

(** Lines 404-416: the checks made on submit, then the purchase. *)
Definition confirm_purchase (s : Session) (rq : Request)
           (selected_account_row : option Account)
           (selected_asset_row : option Asset)
           (current_account_balance total_cost : Decimal) : M unit :=
  match selected_account_row with
  | None => st_write ErrSelectAccount
  | Some acc =>
      if account_id acc =? 0 then st_write ErrSelectAccount
      else
        match selected_asset_row with
        | None => st_write ErrSelectAsset
        | Some ast =>
            if asset_id ast =? 0 then st_write ErrSelectAsset
            else if Dec.leb (quantity_to_buy rq) (mkDec 0 0)
            then st_write ErrQuantity
            else if Dec.gtb total_cost current_account_balance
            then st_write (ErrInsufficientBalance
                             total_cost current_account_balance
                             (account_name acc))
            else try_except (purchase s rq acc ast total_cost)
                            purchase_failed
        end
  end.

Definition buy_assets (rq : Request) : M unit :=
  s <- get_session ;;
  match assets_df s with
  | [] => st_write WarnNoAssets
  | _ :: _ =>
      match accounts_df s with
      | [] => st_write WarnNoAccounts
      | _ :: _ =>
          selected_account_row <- select_account s rq ;;
          let current_account_balance :=
            match selected_account_row with
            | Some row => current_balance row
            | None => Dec.zero2
            end in
          selected_asset_row <- select_asset s rq ;;
          let selected_asset_unit_price :=
            match selected_asset_row with
            | Some row => unit_price row
            | None => Dec.zero2
            end in
          let total_cost :=
            (quantity_to_buy rq * selected_asset_unit_price)%dec in
          if submitted rq
          then confirm_purchase s rq selected_account_row
                                selected_asset_row
                                current_account_balance total_cost
          else ret tt
      end
  end.

(** One run of the script for a logged-in user on the buy page: line 1094
    loads the frames, line 1109 shows the page. *)
Definition run_buy_page (rq : Request) : M unit :=
  s <- get_session ;;
  load_data (ss_user_id s) (ss_user_role s) ;;
  buy_assets rq.

(* ================================================================== *)
(** ** Notions the properties are stated with *)

(** The rows a user owns. *)
Definition accounts_of (uid : Z) (d : Store) : list Account :=
  filter (fun a => acc_user_id a =? uid) (accounts d).

Definition investments_of (uid : Z) (d : Store) : list Investment :=
  filter (fun i => inv_user_id i =? uid) (investments d).

(** The asset an investment refers to. *)
Definition referenced_asset (d : Store) (i : Investment) : option Asset :=
  find (fun a => inv_asset_id i =? asset_id a) (assets d).

(** [currentValue(investment, asset)] *)
Definition currentValue (i : Investment) (a : Asset) : Decimal :=
  (quantity i * unit_price a)%dec.

Definition investment_value (d : Store) (i : Investment) : Decimal :=
  match referenced_asset d i with
  | Some a => currentValue i a
  | None => Dec.zero2
  end.

(** Referential integrity of [investments.asset_id]: exactly one asset row
    carries the id. *)
Definition asset_resolved (d : Store) (i : Investment) : bool :=
  Nat.eqb (List.length (filter (fun a => inv_asset_id i =? asset_id a)
                               (assets d))) 1.

(** No failure is scheduled. *)
Definition healthy (w : World) : Prop :=
  conn_faults w = [] /\ stmt_faults w = [].

(** What the store holds once a user is deleted. *)
Definition user_purged (uid : Z) (d d' : Store) : Prop :=
  transactions d' = filter (fun t => negb (tx_user_id t =? uid))
                           (transactions d)
  /\ investments d' = filter (fun i => negb (inv_user_id i =? uid))
                             (investments d)
  /\ accounts d' = filter (fun a => negb (acc_user_id a =? uid))
                          (accounts d)
  /\ portfolios d' = filter (fun p => negb (pf_user_id p =? uid))
                            (portfolios d)
  /\ users d' = filter (fun u => negb (user_id u =? uid)) (users d)
  /\ assets d' = assets d /\ asset_types d' = asset_types d.

(** The form is submitted with an account and an asset chosen and a
    positive quantity: the first three checks of the purchase pass. *)
Definition selects (w : World) (rq : Request) (acc : Account) (ast : Asset)
  : Prop :=
  assets_df (session w) <> [] /\ accounts_df (session w) <> []
  /\ select_account (session w) rq w = (inl (Some acc), w)
  /\ select_asset (session w) rq w = (inl (Some ast), w)
  /\ submitted rq = true
  /\ account_id acc <> 0 /\ asset_id ast <> 0
  /\ Dec.leb (quantity_to_buy rq) (mkDec 0 0) = false.

(** [totalCost] *)
Definition total_cost (rq : Request) (ast : Asset) : Decimal :=
  (quantity_to_buy rq * unit_price ast)%dec.

(** A property of the worlds before and after that a computation keeps,
    however it ends. *)
Definition keeps {A} (P : World -> World -> Prop) (m : M A) : Prop :=
  forall w r w', m w = (r, w') -> P w w'.

(** Store and page are as they were. *)
Definition reads_only (w w' : World) : Prop :=
  db w' = db w /\ page w' = page w.

(** The store is as it was. *)
Definition same_db (w w' : World) : Prop := db w' = db w.

(** The messages a computation wrote: the page after, less the page
    before. *)
Definition written (w w' : World) : list Msg :=
  skipn (List.length (page w)) (page w').

Definition set_quantity (q : Decimal) (i : Investment) : Investment :=
  apply_investment_assign i (SetQuantity q).

(** The three mutations of a purchase, as relations between the store
    before and the store after. *)
Definition debited (acc : Account) (cost : Decimal) (d d' : Store) : Prop :=
  accounts d'
  = update_rows (fun a => account_id a =? account_id acc)
                (set_current_balance (current_balance acc - cost)%dec)
                same_balance (accounts d).

Definition first_holding (uid : Z) (ast : Asset) (d : Store)
  : option InvestmentRow :=
  find (fun inv => r_asset_id inv =? asset_id ast)
       (select_investments_by_user uid d).

Definition holding_updated (uid : Z) (rq : Request) (ast : Asset)
           (d d' : Store) : Prop :=
  exists ex,
    first_holding uid ast d = Some ex
    /\ investments d'
       = update_rows (fun i => investment_id i =? r_investment_id ex)
                     (set_quantity (r_quantity ex + quantity_to_buy rq)%dec)
                     same_investment (investments d).

Definition holding_created (uid : Z) (pfs : list Portfolio)
           (cats : list AssetType) (rq : Request) (acc : Account)
           (ast : Asset) (d d' : Store) : Prop :=
  first_holding uid ast d = None
  /\ exists prow crow,
      In prow pfs /\ In crow cats
      /\ investments d'
         = investments d
           ++ [mkInvestment (next_investment_id d) uid
                            (portfolio_id prow) (asset_type_id crow)
                            (asset_id ast) (name ast ++ " Holdings")%string
                            None (total_cost rq ast) (today rq)
                            (quantity_to_buy rq) (acc_currency acc)
                            (Some ("Initial purchase of " ++ name ast)%string)].

Definition buy_row (uid : Z) (rq : Request) (acc : Account)
           (ast : Asset) (id : Z) : Transaction :=
  mkTransaction id uid (Some (account_id acc)) None
                (Some (asset_id ast)) (Some "Buy")
                (Some (total_cost rq ast)) (Some (quantity_to_buy rq))
                (Some (unit_price ast))
                (Some (BoughtText (quantity_to_buy rq) (unit_type ast)
                                  (name ast))).

Definition logged (uid : Z) (rq : Request) (acc : Account)
           (ast : Asset) (d d' : Store) : Prop :=
  transactions d'
  = transactions d ++ [buy_row uid rq acc ast (next_transaction_id d)].

Definition is_purchase_msg (m : Msg) : bool :=
  match m with
  | SuccessPurchased _ _ _ _ => true
  | _ => false
  end.

(** No line of [l] announces a purchase. *)
Definition no_purchase (l : list Msg) : Prop :=
  Forall (fun m => is_purchase_msg m = false) l.

(** The line that announces the purchase of the request. *)
Definition purchase_msg (rq : Request) (ast : Asset) : Msg :=
  SuccessPurchased (quantity_to_buy rq) (unit_type ast) (name ast)
                   (total_cost rq ast).

(** All three mutations of the purchase are in the store; a new holding
    goes to a portfolio of [pfs] under a category of [cats]. *)
Definition purchase_applied (uid : Z) (pfs : list Portfolio)
           (cats : list AssetType) (rq : Request) (acc : Account)
           (ast : Asset) (d d' : Store) : Prop :=
  debited acc (total_cost rq ast) d d'
  /\ (holding_updated uid rq ast d d'
      \/ holding_created uid pfs cats rq acc ast d d')
  /\ logged uid rq acc ast d d'.

(** What a step did to the page: it wrote [l] after what was there. *)
Definition wrote (l : list Msg) (w w' : World) : Prop :=
  page w' = page w ++ l.

(** The outcome of the purchase as the page shows it: nothing announces a
    purchase, or one line does, and then the three mutations are in the
    store. *)
Definition purchase_outcome (s : Session) (rq : Request) (acc : Account)
           (ast : Asset) (w w' : World) : Prop :=
  exists l,
    wrote l w w'
    /\ (no_purchase l
        \/ (purchase_applied (ss_user_id s) (portfolios_df s)
                             (asset_types_df s) rq acc ast (db w) (db w')
            /\ exists l1 l2,
                l = l1 ++ purchase_msg rq ast :: l2
                /\ no_purchase l1 /\ no_purchase l2)).


(** Store, page and session are as they were. *)
Definition untouched (w w' : World) : Prop :=
  db w' = db w /\ page w' = page w /\ session w' = session w.

(** The frames hold rows of the store. *)
Definition frames_sound (uid : Z) (d : Store) (s : Session) : Prop :=
  incl (accounts_df s) (accounts d)
  /\ (uid <> 0 -> Forall (fun a => acc_user_id a = uid) (accounts_df s))
  /\ incl (portfolios_df s) (portfolios d)
  /\ incl (asset_types_df s) (asset_types d)
  /\ incl (assets_df s) (assets d).

(** The accounts and the holdings are as they were. *)
Definition holdings_kept (w w' : World) : Prop :=
  accounts (db w') = accounts (db w)
  /\ investments (db w') = investments (db w)
  /\ next_investment_id (db w') = next_investment_id (db w).

(** The summary as a function of the store. *)
Definition summary_of (uid : Z) (d : Store) : Summary :=
  let balance := first_or_zero (Some (select_total_balance uid d)) in
  let value :=
    first_or_zero (Some (select_total_investment_value uid d)) in
  mkSummary balance value (balance + value)%dec.

(** The session once [load_data] has read the store for a user. *)
Definition loaded (uid : Z) (user_role : string) (d : Store) (s : Session)
  : Session :=
  mkSession (ss_user_id s) (ss_user_role s)
            (accounts_of uid d)
            (filter (fun p => pf_user_id p =? uid) (portfolios d))
            (order_by (collation d) type_name (asset_types d))
            (order_by (collation d) name (assets d))
            (if String.eqb user_role "admin" then empty_summary
             else summary_of uid d).

(** What one showing of the buy page did: no line announces a purchase,
    or exactly one does and the purchase of the chosen account and asset
    is in the store. *)
Definition page_outcome (rq : Request) (w w' : World) : Prop :=
  exists l,
    wrote l w w'
    /\ (no_purchase l
        \/ exists acc ast l1 l2,
            In acc (accounts_df (session w))
            /\ In ast (assets_df (session w))
            /\ purchase_applied (ss_user_id (session w))
                                (portfolios_df (session w))
                                (asset_types_df (session w))
                                rq acc ast (db w) (db w')
            /\ l = l1 ++ purchase_msg rq ast :: l2
            /\ no_purchase l1 /\ no_purchase l2).


(* ================================================================== *)
(** ** database_manager.py, the remaining single-table operations *)

(** *** Users *)

Definition get_user_by_id (uid : Z) : M (option (list User)) :=
  execute_query_fetch
    (fun d => filter (fun u => user_id u =? uid) (users d)).

(** [result[0]['role'] if result else None] *)
Definition get_user_role (uid : Z) : M (option string) :=
  result <- execute_query_fetch
              (fun d => map role (filter (fun u => user_id u =? uid)
                                         (users d))) ;;
  ret (match result with
       | Some (r :: _) => Some r
       | _ => None
       end).

(** *** Deletions by id *)

Definition delete_portfolio (pid : Z) : M (option bool) :=
  execute_query_update
    (fun d => let (l, n) := delete_where (fun p => portfolio_id p =? pid)
                                         (portfolios d) in
              (set_portfolios l d, n)).

Definition delete_account (aid : Z) : M (option bool) :=
  execute_query_update
    (fun d => let (l, n) := delete_where (fun a => account_id a =? aid)
                                         (accounts d) in
              (set_accounts l d, n)).

Definition delete_investment (iid : Z) : M (option bool) :=
  execute_query_update
    (fun d => let (l, n) := delete_where (fun i => investment_id i =? iid)
                                         (investments d) in
              (set_investments l d, n)).

Definition delete_transaction (tid : Z) : M (option bool) :=
  execute_query_update
    (fun d => let (l, n) := delete_where (fun t => transaction_id t =? tid)
                                         (transactions d) in
              (set_transactions l d, n)).

(* ================================================================== *)
(** ** Notions for the further properties *)

(** No row of any table carries the user id. *)
Definition unknown_user (uid : Z) (d : Store) : Prop :=
  Forall (fun t => tx_user_id t <> uid) (transactions d)
  /\ Forall (fun i => inv_user_id i <> uid) (investments d)
  /\ Forall (fun a => acc_user_id a <> uid) (accounts d)
  /\ Forall (fun p => pf_user_id p <> uid) (portfolios d)
  /\ Forall (fun u => user_id u <> uid) (users d).

(** What [DELETE FROM t WHERE id = %s] did to a table, and what it
    reports: whether a row carried the id. *)
Definition deleted_by_id {R} (key : R -> Z) (id : Z) (l l' : list R)
           (r : option bool + exn) : Prop :=
  (l' = filter (fun x => negb (key x =? id)) l
   /\ r = inl (Some (existsb (fun x => key x =? id) l)))
  \/ (l' = l /\ (r = inl None \/ r = inr MySQLError)).

(** The row that [add_investment] inserts. *)
Definition new_investment (d : Store) (uid pid cid aid : Z)
           (nm : string) (sym : option string) (amount : Decimal)
           (date : string) (q : Decimal) (cur : string)
           (nts : option string) : Investment :=
  mkInvestment (next_investment_id d) uid pid cid aid nm sym amount date q
               cur nts.

(** The stores the writes of a purchase lead through: the debit, then the
    holding raised or opened, then the row in the log. *)
Definition debit_store (acc : Account) (cost : Decimal) (d : Store) : Store :=
  set_accounts
    (update_rows (fun a => account_id a =? account_id acc)
                 (set_current_balance (current_balance acc - cost)%dec)
                 same_balance (accounts d))
    d.

Definition raise_holding (ex : InvestmentRow) (q : Decimal) (d : Store)
  : Store :=
  fst (update_investment_stmt (r_investment_id ex)
                              [SetQuantity (r_quantity ex + q)%dec] d).

Definition open_holding (uid : Z) (prow : Portfolio) (crow : AssetType)
           (rq : Request) (acc : Account) (ast : Asset) (d : Store)
  : Store :=
  mkStore (users d) (accounts d) (portfolios d) (asset_types d) (assets d)
          (investments d
           ++ [new_investment d uid (portfolio_id prow) (asset_type_id crow)
                              (asset_id ast) (name ast ++ " Holdings")%string
                              None (total_cost rq ast) (today rq)
                              (quantity_to_buy rq) (acc_currency acc)
                              (Some ("Initial purchase of "
                                       ++ name ast)%string)])
          (transactions d) (next_investment_id d + 1)
          (next_transaction_id d) (collation d).

Definition log_store (uid : Z) (rq : Request) (acc : Account) (ast : Asset)
           (d : Store) : Store :=
  mkStore (users d) (accounts d) (portfolios d) (asset_types d) (assets d)
          (investments d)
          (transactions d ++ [buy_row uid rq acc ast (next_transaction_id d)])
          (next_investment_id d) (next_transaction_id d + 1) (collation d).

(** The second write, from the store [d1] the debit left; a new holding
    goes to a portfolio of [pfs] under a category of [cats]. *)
Definition holding_store (uid : Z) (pfs : list Portfolio)
           (cats : list AssetType) (rq : Request) (acc : Account)
           (ast : Asset) (d1 d2 : Store) : Prop :=
  match first_holding uid ast d1 with
  | Some ex => d2 = raise_holding ex (quantity_to_buy rq) d1
  | None =>
      exists prow crow,
        In prow pfs /\ In crow cats
        /\ d2 = open_holding uid prow crow rq acc ast d1
  end.

(** [d'] is [d] after none, one, two or all three of the writes, in their
    order. *)
Definition purchase_stores (uid : Z) (pfs : list Portfolio)
           (cats : list AssetType) (rq : Request) (acc : Account)
           (ast : Asset) (d d' : Store) : Prop :=
  let d1 := debit_store acc (total_cost rq ast) d in
  d' = d \/ d' = d1
  \/ exists d2,
      holding_store uid pfs cats rq acc ast d1 d2
      /\ (d' = d2 \/ d' = log_store uid rq acc ast d2).

(** The checks of lines 404-416 all pass. *)
Definition checks_passed (rq : Request) (acc : Account) (ast : Asset)
  : Prop :=
  submitted rq = true /\ account_id acc <> 0 /\ asset_id ast <> 0
  /\ Dec.leb (quantity_to_buy rq) (mkDec 0 0) = false
  /\ Dec.gtb (total_cost rq ast) (current_balance acc) = false.

(** A frame after a load: the rows the query gives now, or none. *)
Definition fresh_or_empty {R} (l now : list R) : Prop := l = [] \/ l = now.

(** The frames hold what the store holds for the user, or nothing. *)
Definition frames_fresh (uid : Z) (d : Store) (s : Session) : Prop :=
  fresh_or_empty (accounts_df s) (accounts_of uid d)
  /\ fresh_or_empty (portfolios_df s)
                    (filter (fun p => pf_user_id p =? uid) (portfolios d))
  /\ fresh_or_empty (asset_types_df s)
                    (order_by (collation d) type_name (asset_types d))
  /\ fresh_or_empty (assets_df s) (order_by (collation d) name (assets d)).

(* ================================================================== *)
(** ** Worked scenarios *)

Module Scenario.

Definition ann : User := mkUser 1 "ann" "5e88" None "user".
Definition bob : User := mkUser 2 "bob" "9f86" None "user".

Definition gold : Asset := mkAsset 5 "Gold" (mkDec 7000 2) "grams".
Definition bitcoin : Asset := mkAsset 6 "Bitcoin" (mkDec 6500000 2) "BTC".
Definition commodity : AssetType := mkAssetType 1 "Commodity" None.

(** 1000.00 in Ann's account, 500.00 in Bob's. *)
Definition savings : Account :=
  mkAccount 10 1 "Savings" "Savings" (mkDec 100000 2) "USD".
Definition checking : Account :=
  mkAccount 11 2 "Checking" "Checking" (mkDec 50000 2) "USD".

Definition core : Portfolio := mkPortfolio 3 1 "Core" None.

(** Ann holds 10.0 grams of gold. *)
Definition gold_holding : Investment :=
  mkInvestment 7 1 3 1 5 "Gold Holdings" None (mkDec 70000 2) "2024-01-01"
               (mkDec 100 1) "USD" None.

Definition bob_deposit : Transaction :=
  mkTransaction 1 2 (Some 11) None None (Some "Deposit")
                (Some (mkDec 50000 2)) None None (Some (Text "opening")).

(** Ann has an account but no portfolio and no holding. *)
Definition store_bare : Store :=
  mkStore [ann; bob] [savings; checking] [] [commodity] [gold; bitcoin]
          [] [bob_deposit] 8 2 String.leb.

(** Ann has a portfolio and no holding. *)
Definition store_portfolio : Store :=
  mkStore [ann; bob] [savings; checking] [core] [commodity] [gold; bitcoin]
          [] [bob_deposit] 8 2 String.leb.

(** Ann has a portfolio and holds gold in it. *)
Definition store_holding : Store :=
  mkStore [ann; bob] [savings; checking] [core] [commodity] [gold; bitcoin]
          [gold_holding] [bob_deposit] 8 2 String.leb.

(** Balance 100.00, unit price 50.00. *)
Definition store_poor : Store :=
  mkStore [ann] [mkAccount 10 1 "Savings" "Savings" (mkDec 10000 2) "USD"]
          [core] [commodity] [mkAsset 5 "Gold" (mkDec 5000 2) "grams"]
          [] [] 1 1 String.leb.

Definition ann_session : Session :=
  mkSession 1 "user" [] [] [] [] empty_summary.

(** Ann is logged in and nothing fails. *)
Definition world (d : Store) : World := mkWorld d [] [] ann_session [].

(** The same, with the frames loaded. *)
Definition world_loaded (d : Store) : World :=
  set_session (loaded 1 "user" d ann_session) (world d).

(** The tenth statement of the run raises: the six reads of [load_data]
    kept here, the debit, the read of the holdings and the update of the
    holding go through, the insert into the log does not. *)
Definition world_log_fails : World :=
  mkWorld store_holding []
          [false; false; false; false; false; false; false; false; false;
           true]
          ann_session [].

(** Account "Savings", asset "Gold" (second by name), quantity 5.0. *)
Definition buy_5_gold : Request :=
  mkRequest 1 1 (mkDec 50 1) true 0 0 "2024-06-01".

(** Account "Savings", the only asset, quantity 3.0. *)
Definition buy_3 : Request :=
  mkRequest 1 0 (mkDec 30 1) true 0 0 "2024-06-01".

(** The third statement raises: of the five deletions of a user, the
    transactions and the investments are deleted, the accounts are not. *)
Definition world_delete_fails : World :=
  mkWorld store_holding [] [false; false; true] ann_session [].

(** No connection can be made, twice. *)
Definition world_offline : World :=
  mkWorld store_holding [true; true] [] ann_session [].

(** The second connection cannot be made: in [load_data], the one for
    the portfolios. *)
Definition world_second_read_fails : World :=
  mkWorld store_holding [false; true] [] ann_session [].

End Scenario.

(* ================================================================== *)
(** * Properties *)

(** ** The primitives *)

Lemma healthy_set_db d w : healthy w -> healthy (set_db d w).
Proof. intros [H1 H2]; split; assumption. Qed.

Lemma set_db_same w : set_db (db w) w = w.
Proof. destruct w; reflexivity. Qed.

Lemma fetch_healthy R (q : Store -> list R) w :
  healthy w -> execute_query_fetch q w = (inl (Some (q (db w))), w).
Proof.
  intros [Hc Hs].
  unfold execute_query_fetch, bind, create_connection, cursor_execute, ret.
  rewrite Hc; cbn. rewrite Hs; cbn. now rewrite set_db_same.
Qed.

Lemma update_healthy (q : Store -> Store * nat) w :
  healthy w ->
  execute_query_update q w
  = (inl (Some (0 <? snd (q (db w)))%nat), set_db (fst (q (db w))) w).
Proof.
  intros [Hc Hs].
  unfold execute_query_update, bind, create_connection, cursor_execute, ret.
  rewrite Hc; cbn. rewrite Hs; cbn. reflexivity.
Qed.

(** Whatever the schedules hold: a read leaves store, session and page as
    they were. *)
Lemma fetch_inv R (q : Store -> list R) w r w' :
  execute_query_fetch q w = (r, w') ->
  db w' = db w /\ session w' = session w /\ page w' = page w
  /\ (r = inl (Some (q (db w))) \/ r = inl None \/ r = inr MySQLError).
Proof.
  unfold execute_query_fetch, bind, create_connection, cursor_execute, ret.
  destruct w as [d cf sf s p]; cbn.
  destruct cf as [|[] cf]; cbn; destruct sf as [|[] sf]; cbn;
    intros H; inversion H; subst; cbn; auto 10.
Qed.

Lemma update_inv (q : Store -> Store * nat) w r w' :
  execute_query_update q w = (r, w') ->
  session w' = session w /\ page w' = page w
  /\ ((r = inl (Some (0 <? snd (q (db w)))%nat) /\ db w' = fst (q (db w)))
      \/ ((r = inl None \/ r = inr MySQLError) /\ db w' = db w)).
Proof.
  unfold execute_query_update, bind, create_connection, cursor_execute, ret.
  destruct w as [d cf sf s p]; cbn.
  destruct cf as [|[] cf]; cbn; destruct sf as [|[] sf]; cbn;
    intros H; inversion H; subst; cbn; auto 10.
Qed.

Lemma insert_inv (q : Store -> Store * Z) w r w' :
  execute_query_insert q w = (r, w') ->
  session w' = session w /\ page w' = page w
  /\ ((r = inl (Some (snd (q (db w)))) /\ db w' = fst (q (db w)))
      \/ ((r = inl None \/ r = inr MySQLError) /\ db w' = db w)).
Proof.
  unfold execute_query_insert, bind, create_connection, cursor_execute, ret.
  destruct w as [d cf sf s p]; cbn.
  destruct cf as [|[] cf]; cbn; destruct sf as [|[] sf]; cbn;
    intros H; inversion H; subst; cbn; auto 10.
Qed.

Module DecFacts.
Import Dec.

Lemma pow10_pos n : 0 < pow10 n.
Proof. unfold pow10. apply Z.pow_pos_nonneg; lia. Qed.

Lemma pow10_add a b : pow10 (a + b) = pow10 a * pow10 b.
Proof.
  unfold pow10. rewrite Nat2Z.inj_add. apply Z.pow_add_r; lia.
Qed.

Lemma pow10_0 : pow10 0 = 1.
Proof. reflexivity. Qed.

(** Raising the number of digits multiplies the coefficient. *)
Lemma rescale_up d s S :
  (scale d <= s)%nat -> (s <= S)%nat ->
  rescale d S = rescale d s * pow10 (S - s).
Proof.
  intros H1 H2. unfold rescale.
  replace (S - scale d)%nat with ((s - scale d) + (S - s))%nat by lia.
  rewrite pow10_add. ring.
Qed.

Lemma rescale_full d S :
  (scale d <= S)%nat -> rescale d S * pow10 (scale d) = coef d * pow10 S.
Proof.
  intros H. unfold rescale.
  replace S with ((S - scale d) + scale d)%nat at 2 by lia.
  rewrite pow10_add. ring.
Qed.

Lemma equiv_rescale a b S :
  (scale a <= S)%nat -> (scale b <= S)%nat ->
  (equiv a b <-> rescale a S = rescale b S).
Proof.
  intros Ha Hb. unfold equiv.
  pose proof (rescale_full a Ha) as Ea.
  pose proof (rescale_full b Hb) as Eb.
  pose proof (pow10_pos (scale a)) as Pa.
  pose proof (pow10_pos (scale b)) as Pb.
  pose proof (pow10_pos S) as PS.
  split; intros H.
  - apply (Z.mul_reg_r _ _ (pow10 (scale a) * pow10 (scale b))); [nia|].
    transitivity (coef a * pow10 (scale b) * pow10 S).
    + rewrite <- (Z.mul_assoc (coef a)), (Z.mul_comm (pow10 (scale b))),
        (Z.mul_assoc (coef a)), <- Ea. ring.
    + rewrite H.
      rewrite <- (Z.mul_assoc (coef b)), (Z.mul_comm (pow10 (scale a))),
        (Z.mul_assoc (coef b)), <- Eb. ring.
  - apply (Z.mul_reg_r _ _ (pow10 S)); [lia|].
    transitivity (rescale a S * pow10 (scale a) * pow10 (scale b)).
    + rewrite Ea. ring.
    + rewrite H.
      transitivity (rescale b S * pow10 (scale b) * pow10 (scale a));
        [ring|]. rewrite Eb. ring.
Qed.

Lemma compare_eq_equiv a b : compare a b = Eq <-> equiv a b.
Proof.
  unfold compare. rewrite Z.compare_eq_iff.
  symmetry. apply equiv_rescale; lia.
Qed.

Lemma eqb_equiv a b : eqb a b = true <-> equiv a b.
Proof.
  rewrite <- compare_eq_equiv. unfold eqb.
  destruct (compare a b); split; congruence.
Qed.

Lemma equiv_refl a : equiv a a.
Proof. reflexivity. Qed.

Lemma equiv_sym a b : equiv a b -> equiv b a.
Proof. unfold equiv; intros H; symmetry; exact H. Qed.

Lemma equiv_trans a b c : equiv a b -> equiv b c -> equiv a c.
Proof.
  set (S := Nat.max (scale a) (Nat.max (scale b) (scale c))).
  rewrite (@equiv_rescale a b S), (@equiv_rescale b c S),
    (@equiv_rescale a c S) by lia.
  congruence.
Qed.

Lemma eqb_refl a : eqb a a = true.
Proof. apply eqb_equiv, equiv_refl. Qed.

Lemma scale_add a b : scale (add a b) = Nat.max (scale a) (scale b).
Proof. reflexivity. Qed.

Lemma rescale_add a b S :
  (scale a <= S)%nat -> (scale b <= S)%nat ->
  rescale (add a b) S = rescale a S + rescale b S.
Proof.
  intros Ha Hb.
  set (m := Nat.max (scale a) (scale b)).
  rewrite (@rescale_up a m S), (@rescale_up b m S) by lia.
  unfold rescale at 1; cbn [coef scale add]. fold m. ring.
Qed.

Lemma rescale_sub a b S :
  (scale a <= S)%nat -> (scale b <= S)%nat ->
  rescale (sub a b) S = rescale a S - rescale b S.
Proof.
  intros Ha Hb.
  set (m := Nat.max (scale a) (scale b)).
  rewrite (@rescale_up a m S), (@rescale_up b m S) by lia.
  unfold rescale at 1; cbn [coef scale sub]. fold m. ring.
Qed.

Lemma scale_fold_left l : forall x S,
  (scale x <= S)%nat -> (max_scale l <= S)%nat ->
  (scale (fold_left add l x) <= S)%nat
  /\ rescale (fold_left add l x) S
     = rescale x S + fold_right Z.add 0 (map (fun d => rescale d S) l).
Proof.
  unfold max_scale.
  induction l as [|d l IH]; intros x S Hx Hl;
    cbn [fold_right fold_left map] in *.
  - split; [assumption | ring].
  - destruct (IH (add x d) S) as [I1 I2]; [rewrite scale_add; lia | lia |].
    split; [exact I1|].
    rewrite I2, rescale_add by lia. ring.
Qed.

Lemma scale_sum l S :
  (max_scale l <= S)%nat ->
  (scale (sum l) <= S)%nat
  /\ rescale (sum l) S = fold_right Z.add 0 (map (fun d => rescale d S) l).
Proof.
  unfold max_scale, sum.
  induction l as [|d l IH]; intros Hl; cbn [fold_right map] in *.
  - split; [cbn; lia | reflexivity].
  - destruct IH as [I1 I2]; [lia|].
    split; [rewrite scale_add; lia|].
    rewrite rescale_add, I2 by lia. reflexivity.
Qed.

(** Summing from the first element on, as [SUM] does, gives the number
    that summing from zero gives. *)
Lemma fold_left_equiv_sum x l : equiv (fold_left add l x) (sum (x :: l)).
Proof.
  set (S := max_scale (x :: l)).
  assert (Hx : (scale x <= S)%nat)
    by (subst S; unfold max_scale; cbn [fold_right]; lia).
  assert (Hl : (max_scale l <= S)%nat)
    by (subst S; unfold max_scale; cbn [fold_right]; lia).
  destruct (@scale_fold_left l x S Hx Hl) as [F1 F2].
  destruct (@scale_sum (x :: l) S) as [S1 S2]; [subst S; lia|].
  apply (@equiv_rescale _ _ S); [assumption | assumption |].
  rewrite F2, S2. reflexivity.
Qed.

Lemma mul_equiv_r q a b : equiv a b -> equiv (mul q a) (mul q b).
Proof.
  unfold equiv; cbn [coef scale mul]; intros H.
  rewrite !pow10_add.
  transitivity (coef q * pow10 (scale q) * (coef a * pow10 (scale b)));
    [ring|]. rewrite H. ring.
Qed.

(** Taking a positive amount off changes the number. *)
Lemma sub_positive_changes b c :
  0 < coef c -> eqb b (sub b c) = false.
Proof.
  intros Hc.
  destruct (eqb b (sub b c)) eqn:E; [|reflexivity].
  apply eqb_equiv in E.
  set (S := Nat.max (scale b) (scale c)).
  apply (@equiv_rescale _ _ S) in E; [| lia | cbn; lia].
  rewrite rescale_sub in E by lia.
  assert (0 < rescale c S).
  { unfold rescale. pose proof (pow10_pos (S - scale c)). nia. }
  lia.
Qed.

Lemma add_positive_changes b c :
  0 < coef c -> eqb b (add b c) = false.
Proof.
  intros Hc.
  destruct (eqb b (add b c)) eqn:E; [|reflexivity].
  apply eqb_equiv in E.
  set (S := Nat.max (scale b) (scale c)).
  apply (@equiv_rescale _ _ S) in E; [| lia | cbn; lia].
  rewrite rescale_add in E by lia.
  assert (0 < rescale c S).
  { unfold rescale. pose proof (pow10_pos (S - scale c)). nia. }
  lia.
Qed.

Lemma leb_zero_false d : leb d (mkDec 0 0) = false <-> 0 < coef d.
Proof.
  unfold leb, compare; cbn [scale coef].
  rewrite Nat.max_0_r. unfold rescale; cbn [coef scale].
  rewrite Nat.sub_diag, pow10_0, Z.mul_1_r. cbn.
  destruct (Z.compare_spec (coef d) 0); split; intros; try lia; try congruence.
Qed.

End DecFacts.

(** ** The valuation engine *)

Lemma find_hd_filter A (p : A -> bool) l : find p l = hd_error (filter p l).
Proof.
  induction l as [|x l IH]; cbn; [reflexivity|].
  destruct (p x); [reflexivity | exact IH].
Qed.

Lemma asset_resolved_value d i :
  asset_resolved d i = true ->
  map (fun a => (quantity i * unit_price a)%dec)
      (filter (fun a => inv_asset_id i =? asset_id a) (assets d))
  = [investment_value d i].
Proof.
  unfold asset_resolved, investment_value, referenced_asset, currentValue.
  rewrite find_hd_filter.
  destruct (filter _ (assets d)) as [|a [|b l]]; cbn; try discriminate.
  reflexivity.
Qed.

Lemma joined_values d l :
  forallb (asset_resolved d) l = true ->
  flat_map
    (fun i => map (fun a => (quantity i * unit_price a)%dec)
                  (filter (fun a => inv_asset_id i =? asset_id a) (assets d)))
    l
  = map (investment_value d) l.
Proof.
  induction l as [|i l IH]; cbn; [reflexivity|].
  rewrite andb_true_iff; intros [Hi Hl].
  rewrite (asset_resolved_value _ _ Hi), IH by assumption. reflexivity.
Qed.

Lemma sql_sum_total l :
  Dec.equiv (first_or_zero (Some [sql_sum l])) (Dec.sum l)
  /\ (l = [] -> first_or_zero (Some [sql_sum l]) = Dec.zero2).
Proof.
  destruct l as [|x l]; cbn.
  - split; reflexivity.
  - split; [apply DecFacts.fold_left_equiv_sum | discriminate].
Qed.

(** C5.  With no failure scheduled and every investment of the user
    referring to exactly one asset row, [get_portfolio_summary] returns
    a summary and leaves the world as it was; its account total is the
    sum of the balances of the user's accounts, its investment total is
    the sum over the user's investments of quantity times the unit price
    of the asset referred to, and the portfolio total is the decimal sum
    of the two.  The totals are decimals by type, never a null; with no
    account the account total is [Decimal('0.00')], with no investment
    the investment total is. *)
Theorem portfolio_summary_totals (w : World) (uid : Z) :
  healthy w ->
  forallb (asset_resolved (db w)) (investments_of uid (db w)) = true ->
  exists s,
    get_portfolio_summary uid w = (inl s, w)
    /\ (total_account_balance s
        == Dec.sum (map current_balance (accounts_of uid (db w))))%dec
    /\ (total_investment_value s
        == Dec.sum (map (investment_value (db w))
                        (investments_of uid (db w))))%dec
    /\ total_portfolio_value s
       = (total_account_balance s + total_investment_value s)%dec
    /\ (accounts_of uid (db w) = [] ->
        total_account_balance s = Dec.zero2)
    /\ (investments_of uid (db w) = [] ->
        total_investment_value s = Dec.zero2).
Proof.
  intros Hw Hr.
  unfold get_portfolio_summary, bind.
  rewrite (fetch_healthy _ Hw), (fetch_healthy _ Hw).
  eexists; split; [reflexivity|].
  cbn [total_account_balance total_investment_value total_portfolio_value].
  unfold select_total_balance, select_total_investment_value.
  fold (accounts_of uid (db w)). fold (investments_of uid (db w)).
  rewrite (joined_values _ _ Hr).
  destruct (sql_sum_total (map current_balance (accounts_of uid (db w))))
    as [A1 A2].
  destruct (sql_sum_total (map (investment_value (db w))
                               (investments_of uid (db w)))) as [I1 I2].
  repeat split; try assumption.
  - intros E; apply A2; now rewrite E.
  - intros E; apply I2; now rewrite E.
Qed.

(** Every row that [get_investments_by_user] returns is built from a
    stored investment and the stored asset it refers to. *)
Lemma joined_row_value d uid r :
  In r (select_investments_by_user uid d) ->
  exists i a,
    In i (investments d) /\ In a (assets d)
    /\ inv_user_id i = uid /\ asset_id a = inv_asset_id i
    /\ r_investment_id r = investment_id i /\ r_asset_id r = asset_id a
    /\ r_quantity r = quantity i /\ current_unit_price r = unit_price a
    /\ current_value r = currentValue i a.
Proof.
  unfold select_investments_by_user, join_investment.
  rewrite in_flat_map. intros (i & Hi & Hr).
  apply filter_In in Hi. destruct Hi as [Hi Hu].
  apply in_flat_map in Hr. destruct Hr as (p & _ & Hr).
  apply in_flat_map in Hr. destruct Hr as (t & _ & Hr).
  apply in_map_iff in Hr. destruct Hr as (a & <- & Ha).
  apply filter_In in Ha. destruct Ha as [Ha Hid].
  exists i, a. cbn. apply Z.eqb_eq in Hu, Hid.
  repeat split; try assumption; congruence.
Qed.

Lemma update_rows_In R (m : R -> bool) asg same (l : list R) x :
  In x (update_rows m asg same l) ->
  exists x0, In x0 l
             /\ ((m x0 = true /\ same x0 (asg x0) = false /\ x = asg x0)
                 \/ ((m x0 = false \/ same x0 (asg x0) = true) /\ x = x0)).
Proof.
  unfold update_rows. rewrite in_map_iff. intros (x0 & E & H0).
  exists x0; split; [assumption|].
  destruct (m x0); cbn in E; [|auto].
  destruct (same x0 (asg x0)); cbn in E; auto.
Qed.

Lemma update_asset_price_db w aid p :
  healthy w ->
  update_asset_price aid p w
  = (inl (Some (Nat.ltb 0 (changed_rows (fun a => asset_id a =? aid)
                                        (set_unit_price p) same_price
                                        (assets (db w))))),
     set_db (set_assets (update_rows (fun a => asset_id a =? aid)
                                     (set_unit_price p) same_price
                                     (assets (db w))) (db w)) w).
Proof.
  intros Hw. unfold update_asset_price. now rewrite (update_healthy _ Hw).
Qed.

(** After [update_asset_price aid p], the asset rows with that id carry
    the number [p]. *)
Lemma price_after_update l aid p a :
  In a (update_rows (fun a => asset_id a =? aid) (set_unit_price p)
                    same_price l) ->
  asset_id a = aid -> (unit_price a == p)%dec.
Proof.
  intros Ha Hid. apply update_rows_In in Ha.
  destruct Ha as (a0 & _ & [(_ & _ & ->) | ([Hm | Hs] & ->)]).
  - apply DecFacts.equiv_refl.
  - apply Z.eqb_neq in Hm. contradiction.
  - unfold same_price in Hs. cbn in Hs. now apply DecFacts.eqb_equiv.
Qed.


(** ** Deleting a user *)

Lemma filter_negb_Forall R (key : R -> Z) uid l :
  Forall (fun r => key r <> uid)
         (filter (fun r => negb (key r =? uid)) l).
Proof.
  apply Forall_forall. intros r Hr. apply filter_In in Hr.
  destruct Hr as [_ Hr]. apply negb_true_iff, Z.eqb_neq in Hr. exact Hr.
Qed.

Lemma delete_user_inv w uid w' :
  delete_user_and_all_data uid w = (inl true, w') ->
  user_purged uid (db w) (db w').
Proof.
  unfold delete_user_and_all_data, delete_user_statements, try_except,
    bind, create_connection, cursor_execute, ret, delete_where, user_purged.
  destruct w as [d cf sf s p]; cbn.
  destruct cf as [|[] cf]; cbn;
    destruct sf as [|[] [|[] [|[] [|[] [|[] sf]]]]]; cbn;
    intros H; inversion H; subst; cbn; auto 10.
Qed.

Lemma delete_user_healthy w uid :
  healthy w -> fst (delete_user_and_all_data uid w) = inl true.
Proof.
  intros [Hc Hs].
  unfold delete_user_and_all_data, delete_user_statements, try_except,
    bind, create_connection, cursor_execute, ret, delete_where.
  destruct w as [d cf sf s p]; cbn in *. subst. reflexivity.
Qed.

(** C9.  [delete_user_and_all_data] returns [True] when nothing fails,
    and whenever it returns [True] the store holds of each of the five
    tables with a user id exactly the rows of the other users: no
    transaction, investment, account, portfolio or user row with the
    deleted id remains, and the assets and asset types are untouched. *)
Theorem delete_user_removes_all_rows (w : World) (uid : Z) :
  (healthy w -> fst (delete_user_and_all_data uid w) = inl true)
  /\ (forall w',
        delete_user_and_all_data uid w = (inl true, w') ->
        user_purged uid (db w) (db w')
        /\ Forall (fun t => tx_user_id t <> uid) (transactions (db w'))
        /\ Forall (fun i => inv_user_id i <> uid) (investments (db w'))
        /\ Forall (fun a => acc_user_id a <> uid) (accounts (db w'))
        /\ Forall (fun p => pf_user_id p <> uid) (portfolios (db w'))
        /\ Forall (fun u => user_id u <> uid) (users (db w'))).
Proof.
  split; [apply delete_user_healthy|].
  intros w' H. pose proof H as P. apply delete_user_inv in P.
  split; [exact P|].
  destruct P as (-> & -> & -> & -> & -> & _).
  repeat split; apply filter_negb_Forall.
Qed.

(** C10.  [update_portfolio] and [update_investment] called with every
    optional field [None] return [False] and leave the world as it was:
    the store is unchanged and no connection or statement was used. *)
Theorem update_without_fields_is_noop (w : World) (pid iid : Z) :
  update_portfolio pid None None w = (inl (Some false), w)
  /\ update_investment iid None None None None None None None None None
                       None w
     = (inl (Some false), w).
Proof. split; reflexivity. Qed.

(** ** Frames *)

Lemma keeps_ret A (P : World -> World -> Prop) (a : A) :
  (forall w, P w w) -> keeps P (ret a).
Proof. intros HR w r w' H. inversion H; subst. apply HR. Qed.

Lemma keeps_raise A (P : World -> World -> Prop) (e : exn) :
  (forall w, P w w) -> keeps P (@raise A e).
Proof. intros HR w r w' H. inversion H; subst. apply HR. Qed.

Lemma keeps_bind A B (P : World -> World -> Prop) (m : M A) (k : A -> M B) :
  (forall w1 w2 w3, P w1 w2 -> P w2 w3 -> P w1 w3) ->
  keeps P m -> (forall a, keeps P (k a)) -> keeps P (bind m k).
Proof.
  intros HT Hm Hk w r w'. unfold bind.
  destruct (m w) as [[a|e] w1] eqn:E; intros H.
  - eapply HT; [eapply Hm, E | eapply Hk, H].
  - inversion H; subst. eapply Hm, E.
Qed.

Lemma reads_only_refl w : reads_only w w.
Proof. split; reflexivity. Qed.

Lemma reads_only_trans w1 w2 w3 :
  reads_only w1 w2 -> reads_only w2 w3 -> reads_only w1 w3.
Proof. intros [A1 A2] [B1 B2]; split; congruence. Qed.

Lemma keeps_fetch R (q : Store -> list R) :
  keeps reads_only (execute_query_fetch q).
Proof.
  intros w r w' H. apply fetch_inv in H. destruct H as (H1 & _ & H2 & _).
  split; assumption.
Qed.

Lemma keeps_modify_session f : keeps reads_only (modify_session f).
Proof. intros w r w' H. inversion H; subst. split; reflexivity. Qed.

Lemma keeps_get_session : keeps reads_only get_session.
Proof. intros w r w' H. inversion H; subst. split; reflexivity. Qed.

Ltac reads :=
  repeat first
    [ apply keeps_fetch | apply keeps_modify_session
    | apply keeps_get_session
    | apply keeps_ret; apply reads_only_refl
    | apply keeps_bind; [exact reads_only_trans | | intros ?]
    | match goal with |- keeps _ (if ?b then _ else _) => destruct b end ].

Lemma keeps_load_data uid user_role :
  keeps reads_only (load_data uid user_role).
Proof.
  unfold load_data, get_account_balances_df, get_portfolios_df,
    get_asset_types_df, get_assets_df, get_accounts_by_user,
    get_all_accounts, get_portfolios_by_user, get_asset_types,
    get_all_assets.
  reads.
Qed.

Lemma keeps_refresh_data : keeps same_db refresh_data.
Proof.
  intros w r w'. unfold refresh_data, bind, get_session.
  destruct (_ && _).
  - intros H. apply keeps_load_data in H. apply H.
  - intros H. inversion H; subst. reflexivity.
Qed.

(** ** The checks made on submit *)

Lemma buy_assets_selected w rq acc ast :
  selects w rq acc ast ->
  buy_assets rq w
  = if Dec.gtb (total_cost rq ast) (current_balance acc)
    then st_write (ErrInsufficientBalance (total_cost rq ast)
                                          (current_balance acc)
                                          (account_name acc)) w
    else try_except (purchase (session w) rq acc ast (total_cost rq ast))
                    purchase_failed w.
Proof.
  intros (Hx & Ha & Hacc & Hast & Hs & Hi & Hj & Hq).
  unfold buy_assets, bind, get_session.
  destruct (assets_df (session w)) eqn:Ex; [contradiction|].
  destruct (accounts_df (session w)) eqn:Ea; [contradiction|].
  rewrite <- Ex, <- Ea in *.
  rewrite Hacc, Hast, Hs. unfold confirm_purchase.
  apply Z.eqb_neq in Hi, Hj. rewrite Hi, Hj, Hq. unfold total_cost.
  destruct (Dec.gtb _ _); reflexivity.
Qed.


(** ** The purchase, step by step *)

Lemma written_app w w' l : page w' = page w ++ l -> written w w' = l.
Proof.
  intros E. unfold written. rewrite E.
  rewrite skipn_app, skipn_all, Nat.sub_diag. reflexivity.
Qed.

Lemma wrote_nil w w' : page w' = page w -> wrote [] w w'.
Proof. intros E. unfold wrote. now rewrite app_nil_r. Qed.

Lemma wrote_trans l1 l2 w1 w2 w3 :
  wrote l1 w1 w2 -> wrote l2 w2 w3 -> wrote (l1 ++ l2) w1 w3.
Proof. unfold wrote. intros A B. now rewrite B, A, app_assoc. Qed.

Lemma st_write_inv m w r w' :
  st_write m w = (r, w') ->
  r = inl tt /\ db w' = db w /\ session w' = session w /\ wrote [m] w w'.
Proof. intros H. inversion H; subst. repeat split. Qed.

Lemma refresh_data_inv w r w' :
  refresh_data w = (r, w') ->
  db w' = db w /\ (wrote [] w w' \/ wrote [WarnLoginToRefresh] w w').
Proof.
  unfold refresh_data, bind, get_session.
  destruct (_ && _); intros H.
  - apply keeps_load_data in H. destruct H as [H1 H2].
    split; [assumption | left; now apply wrote_nil].
  - inversion H; subst. split; [reflexivity | right; reflexivity].
Qed.

(** The log step: the accounts and holdings are not touched; if the
    success line was written, the row is in the log. *)
Lemma log_transaction_inv s rq acc ast w r w' :
  log_transaction s rq acc ast (total_cost rq ast) w = (r, w') ->
  accounts (db w') = accounts (db w)
  /\ investments (db w') = investments (db w)
  /\ ((wrote [] w w' /\ r <> inr RerunException)
      \/ (logged (ss_user_id s) rq acc ast (db w) (db w')
          /\ exists l,
              wrote (SuccessPurchased (quantity_to_buy rq) (unit_type ast)
                                      (name ast) (total_cost rq ast) :: l)
                    w w'
              /\ (l = [] \/ l = [WarnLoginToRefresh]))).
Proof.
  unfold log_transaction, add_transaction. unfold bind at 1.
  destruct (execute_query_insert _ w) as [[id|e] w1] eqn:E.
  - apply insert_inv in E. cbn [fst snd] in E.
    destruct E as (Es & Ep & [[Er Ed] | [Er Ed]]).
    + inversion Er; subst id; clear Er.
      cbn [truthy_id].
      destruct (negb (negb (next_transaction_id (db w) =? 0))).
      * intros H. inversion H; subst. rewrite Ed; cbn.
        repeat split. left. split; [now apply wrote_nil | discriminate].
      * unfold bind at 1. cbn [st_write].
        unfold bind at 1.
        destruct (refresh_data _) as [[[]|e] w2] eqn:E2;
          apply refresh_data_inv in E2; cbn [db page set_page] in E2;
          destruct E2 as [D2 P2]; intros H; inversion H; subst;
          rewrite D2, Ed; cbn; (repeat split);
          right; (split; [reflexivity|]);
          unfold wrote in *; cbn [page set_page] in *;
          rewrite Ep in P2;
          destruct P2 as [P2|P2]; rewrite P2, <- app_assoc; cbn;
          eauto.
    + destruct Er as [Er|Er]; [|discriminate].
      inversion Er; subst id. cbn.
      intros H. inversion H; subst. rewrite Ed.
      repeat split. left. split; [now apply wrote_nil | discriminate].
  - apply insert_inv in E. destruct E as (Es & Ep & [[Er Ed] | [Er Ed]]);
      [discriminate|].
    destruct Er as [Er|Er]; [discriminate|]. inversion Er; subst e.
    intros H. inversion H; subst. rewrite Ed.
    repeat split. left. split; [now apply wrote_nil | discriminate].
Qed.

Lemma iloc0_inv R (rows : list R) w r w' :
  iloc0 rows w = (r, w') ->
  w' = w /\ ((exists x, r = inl x /\ In x rows) \/ r = inr IndexError).
Proof.
  destruct rows as [|x rows]; intros H; inversion H; subst; split;
    try reflexivity; [right; reflexivity | left; exists x; cbn; auto].
Qed.

Lemma purchase_failed_inv e w r w' :
  purchase_failed e w = (r, w') ->
  db w' = db w
  /\ exists l, wrote l w w' /\ no_purchase l.
Proof.
  destruct e; cbn; intros H; inversion H; subst; cbn;
    (split; [reflexivity|]);
    first [ exists []; split; [now apply wrote_nil | constructor]
          | eexists; split; [reflexivity | repeat constructor] ].
Qed.

Lemma outcome_failed s rq acc ast w w' l :
  wrote l w w' -> no_purchase l -> purchase_outcome s rq acc ast w w'.
Proof. intros H1 H2. exists l; split; [assumption | left; assumption]. Qed.

Lemma no_purchase_app l1 l2 :
  no_purchase l1 -> no_purchase l2 -> no_purchase (l1 ++ l2).
Proof. intros; now apply Forall_app. Qed.

Lemma outcome_extend s rq acc ast w w1 w' l' :
  purchase_outcome s rq acc ast w w1 ->
  db w' = db w1 -> wrote l' w1 w' -> no_purchase l' ->
  purchase_outcome s rq acc ast w w'.
Proof.
  intros (l & Hl & H) Hd Hw Hn.
  exists (l ++ l'). split; [eapply wrote_trans; eassumption|].
  destruct H as [H | (Ha & l1 & l2 & -> & H1 & H2)].
  - left. now apply no_purchase_app.
  - right. rewrite Hd. split; [assumption|].
    exists l1, (l2 ++ l'). rewrite <- app_assoc. cbn.
    repeat split; try assumption. now apply no_purchase_app.
Qed.

(** The last step of the purchase seen from a world [w0] before it. *)
Lemma log_transaction_outcome s rq acc ast w0 w r w' l0 :
  wrote l0 w0 w -> no_purchase l0 ->
  debited acc (total_cost rq ast) (db w0) (db w) ->
  (holding_updated (ss_user_id s) rq ast (db w0) (db w)
   \/ holding_created (ss_user_id s) (portfolios_df s) (asset_types_df s)
        rq acc ast (db w0) (db w)) ->
  transactions (db w) = transactions (db w0) ->
  next_transaction_id (db w) = next_transaction_id (db w0) ->
  log_transaction s rq acc ast (total_cost rq ast) w = (r, w') ->
  purchase_outcome s rq acc ast w0 w'.
Proof.
  intros Hl0 Hn0 Hd Hh Ht Hid H.
  apply log_transaction_inv in H.
  destruct H as (Ea & Ei & [[Hw _] | (Hlog & l & Hw & Hl)]).
  - exists (l0 ++ []). split; [eapply wrote_trans; eassumption|].
    left. rewrite app_nil_r. assumption.
  - eexists. split; [eapply wrote_trans; eassumption|].
    right. split.
    + split; [|split].
      * unfold debited in *. now rewrite Ea.
      * unfold holding_updated, holding_created in *.
        rewrite Ei. exact Hh.
      * unfold logged in *. now rewrite Hlog, Ht, Hid.
    + exists l0, l. repeat split; try assumption.
      destruct Hl as [-> | ->]; repeat constructor.
Qed.

(** The new holding, from a world [w] in which the debit is made. *)
Lemma add_new_holding_outcome s rq acc ast w0 w r w' :
  wrote [] w0 w ->
  debited acc (total_cost rq ast) (db w0) (db w) ->
  investments (db w) = investments (db w0) ->
  next_investment_id (db w) = next_investment_id (db w0) ->
  transactions (db w) = transactions (db w0) ->
  next_transaction_id (db w) = next_transaction_id (db w0) ->
  first_holding (ss_user_id s) ast (db w0) = None ->
  add_new_holding s rq acc ast (total_cost rq ast)
                  (log_transaction s rq acc ast (total_cost rq ast)) w
  = (r, w') ->
  purchase_outcome s rq acc ast w0 w'.
Proof.
  intros Hw Hd Hi Hn Ht Hnt Hf.
  unfold add_new_holding. unfold bind at 1. cbn [st_write].
  set (w1 := set_page (page w ++ [WarnNoHolding]) w).
  assert (Hw1 : wrote [WarnNoHolding] w0 w1).
  { unfold wrote in *. subst w1; cbn. rewrite Hw, app_nil_r. reflexivity. }
  assert (Hn1 : no_purchase [WarnNoHolding]) by (repeat constructor).
  assert (Hdb1 : db w1 = db w) by reflexivity.
  clearbody w1.
  assert (Quiet1 : forall r w',
            st_write ErrSelectPortfolioAndCategory w1 = (r, w') ->
            purchase_outcome s rq acc ast w0 w').
  { intros r0 w0' H. apply st_write_inv in H.
    destruct H as (_ & Hd' & _ & Hp').
    eapply outcome_failed;
      [eapply wrote_trans; eassumption | repeat constructor]. }
  destruct (selectbox (map portfolio_name (portfolios_df s)) _)
    as [pname|]; [|apply Quiet1].
  destruct (selectbox (map type_name (asset_types_df s)) _)
    as [cname|]; [|apply Quiet1].
  destruct (negb (pname =? "")%string && negb (cname =? "")%string);
    [|apply Quiet1].
  clear Quiet1.
  unfold bind at 1.
  destruct (iloc0 _ w1) as [[prow|e] w2] eqn:E2;
    apply iloc0_inv in E2; destruct E2 as [-> E2].
  2:{ intros H; inversion H; subst.
      eapply outcome_failed; eassumption. }
  destruct E2 as [(x & Ex & Hprow) | ?]; [|discriminate].
  inversion Ex; subst x; clear Ex.
  apply filter_In in Hprow. destruct Hprow as [Hprow _].
  unfold bind at 1.
  destruct (iloc0 _ w1) as [[crow|e] w2] eqn:E2;
    apply iloc0_inv in E2; destruct E2 as [-> E2].
  2:{ intros H; inversion H; subst.
      eapply outcome_failed; eassumption. }
  destruct E2 as [(x & Ex & Hcrow) | ?]; [|discriminate].
  inversion Ex; subst x; clear Ex.
  apply filter_In in Hcrow. destruct Hcrow as [Hcrow _].
  unfold bind at 1. unfold add_investment.
  destruct (execute_query_insert _ w1) as [[id|e] w2] eqn:E3;
    apply insert_inv in E3; cbn [fst snd] in E3;
    destruct E3 as (Es & Ep & E3).
  2:{ intros H; inversion H; subst.
      eapply outcome_failed; [|exact Hn1].
      unfold wrote in *. now rewrite Ep. }
  assert (Hw2 : wrote [WarnNoHolding] w0 w2)
    by (unfold wrote in *; now rewrite Ep).
  destruct (negb (truthy_id id)) eqn:Tid.
  { intros H; inversion H; subst.
    eapply outcome_failed; eassumption. }
  destruct E3 as [[Er Ed] | [[Er|Er] _]];
    [ | inversion Er; subst id; discriminate | discriminate ].
  unfold bind at 1. cbn [st_write].
  intros H.
  eapply log_transaction_outcome; [ | | | | | | exact H].
  - unfold wrote in *; cbn. rewrite Hw2. rewrite <- app_assoc. reflexivity.
  - repeat constructor.
  - unfold debited in *. cbn [db set_page]. rewrite Ed, Hdb1. cbn.
    exact Hd.
  - right. unfold holding_created. split; [assumption|].
    exists prow, crow. split; [assumption|]. split; [assumption|].
    cbn [db set_page]. rewrite Ed, Hdb1. cbn.
    rewrite Hi, Hn. reflexivity.
  - cbn [db set_page]. rewrite Ed, Hdb1. cbn. exact Ht.
  - cbn [db set_page]. rewrite Ed, Hdb1. cbn. exact Hnt.
Qed.

(** The body of the [try]. *)
Lemma purchase_body_inv s rq acc ast w r w' :
  purchase s rq acc ast (total_cost rq ast) w = (r, w') ->
  purchase_outcome s rq acc ast w w'.
Proof.
  unfold purchase. unfold bind at 1. unfold update_account_balance.
  destruct (execute_query_update _ w) as [[deb|e] w1] eqn:E1;
    apply update_inv in E1; cbn [fst snd] in E1;
    destruct E1 as (Es1 & Ep1 & E1).
  2:{ intros H; inversion H; subst.
      eapply outcome_failed; [now apply wrote_nil | constructor]. }
  destruct (negb (truthy_bool deb)) eqn:T1.
  { intros H; inversion H; subst.
    eapply outcome_failed; [now apply wrote_nil | constructor]. }
  destruct E1 as [[Er1 Ed1] | [[Er1|Er1] _]];
    [ | inversion Er1; subst deb; discriminate | discriminate ].
  unfold bind at 1. unfold get_investments_by_user.
  destruct (execute_query_fetch _ w1) as [[rows|e] w2] eqn:E2;
    apply fetch_inv in E2; destruct E2 as (Ed2 & Es2 & Ep2 & E2).
  2:{ intros H; inversion H; subst.
      eapply outcome_failed; [apply wrote_nil; congruence | constructor]. }
  destruct rows as [rows|].
  2:{ intros H; inversion H; subst.
      eapply outcome_failed; [apply wrote_nil; congruence | constructor]. }
  destruct E2 as [E2 | [E2|E2]]; [|discriminate|discriminate].
  inversion E2; subst rows; clear E2.
  assert (Hw2 : wrote [] w w2) by (apply wrote_nil; congruence).
  assert (Hdeb : debited acc (total_cost rq ast) (db w) (db w2)).
  { unfold debited. rewrite Ed2, Ed1. reflexivity. }
  assert (Hi2 : investments (db w2) = investments (db w))
    by (rewrite Ed2, Ed1; reflexivity).
  assert (Hn2 : next_investment_id (db w2) = next_investment_id (db w))
    by (rewrite Ed2, Ed1; reflexivity).
  assert (Ht2 : transactions (db w2) = transactions (db w))
    by (rewrite Ed2, Ed1; reflexivity).
  assert (Hnt2 : next_transaction_id (db w2) = next_transaction_id (db w))
    by (rewrite Ed2, Ed1; reflexivity).
  assert (Hf : find (fun inv => r_asset_id inv =? asset_id ast)
                    (select_investments_by_user (ss_user_id s) (db w1))
               = first_holding (ss_user_id s) ast (db w))
    by (rewrite Ed1; reflexivity).
  rewrite Hf. clear Hf.
  destruct (first_holding (ss_user_id s) ast (db w)) as [ex|] eqn:Fh.
  2:{ intros H. eapply add_new_holding_outcome; eassumption. }
  unfold bind at 1.
  unfold update_investment; cbn [opt_assign app].
  destruct (execute_query_update _ w2) as [[upd|e] w3] eqn:E3;
    apply update_inv in E3; cbn [fst snd update_investment_stmt] in E3;
    destruct E3 as (Es3 & Ep3 & E3).
  2:{ intros H; inversion H; subst.
      eapply outcome_failed; [apply wrote_nil; congruence | constructor]. }
  destruct (negb (truthy_bool upd)) eqn:T3.
  { intros H; inversion H; subst.
    eapply outcome_failed; [apply wrote_nil; congruence | constructor]. }
  destruct E3 as [[Er3 Ed3] | [[Er3|Er3] _]];
    [ | inversion Er3; subst upd; discriminate | discriminate ].
  unfold bind at 1. cbn [st_write].
  intros H.
  eapply log_transaction_outcome; [ | | | | | | exact H].
  - unfold wrote in *; cbn. rewrite Ep3, Hw2, <- app_assoc. reflexivity.
  - repeat constructor.
  - unfold debited in *. cbn [db set_page]. rewrite Ed3. cbn. exact Hdeb.
  - left. exists ex. split; [exact Fh|].
    cbn [db set_page]. rewrite Ed3. cbn. rewrite Hi2. reflexivity.
  - cbn [db set_page]. rewrite Ed3. cbn. exact Ht2.
  - cbn [db set_page]. rewrite Ed3. cbn. exact Hnt2.
Qed.

(** The [try] with its handlers. *)
Lemma purchase_inv s rq acc ast w r w' :
  try_except (purchase s rq acc ast (total_cost rq ast)) purchase_failed w
  = (r, w') ->
  purchase_outcome s rq acc ast w w'.
Proof.
  unfold try_except.
  destruct (purchase _ _ _ _ _ w) as [[[]|e] w1] eqn:E;
    apply purchase_body_inv in E; intros H.
  - inversion H; subst. exact E.
  - apply purchase_failed_inv in H. destruct H as (Hd & l & Hl & Hn).
    eapply outcome_extend; eassumption.
Qed.

(** ** The page function *)

Lemma select_account_inv s rq w r w' :
  select_account s rq w = (r, w') ->
  db w' = db w
  /\ ((exists acc, r = inl (Some acc) /\ w' = w /\ In acc (accounts_df s))
      \/ (r = inl None /\ wrote [WarnSelectAccount] w w')
      \/ (r = inr IndexError /\ w' = w)).
Proof.
  unfold select_account.
  destruct (selectbox _ _) as [nm|].
  - destruct (negb (nm =? "None")%string).
    + unfold bind.
      destruct (iloc0 _ w) as [[acc|e] w1] eqn:E;
        apply iloc0_inv in E; destruct E as [-> E]; intros H;
        inversion H; subst; (split; [reflexivity|]).
      * destruct E as [(x & Ex & Hx) | ?]; [|discriminate].
        inversion Ex; subst x. apply filter_In in Hx.
        left. exists acc. intuition.
      * destruct E as [(x & Ex & _) | E]; [discriminate|].
        inversion E; subst. right; right; split; reflexivity.
    + cbn. intros H; inversion H; subst.
      split; [reflexivity | right; left; split; reflexivity].
  - intros H; inversion H; subst.
    split; [reflexivity | right; right; split; reflexivity].
Qed.

Lemma select_asset_inv s rq w r w' :
  select_asset s rq w = (r, w') ->
  db w' = db w
  /\ ((exists ast, r = inl (Some ast) /\ w' = w /\ In ast (assets_df s))
      \/ (r = inl None /\ wrote [WarnSelectAsset] w w')
      \/ (r = inr IndexError /\ w' = w)).
Proof.
  unfold select_asset.
  destruct (selectbox _ _) as [nm|].
  - destruct (negb (nm =? "")%string).
    + unfold bind.
      destruct (iloc0 _ w) as [[ast|e] w1] eqn:E;
        apply iloc0_inv in E; destruct E as [-> E]; intros H;
        inversion H; subst; (split; [reflexivity|]).
      * destruct E as [(x & Ex & Hx) | ?]; [|discriminate].
        inversion Ex; subst x. apply filter_In in Hx.
        left. exists ast. intuition.
      * destruct E as [(x & Ex & _) | E]; [discriminate|].
        inversion E; subst. right; right; split; reflexivity.
    + cbn. intros H; inversion H; subst.
      split; [reflexivity | right; left; split; reflexivity].
  - cbn. intros H; inversion H; subst.
    split; [reflexivity | right; left; split; reflexivity].
Qed.

Lemma buy_assets_inv rq w r w' :
  buy_assets rq w = (r, w') -> page_outcome rq w w'.
Proof.
  assert (Quiet : forall m r w', is_purchase_msg m = false ->
            st_write m w = (r, w') -> page_outcome rq w w').
  { intros m r0 w0 Hm H. apply st_write_inv in H.
    destruct H as (_ & _ & _ & H).
    exists [m]. split; [exact H | left; repeat constructor; exact Hm]. }
  unfold buy_assets. unfold bind at 1. cbn [get_session].
  destruct (assets_df (session w)) as [|x0 xs] eqn:Ex;
    [apply Quiet; reflexivity|].
  destruct (accounts_df (session w)) as [|a0 al] eqn:Ea;
    [apply Quiet; reflexivity|].
  clear Quiet.
  unfold bind at 1.
  destruct (select_account _ _ w) as [[sel_acc|e] w1] eqn:E1;
    apply select_account_inv in E1; destruct E1 as (Ed1 & E1).
  2:{ destruct E1 as [(? & ? & _) | [[? _] | [_ ->]]]; try discriminate.
      intros H; inversion H; subst.
      exists []. split; [now apply wrote_nil | left; constructor]. }
  unfold bind at 1.
  destruct (select_asset _ _ w1) as [[sel_ast|e] w2] eqn:E2;
    apply select_asset_inv in E2; destruct E2 as (Ed2 & E2).
  2:{ destruct E2 as [(? & ? & _) | [[? _] | [_ ->]]]; try discriminate.
      intros H; inversion H; subst.
      destruct E1 as [(? & _ & -> & _) | [[_ Hw] | [? _]]];
        try discriminate.
      - exists []. split; [now apply wrote_nil | left; constructor].
      - eexists; split; [exact Hw | left; repeat constructor]. }
  assert (Hpre : exists l0, wrote l0 w w2 /\ no_purchase l0
                            /\ (sel_acc <> None -> sel_ast <> None ->
                                w2 = w)).
  { destruct E1 as [(acc & Er1 & -> & _) | [[Er1 Hw1] | [? _]]];
      try discriminate;
      destruct E2 as [(ast & Er2 & -> & _) | [[Er2 Hw2] | [? _]]];
      try discriminate; inversion Er1; inversion Er2; subst.
    - exists []. split; [now apply wrote_nil|]. split; [constructor|auto].
    - eexists; split; [exact Hw2|]. split; [repeat constructor|].
      intros _ F; contradiction.
    - eexists; split; [exact Hw1|]. split; [repeat constructor|].
      intros F; contradiction.
    - eexists; split; [eapply wrote_trans; eassumption|].
      split; [repeat constructor|]. intros F; contradiction. }
  destruct Hpre as (l0 & Hl0 & Hn0 & Hsame).
  assert (Quiet : forall m r w', is_purchase_msg m = false ->
            st_write m w2 = (r, w') -> page_outcome rq w w').
  { intros m r0 w0 Hm H. apply st_write_inv in H.
    destruct H as (_ & _ & _ & H).
    exists (l0 ++ [m]). split; [eapply wrote_trans; eassumption|].
    left. apply no_purchase_app; [assumption|].
    repeat constructor; exact Hm. }
  destruct (submitted rq).
  2:{ intros H; inversion H; subst.
      exists l0. split; [assumption | left; assumption]. }
  unfold confirm_purchase.
  destruct sel_acc as [acc|]; [|apply Quiet; reflexivity].
  destruct (account_id acc =? 0); [apply Quiet; reflexivity|].
  destruct sel_ast as [ast|]; [|apply Quiet; reflexivity].
  destruct (asset_id ast =? 0); [apply Quiet; reflexivity|].
  destruct (Dec.leb _ _); [apply Quiet; reflexivity|].
  destruct (Dec.gtb _ _); [apply Quiet; reflexivity|].
  assert (w2 = w) as -> by (apply Hsame; discriminate).
  assert (Hacc : In acc (accounts_df (session w))).
  { destruct E1 as [(x & Er1 & _ & Hx) | [[? _] | [? _]]];
      try discriminate. now inversion Er1; subst. }
  assert (Hast : In ast (assets_df (session w))).
  { destruct E2 as [(x & Er2 & _ & Hx) | [[? _] | [? _]]];
      try discriminate. inversion Er2; subst.
      destruct E1 as [(? & _ & -> & _) | [[? _] | [? _]]];
        try discriminate. assumption. }
  intros H. apply purchase_inv in H.
  destruct H as (l & Hl & [Hn | (Happ & l1 & l2 & -> & H1 & H2)]).
  - exists l. split; [assumption | left; assumption].
  - eexists. split; [exact Hl|]. right.
    exists acc, ast, l1, l2.
    split; [exact Hacc|]. split; [exact Hast|]. split; [exact Happ|].
    split; [reflexivity|]. split; assumption.
Qed.

(** ** Loading the frames *)

Lemma insert_by_In R leb (key : R -> string) r l x :
  In x (insert_by leb key r l) -> x = r \/ In x l.
Proof.
  induction l as [|y l IH]; cbn.
  - intros [<-|[]]; auto.
  - destruct (leb (key r) (key y)); cbn.
    + intros [<-|H]; auto.
    + intros [<-|H]; auto. destruct (IH H); auto.
Qed.

Lemma order_by_In R leb (key : R -> string) l x :
  In x (order_by leb key l) -> In x l.
Proof.
  unfold order_by. induction l as [|y l IH]; cbn; [auto|].
  intros H. apply insert_by_In in H. destruct H as [<-|H]; auto.
Qed.

(** A frame holds rows of the table it was read from, or nothing. *)
Lemma df_inv R (q : Store -> list R) w r w' :
  (rows <- execute_query_fetch q ;; ret (frame rows)) w = (r, w') ->
  reads_only w w' /\ session w' = session w
  /\ forall l, r = inl l -> l = q (db w) \/ l = [].
Proof.
  unfold bind.
  destruct (execute_query_fetch q w) as [[rows|e] w1] eqn:E;
    apply fetch_inv in E; destruct E as (Ed & Es & Ep & E);
    intros H; inversion H; subst; (split; [split; assumption|]);
    (split; [assumption|]); intros l Hl; inversion Hl; subst.
  destruct E as [E|[E|E]]; inversion E; subst; cbn; auto.
Qed.

Lemma get_account_balances_df_inv uid w r w' :
  get_account_balances_df uid w = (r, w') ->
  reads_only w w' /\ session w' = session w
  /\ forall l, r = inl l ->
               incl l (accounts (db w))
               /\ (uid <> 0 -> Forall (fun a => acc_user_id a = uid) l).
Proof.
  unfold get_account_balances_df, get_accounts_by_user, get_all_accounts.
  destruct (uid =? 0) eqn:U; cbn [negb]; intros H; apply df_inv in H;
    destruct H as (H1 & H2 & H3); (split; [assumption|]);
    (split; [assumption|]); intros l Hl; destruct (H3 l Hl) as [-> | ->];
    try (split; [intros x [] | intros; constructor]).
  - split.
    + intros x Hx. apply in_flat_map in Hx. destruct Hx as (a & Ha & Hx).
      apply in_map_iff in Hx. destruct Hx as (_ & <- & _). exact Ha.
    + apply Z.eqb_eq in U. intros; contradiction.
  - split.
    + intros x Hx. apply filter_In in Hx. apply Hx.
    + intros _. apply Forall_forall. intros x Hx.
      apply filter_In in Hx. destruct Hx as [_ Hx].
      now apply Z.eqb_eq in Hx.
Qed.

Lemma get_portfolios_df_inv uid w r w' :
  get_portfolios_df uid w = (r, w') ->
  reads_only w w' /\ session w' = session w
  /\ forall l, r = inl l -> incl l (portfolios (db w)).
Proof.
  unfold get_portfolios_df, get_portfolios_by_user.
  intros H; apply df_inv in H. destruct H as (H1 & H2 & H3).
  split; [assumption|]. split; [assumption|].
  intros l Hl. destruct (H3 l Hl) as [-> | ->]; [|intros x []].
  intros x Hx. apply filter_In in Hx. apply Hx.
Qed.

Lemma get_asset_types_df_inv w r w' :
  get_asset_types_df w = (r, w') ->
  reads_only w w' /\ session w' = session w
  /\ forall l, r = inl l -> incl l (asset_types (db w)).
Proof.
  unfold get_asset_types_df, get_asset_types.
  intros H; apply df_inv in H. destruct H as (H1 & H2 & H3).
  split; [assumption|]. split; [assumption|].
  intros l Hl. destruct (H3 l Hl) as [-> | ->]; [|intros x []].
  intros x Hx. now apply order_by_In in Hx.
Qed.

Lemma get_assets_df_inv w r w' :
  get_assets_df w = (r, w') ->
  reads_only w w' /\ session w' = session w
  /\ forall l, r = inl l -> incl l (assets (db w)).
Proof.
  unfold get_assets_df, get_all_assets.
  intros H; apply df_inv in H. destruct H as (H1 & H2 & H3).
  split; [assumption|]. split; [assumption|].
  intros l Hl. destruct (H3 l Hl) as [-> | ->]; [|intros x []].
  intros x Hx. now apply order_by_In in Hx.
Qed.

Lemma summary_untouched uid : keeps untouched (get_portfolio_summary uid).
Proof.
  unfold get_portfolio_summary.
  apply keeps_bind.
  - intros w1 w2 w3 (A1 & A2 & A3) (B1 & B2 & B3).
    repeat split; congruence.
  - intros w r w' H. apply fetch_inv in H. repeat split; apply H.
  - intros a. apply keeps_bind.
    + intros w1 w2 w3 (A1 & A2 & A3) (B1 & B2 & B3).
      repeat split; congruence.
    + intros w r w' H. apply fetch_inv in H. repeat split; apply H.
    + intros b. apply keeps_ret. intros w; repeat split.
Qed.

Lemma load_data_inv uid user_role w r w' :
  load_data uid user_role w = (r, w') ->
  db w' = db w /\ page w' = page w
  /\ ss_user_id (session w') = ss_user_id (session w)
  /\ ss_user_role (session w') = ss_user_role (session w)
  /\ frames_sound uid (db w) (session w').
Proof.
  unfold load_data. unfold bind at 1. cbn [modify_session].
  set (w0 := set_session _ w).
  assert (Hd0 : db w0 = db w) by reflexivity.
  assert (Hp0 : page w0 = page w) by reflexivity.
  assert (Hu0 : ss_user_id (session w0) = ss_user_id (session w))
    by reflexivity.
  assert (Hr0 : ss_user_role (session w0) = ss_user_role (session w))
    by reflexivity.
  assert (Hf0 : frames_sound uid (db w) (session w0)).
  { subst w0; cbn. repeat split; try (intros x []); intros; constructor. }
  clearbody w0. unfold frames_sound in *.
  (* accounts *)
  unfold bind at 1.
  destruct (get_account_balances_df uid w0) as [[a|e] w1] eqn:E1;
    apply get_account_balances_df_inv in E1;
    destruct E1 as ([Ed1 Ep1] & Es1 & E1).
  2:{ intros H; inversion H; subst. rewrite Es1.
      repeat split; try congruence; apply Hf0. }
  destruct (E1 a eq_refl) as [Ia Fa]. rewrite Hd0 in Ia. clear E1.
  unfold bind at 1. cbn [modify_session].
  (* portfolios *)
  unfold bind at 1.
  destruct (get_portfolios_df uid _) as [[p|e] w2] eqn:E2;
    apply get_portfolios_df_inv in E2;
    destruct E2 as ([Ed2 Ep2] & Es2 & E2); cbn in Ed2, Ep2, Es2.
  2:{ intros H; inversion H; subst. rewrite Es2. cbn.
      rewrite Es1.
      repeat split; try congruence; try apply Hf0; assumption. }
  pose proof (E2 p eq_refl) as Ip. cbn in Ip. rewrite Ed1, Hd0 in Ip.
  clear E2.
  unfold bind at 1. cbn [modify_session].
  (* asset types *)
  unfold bind at 1.
  destruct (get_asset_types_df _) as [[t|e] w3] eqn:E3;
    apply get_asset_types_df_inv in E3;
    destruct E3 as ([Ed3 Ep3] & Es3 & E3); cbn in Ed3, Ep3, Es3.
  2:{ intros H; inversion H; subst. rewrite Es3. cbn.
      rewrite Es2. cbn. rewrite Es1.
      repeat split; try congruence; try apply Hf0; assumption. }
  pose proof (E3 t eq_refl) as It. cbn in It. rewrite Ed2, Ed1, Hd0 in It.
  clear E3.
  unfold bind at 1. cbn [modify_session].
  (* assets *)
  unfold bind at 1.
  destruct (get_assets_df _) as [[x|e] w4] eqn:E4;
    apply get_assets_df_inv in E4;
    destruct E4 as ([Ed4 Ep4] & Es4 & E4); cbn in Ed4, Ep4, Es4.
  2:{ intros H; inversion H; subst. rewrite Es4. cbn.
      rewrite Es3. cbn. rewrite Es2. cbn. rewrite Es1.
      repeat split; try congruence; try apply Hf0; assumption. }
  pose proof (E4 x eq_refl) as Ix. cbn in Ix.
  rewrite Ed3, Ed2, Ed1, Hd0 in Ix. clear E4.
  unfold bind at 1. cbn [modify_session].
  assert (Final : forall sm,
    let s' := with_portfolio_summary sm
                (with_assets_df x (session w4)) in
    ss_user_id s' = ss_user_id (session w)
    /\ ss_user_role s' = ss_user_role (session w)
    /\ incl (accounts_df s') (accounts (db w))
    /\ (uid <> 0 -> Forall (fun a => acc_user_id a = uid) (accounts_df s'))
    /\ incl (portfolios_df s') (portfolios (db w))
    /\ incl (asset_types_df s') (asset_types (db w))
    /\ incl (assets_df s') (assets (db w))).
  { intros sm. cbn. rewrite Es4. cbn. rewrite Es3. cbn. rewrite Es2. cbn.
    rewrite Es1. repeat split; try congruence; assumption. }
  destruct (user_role =? "admin")%string.
  - intros H; inversion H; subst. cbn.
    destruct (Final (portfolio_summary (session w4)))
      as (F1 & F2 & F3 & F4 & F5 & F6 & F7). cbn in *.
    repeat split; try congruence; assumption.
  - unfold bind at 1.
    destruct (get_portfolio_summary uid _) as [[sm|e] w5] eqn:E5;
      apply summary_untouched in E5;
      destruct E5 as (Ed5 & Ep5 & Es5); cbn in Ed5, Ep5, Es5;
      intros H; inversion H; subst; cbn; rewrite Es5;
      destruct (Final (portfolio_summary (session w4)))
        as (F1 & F2 & F3 & F4 & F5 & F6 & F7); cbn in *;
      repeat split; try congruence; assumption.
Qed.

(** ** An asset already held *)

Lemma changed_rows_pos R (m : R -> bool) asg same l x :
  In x l -> m x = true -> same x (asg x) = false ->
  Nat.ltb 0 (changed_rows m asg same l) = true.
Proof.
  intros Hx Hm Hs. apply Nat.ltb_lt. unfold changed_rows.
  assert (H : In x (filter (fun r => m r && negb (same r (asg r))) l)).
  { apply filter_In. split; [assumption|]. now rewrite Hm, Hs. }
  destruct (filter _ l); [destruct H | cbn; lia].
Qed.

Lemma update_rows_length R (m : R -> bool) asg same l :
  List.length (update_rows m asg same l) = List.length l.
Proof. unfold update_rows. apply length_map. Qed.

Lemma same_investment_quantity i q :
  Dec.eqb (quantity i) q = false ->
  same_investment i (set_quantity q i) = false.
Proof.
  intros H. unfold same_investment, set_quantity. cbn. rewrite H.
  now rewrite !andb_false_r.
Qed.

Lemma holdings_kept_trans w1 w2 w3 :
  holdings_kept w1 w2 -> holdings_kept w2 w3 -> holdings_kept w1 w3.
Proof.
  intros (A1 & A2 & A3) (B1 & B2 & B3). repeat split; congruence.
Qed.

Lemma same_db_holdings_kept w w' : db w' = db w -> holdings_kept w w'.
Proof. intros E. unfold holdings_kept. rewrite E. repeat split. Qed.

Lemma log_transaction_frame s rq acc ast cost :
  keeps holdings_kept (log_transaction s rq acc ast cost).
Proof.
  unfold log_transaction, add_transaction.
  apply keeps_bind; [exact holdings_kept_trans | |].
  - intros w r w' H. apply insert_inv in H. cbn [fst snd] in H.
    destruct H as (_ & _ & [[_ E] | [_ E]]); unfold holdings_kept;
      rewrite E; repeat split.
  - intros id. destruct (negb (truthy_id id)).
    + apply keeps_raise. intros w. now apply same_db_holdings_kept.
    + apply keeps_bind; [exact holdings_kept_trans | |].
      * intros w r w' H. inversion H; subst.
        now apply same_db_holdings_kept.
      * intros _. apply keeps_bind; [exact holdings_kept_trans | |].
        -- intros w r w' H. apply keeps_refresh_data in H.
           now apply same_db_holdings_kept.
        -- intros _. apply keeps_raise. intros w.
           now apply same_db_holdings_kept.
Qed.

(** Under no failure, with the debit changing the balance, the purchase
    of an asset already held reaches the log step with the balance
    debited and the first holding raised. *)
Lemma purchase_existing s rq acc ast ex w :
  healthy w ->
  In acc (accounts (db w)) ->
  0 < Dec.coef (quantity_to_buy rq) -> 0 < Dec.coef (unit_price ast) ->
  first_holding (ss_user_id s) ast (db w) = Some ex ->
  purchase s rq acc ast (total_cost rq ast) w
  = log_transaction s rq acc ast (total_cost rq ast)
      (set_page
         (page w ++ [SuccessUpdatedHoldings (name ast)])
         (set_db
            (set_investments
               (update_rows
                  (fun i => investment_id i =? r_investment_id ex)
                  (set_quantity (r_quantity ex + quantity_to_buy rq)%dec)
                  same_investment (investments (db w)))
               (set_accounts
                  (update_rows
                     (fun a => account_id a =? account_id acc)
                     (set_current_balance
                        (current_balance acc - total_cost rq ast)%dec)
                     same_balance (accounts (db w)))
                  (db w)))
            w)).
Proof.
  intros Hw Hacc Hq Hp Hf.
  unfold purchase. unfold bind at 1. unfold update_account_balance.
  rewrite (update_healthy _ Hw). cbn [fst snd].
  rewrite (@changed_rows_pos _ _ _ _ _ acc);
    [ | assumption | apply Z.eqb_refl | ].
  2:{ unfold same_balance; cbn. apply DecFacts.sub_positive_changes.
      unfold total_cost; cbn. now apply Z.mul_pos_pos. }
  cbn [truthy_bool negb].
  set (d1 := set_accounts _ (db w)).
  assert (Hw1 : healthy (set_db d1 w)) by now apply healthy_set_db.
  unfold bind at 1. unfold get_investments_by_user.
  rewrite (fetch_healthy _ Hw1). cbn [db set_db].
  change (find (fun inv => r_asset_id inv =? asset_id ast)
               (select_investments_by_user (ss_user_id s) d1))
    with (first_holding (ss_user_id s) ast (db w)).
  rewrite Hf.
  unfold bind at 1. unfold update_investment; cbn [opt_assign app].
  rewrite (update_healthy _ Hw1).
  cbn [fst snd update_investment_stmt db set_db].
  unfold first_holding in Hf. apply find_some in Hf.
  destruct Hf as [Hex Hid].
  apply joined_row_value in Hex.
  destruct Hex as (i & a & Hi & _ & _ & _ & Hiid & _ & Hqi & _).
  rewrite (@changed_rows_pos _ _ _ _ _ i);
    [ | exact Hi | rewrite Hiid; apply Z.eqb_refl | ].
  2:{ apply same_investment_quantity. rewrite Hqi.
      now apply DecFacts.add_positive_changes. }
  cbn [truthy_bool negb]. unfold bind at 1. cbn [st_write].
  reflexivity.
Qed.

(** C7.  With no failure scheduled, for a request that passes the checks
    on an asset of positive price, paid from a stored account: when the
    user's investment list holds the asset, the purchase rewrites the
    investments table by raising the quantity of the first matching
    investment of that list by the quantity bought.  The table keeps its
    length and the id counter its value, so no investment row is
    created. *)
Theorem existing_holding_incremented (w : World) (rq : Request)
        (acc : Account) (ast : Asset) (ex : InvestmentRow) :
  healthy w ->
  selects w rq acc ast ->
  Dec.gtb (total_cost rq ast) (current_balance acc) = false ->
  In acc (accounts (db w)) ->
  0 < Dec.coef (unit_price ast) ->
  first_holding (ss_user_id (session w)) ast (db w) = Some ex ->
  let w' := snd (buy_assets rq w) in
  investments (db w')
  = update_rows (fun i => investment_id i =? r_investment_id ex)
                (set_quantity (r_quantity ex + quantity_to_buy rq)%dec)
                same_investment (investments (db w))
  /\ List.length (investments (db w')) = List.length (investments (db w))
  /\ next_investment_id (db w') = next_investment_id (db w)
  /\ (exists i,
         In i (investments (db w))
         /\ investment_id i = r_investment_id ex
         /\ inv_user_id i = ss_user_id (session w)
         /\ inv_asset_id i = asset_id ast
         /\ quantity i = r_quantity ex
         /\ In (set_quantity (quantity i + quantity_to_buy rq)%dec i)
               (investments (db w')))
  /\ In (SuccessUpdatedHoldings (name ast)) (written w w').
Proof.
  intros Hw Hsel Hfunds Hacc Hp Hf w'.
  assert (Hq : 0 < Dec.coef (quantity_to_buy rq)).
  { apply DecFacts.leb_zero_false. apply Hsel. }
  subst w'. rewrite (buy_assets_selected Hsel), Hfunds.
  unfold try_except.
  rewrite (@purchase_existing (session w) rq acc ast ex w Hw Hacc Hq Hp Hf).
  set (w2 := set_page _ _).
  destruct (log_transaction _ _ _ _ _ w2) as [r w3] eqn:E.
  pose proof E as Fr. apply log_transaction_frame in Fr.
  destruct Fr as (_ & Fi & Fn).
  assert (Hpg : exists l, wrote l w2 w3).
  { apply log_transaction_inv in E.
    destruct E as (_ & _ & [[E _] | (_ & l & E & _)]); eauto. }
  destruct Hpg as (l3 & Hl3).
  assert (Hend : exists w4 l4,
             snd (match r with
                  | inl a => (inl a, w3)
                  | inr e => purchase_failed e w3
                  end) = w4
             /\ db w4 = db w3 /\ wrote l4 w3 w4).
  { destruct r as [[]|e]; cbn [snd].
    - exists w3, []. repeat split. now apply wrote_nil.
    - destruct (purchase_failed e w3) as [r4 w4] eqn:E4.
      apply purchase_failed_inv in E4. destruct E4 as (D4 & l4 & L4 & _).
      exists w4, l4. cbn. repeat split; assumption. }
  destruct Hend as (w4 & l4 & Hw4 & D4 & L4).
  replace (snd (let (s0, w') := (r, w3) in
                match s0 with
                | inl a => (inl a, w')
                | inr e => purchase_failed e w'
                end)) with w4 by (rewrite <- Hw4; reflexivity).
  assert (Hinv : investments (db w4)
                 = update_rows
                     (fun i => investment_id i =? r_investment_id ex)
                     (set_quantity
                        (r_quantity ex + quantity_to_buy rq)%dec)
                     same_investment (investments (db w))).
  { rewrite D4, Fi. reflexivity. }
  split; [exact Hinv|].
  split; [rewrite Hinv; apply update_rows_length|].
  split; [rewrite D4, Fn; reflexivity|].
  split.
  - pose proof Hf as Hf'. unfold first_holding in Hf'.
    apply find_some in Hf'. destruct Hf' as [Hex Hid].
    apply joined_row_value in Hex.
    destruct Hex as (i & a & Hi & _ & Hu & Ha & Hiid & Hra & Hqi & _).
    exists i. split; [exact Hi|]. split; [congruence|].
    split; [exact Hu|]. apply Z.eqb_eq in Hid.
    split; [congruence|]. split; [congruence|].
    rewrite Hinv. unfold update_rows. apply in_map_iff.
    exists i. split; [|exact Hi].
    rewrite Hiid, Z.eqb_refl. rewrite same_investment_quantity.
    + cbn. now rewrite Hqi.
    + rewrite Hqi. now apply DecFacts.add_positive_changes.
  - assert (Hpage : page w4
                    = page w ++ SuccessUpdatedHoldings (name ast)
                                :: (l3 ++ l4)).
    { unfold wrote in L4, Hl3. rewrite L4, Hl3. subst w2; cbn.
      rewrite <- !app_assoc. reflexivity. }
    apply written_app in Hpage. rewrite Hpage. left; reflexivity.
Qed.

(** ** A successful purchase *)

Lemma debited_balance acc cost d d' a' :
  debited acc cost d d' ->
  In a' (accounts d') -> account_id a' = account_id acc ->
  (current_balance a' == current_balance acc - cost)%dec.
Proof.
  unfold debited. intros -> Ha Hid. apply update_rows_In in Ha.
  destruct Ha as (a0 & _ & [(_ & _ & ->) | ([Hm | Hs] & ->)]).
  - apply DecFacts.equiv_refl.
  - apply Z.eqb_neq in Hm. contradiction.
  - unfold same_balance in Hs; cbn in Hs. now apply DecFacts.eqb_equiv.
Qed.

Lemma purchase_applied_incl uid pfs cats pfs' cats' rq acc ast d d' :
  incl pfs pfs' -> incl cats cats' ->
  purchase_applied uid pfs cats rq acc ast d d' ->
  purchase_applied uid pfs' cats' rq acc ast d d'.
Proof.
  intros Hp Hc (H1 & H2 & H3). split; [assumption|]. split; [|assumption].
  destruct H2 as [H2 | (Hf & prow & crow & Ip & Ic & E)]; [left; assumption|].
  right. split; [assumption|]. exists prow, crow. auto.
Qed.

Lemma the_purchase_msg l1 l2 m m' :
  no_purchase l1 -> no_purchase l2 -> is_purchase_msg m' = true ->
  In m' (l1 ++ m :: l2) -> m' = m.
Proof.
  intros H1 H2 Hm Hin. apply in_app_or in Hin.
  unfold no_purchase in *. rewrite Forall_forall in H1, H2.
  destruct Hin as [Hin | [Hin | Hin]].
  - apply H1 in Hin. congruence.
  - congruence.
  - apply H2 in Hin. congruence.
Qed.


(** ** Fresh values on every run *)

Lemma load_data_healthy w uid user_role :
  healthy w -> uid <> 0 ->
  load_data uid user_role w
  = (inl tt, set_session (loaded uid user_role (db w) (session w)) w).
Proof.
  intros [Hc Hs] Hu. destruct w as [d cf sf s pg]; cbn in Hc, Hs.
  subst cf sf. apply Z.eqb_neq in Hu.
  unfold load_data, get_account_balances_df, loaded. rewrite Hu.
  destruct (user_role =? "admin")%string; reflexivity.
Qed.

(** C8.  A run of the buy page gives the same result and the same world
    whatever frames [st.session_state] held from earlier runs: line 1094
    reloads them before the page is shown.  With no failure scheduled the
    frames the checks read are the store's: the accounts of the user with
    their current balances, and the assets with their current unit
    prices. *)
Theorem buy_reads_current_values (w : World) (rq : Request)
        (a : list Account) (p : list Portfolio) (t : list AssetType)
        (x : list Asset) (sm : Summary) :
  run_buy_page rq
    (set_session (mkSession (ss_user_id (session w))
                            (ss_user_role (session w)) a p t x sm) w)
  = run_buy_page rq w
  /\ (healthy w -> ss_user_id (session w) <> 0 ->
      let uid := ss_user_id (session w) in
      let w1 := set_session
                  (loaded uid (ss_user_role (session w)) (db w) (session w))
                  w in
      load_data uid (ss_user_role (session w)) w = (inl tt, w1)
      /\ run_buy_page rq w = buy_assets rq w1
      /\ db w1 = db w
      /\ accounts_df (session w1) = accounts_of uid (db w)
      /\ assets_df (session w1)
         = order_by (collation (db w)) name (assets (db w))).
Proof.
  split.
  - destruct w as [d cf sf s pg]. reflexivity.
  - intros Hw Hu uid w1.
    pose proof (load_data_healthy (ss_user_role (session w)) Hw Hu) as L.
    split; [exact L|].
    split; [|repeat split].
    subst uid w1. unfold run_buy_page, bind, get_session.
    rewrite L. reflexivity.
Qed.

(** ** The scenarios, run *)

Import Scenario.

(** C1 (the code does not keep it).  Ann holds 10.0 grams of gold and
    buys 5.0 more from an account of 1000.00; the debit and the update of
    the holding are committed, then the insert of the log row raises.
    The page reports a database error, no transaction row is added, and
    yet the balance stays at 650.000 and the holding at 15.0: the three
    statements are committed one by one, not as a unit. *)
Theorem log_failure_keeps_debit_and_holding :
  let w := world_log_fails in
  let w' := snd (run_buy_page buy_5_gold w) in
  fst (run_buy_page buy_5_gold w) = inl tt
  /\ written w w' = [SuccessUpdatedHoldings "Gold"; ErrDatabase]
  /\ transactions (db w') = transactions (db w)
  /\ map current_balance (accounts_of 1 (db w)) = [mkDec 100000 2]
  /\ map current_balance (accounts_of 1 (db w')) = [mkDec 650000 3]
  /\ map quantity (investments_of 1 (db w)) = [mkDec 100 1]
  /\ map quantity (investments_of 1 (db w')) = [mkDec 150 1].
Proof. vm_compute. repeat split. Qed.

(** C2 (the code does not keep it).  Ann holds no gold and has no
    portfolio; she buys 5.0 grams from an account of 1000.00.  The page
    asks for a portfolio and a category and the function returns, with no
    investment and no transaction row added, and yet the balance stays at
    650.000: the debit is committed before the portfolio is looked
    for. *)
Theorem unresolved_portfolio_keeps_debit :
  let w := world store_bare in
  let w' := snd (run_buy_page buy_5_gold w) in
  first_holding 1 gold (db w) = None
  /\ portfolios_df (session w') = []
  /\ fst (run_buy_page buy_5_gold w) = inl tt
  /\ written w w' = [WarnNoHolding; ErrSelectPortfolioAndCategory]
  /\ map current_balance (accounts_of 1 (db w)) = [mkDec 100000 2]
  /\ map current_balance (accounts_of 1 (db w')) = [mkDec 650000 3]
  /\ investments (db w') = []
  /\ transactions (db w') = transactions (db w).
Proof. vm_compute. repeat split. Qed.



Lemma portfolio_summary_totals_witness :
  let w := world store_holding in
  healthy w
  /\ forallb (asset_resolved (db w)) (investments_of 1 (db w)) = true
  /\ exists s,
      get_portfolio_summary 1 w = (inl s, w)
      /\ (total_account_balance s
          == Dec.sum (map current_balance (accounts_of 1 (db w))))%dec
      /\ total_portfolio_value s
         = (total_account_balance s + total_investment_value s)%dec.
Proof.
  intros w.
  assert (Hw : healthy w) by (split; reflexivity).
  split; [exact Hw|]. split; [reflexivity|].
  destruct (@portfolio_summary_totals w 1 Hw eq_refl)
    as (s & E & A & _ & P & _).
  exists s. repeat split; assumption.
Defined.


Lemma existing_holding_incremented_witness :
  let w := world_loaded store_holding in
  let ex := join_row gold_holding core commodity gold in
  healthy w
  /\ selects w buy_5_gold savings gold
  /\ Dec.gtb (total_cost buy_5_gold gold) (current_balance savings) = false
  /\ In savings (accounts (db w))
  /\ 0 < Dec.coef (unit_price gold)
  /\ first_holding (ss_user_id (session w)) gold (db w) = Some ex
  /\ investments (db (snd (buy_assets buy_5_gold w)))
     = update_rows (fun i => investment_id i =? r_investment_id ex)
                   (set_quantity
                      (r_quantity ex + quantity_to_buy buy_5_gold)%dec)
                   same_investment (investments (db w)).
Proof.
  intros w ex.
  assert (Hw : healthy w) by (split; reflexivity).
  assert (S : selects w buy_5_gold savings gold)
    by (repeat split; try reflexivity; discriminate).
  assert (Hi : In savings (accounts (db w))) by (left; reflexivity).
  assert (Hp : 0 < Dec.coef (unit_price gold)) by reflexivity.
  assert (Hf : first_holding (ss_user_id (session w)) gold (db w) = Some ex)
    by reflexivity.
  repeat (split; [assumption || reflexivity|]).
  exact (proj1 (@existing_holding_incremented w buy_5_gold savings gold ex
                  Hw S eq_refl Hi Hp Hf)).
Defined.

Lemma buy_reads_current_values_witness :
  let w := world store_holding in
  healthy w /\ ss_user_id (session w) <> 0
  /\ run_buy_page buy_5_gold w
     = buy_assets buy_5_gold
         (set_session (loaded 1 "user" (db w) (session w)) w).
Proof.
  intros w.
  assert (Hw : healthy w) by (split; reflexivity).
  assert (Hu : ss_user_id (session w) <> 0) by discriminate.
  split; [exact Hw|]. split; [exact Hu|].
  apply (proj2 (buy_reads_current_values w buy_5_gold [] [] [] []
                                         empty_summary) Hw Hu).
Defined.

Lemma delete_user_removes_all_rows_witness :
  let w := world store_holding in
  let w' := snd (delete_user_and_all_data 1 w) in
  healthy w
  /\ fst (delete_user_and_all_data 1 w) = inl true
  /\ user_purged 1 (db w) (db w')
  /\ Forall (fun u => user_id u <> 1) (users (db w')).
Proof.
  intros w w'.
  assert (Hw : healthy w) by (split; reflexivity).
  destruct (delete_user_removes_all_rows w 1) as [H1 H2].
  split; [exact Hw|]. split; [exact (H1 Hw)|].
  destruct (H2 w' eq_refl) as (P & _ & _ & _ & _ & U).
  split; assumption.
Defined.

(* ================================================================== *)
(** * Further properties of the code *)

(** ** Deleting a user: failure, unknown user, what is left *)

Lemma delete_user_cases w uid r w' :
  delete_user_and_all_data uid w = (r, w') ->
  page w' = page w /\ session w' = session w
  /\ ((r = inl true /\ user_purged uid (db w) (db w'))
      \/ ((r = inl false \/ r = inr MySQLError) /\ db w' = db w)).
Proof.
  unfold delete_user_and_all_data, delete_user_statements, try_except,
    bind, create_connection, cursor_execute, ret, delete_where, user_purged.
  destruct w as [d cf sf s p]; cbn.
  destruct cf as [|[] cf]; cbn;
    destruct sf as [|[] [|[] [|[] [|[] [|[] sf]]]]]; cbn;
    intros H; inversion H; subst; cbn; auto 15.
Qed.

(** X1.  [delete_user_and_all_data] is all or nothing.  Whenever it does
    not return [True] (no connection could be made, or one of its five
    DELETE statements raised) the store is exactly the store before the
    call, the rows that the earlier statements had removed included, and
    the result is [False] or the MySQL error raised again. *)
Theorem delete_user_all_or_nothing (w : World) (uid : Z)
        (r : bool + exn) (w' : World) :
  delete_user_and_all_data uid w = (r, w') ->
  r <> inl true ->
  db w' = db w /\ (r = inl false \/ r = inr MySQLError).
Proof.
  intros H Hr. apply delete_user_cases in H.
  destruct H as (_ & _ & [[H _] | [H1 H2]]); [contradiction|].
  split; assumption.
Qed.

Lemma filter_keep_all A (p : A -> bool) l :
  Forall (fun x => p x = true) l -> filter p l = l.
Proof.
  induction 1 as [|x l Hx _ IH]; cbn; [reflexivity|].
  now rewrite Hx, IH.
Qed.

Lemma filter_other_ids A (key : A -> Z) id l :
  Forall (fun x => key x <> id) l ->
  filter (fun x => negb (key x =? id)) l = l.
Proof.
  intros H. apply filter_keep_all.
  eapply Forall_impl; [|exact H]. cbn. intros x Hx.
  now apply negb_true_iff, Z.eqb_neq.
Qed.

Lemma store_eta d :
  mkStore (users d) (accounts d) (portfolios d) (asset_types d) (assets d)
          (investments d) (transactions d) (next_investment_id d)
          (next_transaction_id d) (collation d) = d.
Proof. destruct d; reflexivity. Qed.

Lemma user_purged_unknown uid d d' :
  unknown_user uid d -> user_purged uid d d' ->
  transactions d' = transactions d /\ investments d' = investments d
  /\ accounts d' = accounts d /\ portfolios d' = portfolios d
  /\ users d' = users d.
Proof.
  intros (U1 & U2 & U3 & U4 & U5) (P1 & P2 & P3 & P4 & P5 & _).
  rewrite P1, P2, P3, P4, P5.
  rewrite !filter_other_ids by assumption. repeat split.
Qed.

(** X2.  Deleting a user id that no row of [users], [accounts],
    [portfolios], [investments] or [transactions] carries is reported as
    a success: with no failure scheduled the call returns [True] and the
    world is as it was. *)
Theorem delete_unknown_user_reports_success (w : World) (uid : Z) :
  healthy w -> unknown_user uid (db w) ->
  delete_user_and_all_data uid w = (inl true, w).
Proof.
  intros [Hc Hs] (U1 & U2 & U3 & U4 & U5).
  destruct w as [d cf sf s p]; cbn in *. subst cf sf.
  unfold delete_user_and_all_data, delete_user_statements, try_except,
    bind, create_connection, cursor_execute, ret, delete_where.
  cbn. unfold set_users, set_portfolios, set_accounts, set_investments,
    set_transactions. cbn.
  rewrite !filter_other_ids by assumption.
  now rewrite store_eta.
Qed.

Lemma filter_none A (p : A -> bool) l :
  Forall (fun x => p x = false) l -> filter p l = [].
Proof.
  induction 1 as [|x l Hx _ IH]; cbn; [reflexivity|].
  now rewrite Hx, IH.
Qed.

Lemma filter_id_after_purge A (key : A -> Z) uid l :
  filter (fun x => key x =? uid)
         (filter (fun x => negb (key x =? uid)) l) = [].
Proof.
  apply filter_none. apply Forall_forall. intros x Hx.
  apply filter_In in Hx. destruct Hx as [_ Hx].
  now apply negb_true_iff in Hx.
Qed.

Lemma delete_user_healthy_world w uid :
  healthy w ->
  exists d', delete_user_and_all_data uid w = (inl true, set_db d' w)
             /\ user_purged uid (db w) d'.
Proof.
  intros Hw.
  destruct (delete_user_and_all_data uid w) as [r w'] eqn:E.
  pose proof (delete_user_healthy uid Hw) as Hr. rewrite E in Hr.
  cbn in Hr. subst r.
  pose proof E as C. apply delete_user_cases in C.
  destruct C as (Cp & Cs & [[_ P] | [[F|F] _]]); try discriminate.
  exists (db w'). split; [|exact P].
  f_equal.
  destruct Hw as [Hc Hs].
  revert E. unfold delete_user_and_all_data, delete_user_statements,
    try_except, bind, create_connection, cursor_execute, ret, delete_where.
  destruct w as [d cf sf s p]; cbn in *. subst cf sf. cbn.
  intros E. inversion E; subst. reflexivity.
Qed.

(** X3.  Once [delete_user_and_all_data uid] has run without a failure,
    no read finds the user: [get_user_by_id], [get_accounts_by_user],
    [get_portfolios_by_user] and [get_investments_by_user] return no row,
    [get_user_role] returns [None], and [get_portfolio_summary] is three
    times [0.00]. *)
Theorem deleted_user_is_gone (w : World) (uid : Z) :
  healthy w ->
  let w1 := snd (delete_user_and_all_data uid w) in
  get_user_by_id uid w1 = (inl (Some []), w1)
  /\ get_user_role uid w1 = (inl None, w1)
  /\ get_accounts_by_user uid w1 = (inl (Some []), w1)
  /\ get_portfolios_by_user uid w1 = (inl (Some []), w1)
  /\ get_investments_by_user uid w1 = (inl (Some []), w1)
  /\ get_portfolio_summary uid w1 = (inl empty_summary, w1).
Proof.
  intros Hw w1.
  destruct (delete_user_healthy_world uid Hw) as (d' & E & P).
  assert (Ew : w1 = set_db d' w) by (subst w1; now rewrite E).
  assert (Hw1 : healthy w1) by (rewrite Ew; now apply healthy_set_db).
  assert (Hd : db w1 = d') by (rewrite Ew; reflexivity).
  destruct P as (P1 & P2 & P3 & P4 & P5 & _).
  unfold get_user_by_id, get_user_role, get_accounts_by_user,
    get_portfolios_by_user, get_investments_by_user,
    get_portfolio_summary, bind.
  rewrite !(fetch_healthy _ Hw1).
  unfold select_investments_by_user, select_total_balance,
    select_total_investment_value.
  rewrite Hd, P2, P3, P4, P5.
  rewrite !filter_id_after_purge. repeat split.
Qed.

(** ** The summary under failures *)

Lemma summary_cases w uid r w' :
  get_portfolio_summary uid w = (r, w') ->
  (exists a i,
      r = inl (mkSummary a i (a + i)%dec)
      /\ (a = Dec.zero2
          \/ a = first_or_zero (Some (select_total_balance uid (db w))))
      /\ (i = Dec.zero2
          \/ i = first_or_zero
                   (Some (select_total_investment_value uid (db w)))))
  \/ r = inr MySQLError.
Proof.
  unfold get_portfolio_summary. unfold bind at 1.
  destruct (execute_query_fetch _ w) as [[ra|e] w1] eqn:E1;
    apply fetch_inv in E1; destruct E1 as (Ed1 & _ & _ & E1).
  2:{ intros H; inversion H; subst.
      destruct E1 as [E1|[E1|E1]]; inversion E1; auto. }
  unfold bind at 1.
  destruct (execute_query_fetch _ w1) as [[ri|e] w2] eqn:E2;
    apply fetch_inv in E2; destruct E2 as (Ed2 & _ & _ & E2).
  2:{ intros H; inversion H; subst.
      destruct E2 as [E2|[E2|E2]]; inversion E2; auto. }
  intros H; inversion H; subst. left.
  eexists; eexists. split; [reflexivity|].
  rewrite Ed1 in E2.
  split.
  - destruct E1 as [E1|[E1|E1]]; inversion E1; subst; auto.
  - destruct E2 as [E2|[E2|E2]]; inversion E2; subst; auto.
Qed.

Lemma summary_offline w uid rest :
  conn_faults w = true :: true :: rest ->
  get_portfolio_summary uid w
  = (inl empty_summary, set_conn_faults rest w).
Proof.
  intros Hc. destruct w as [d cf sf s p]; cbn in Hc. subst cf.
  reflexivity.
Qed.

(** X4.  [get_portfolio_summary] under any schedule of failures.  It
    writes nothing: store, session and page are as they were.  It raises
    the MySQL error of a failed statement, or it returns a summary whose
    total is the sum of its two parts, each part being the total read
    from the store or [0.00] (when its query got no connection, or summed
    no row).  With no connection for either query the summary is three
    times [0.00] and no error is raised. *)
Theorem summary_total_is_the_sum_of_its_parts (w : World) (uid : Z)
        (r : Summary + exn) (w' : World) :
  get_portfolio_summary uid w = (r, w') ->
  db w' = db w /\ session w' = session w /\ page w' = page w
  /\ (r = inr MySQLError
      \/ exists s,
          r = inl s
          /\ total_portfolio_value s
             = (total_account_balance s + total_investment_value s)%dec
          /\ (total_account_balance s = Dec.zero2
              \/ total_account_balance s
                 = first_or_zero (Some (select_total_balance uid (db w))))
          /\ (total_investment_value s = Dec.zero2
              \/ total_investment_value s
                 = first_or_zero
                     (Some (select_total_investment_value uid (db w)))))
  /\ (forall rest, conn_faults w = true :: true :: rest ->
                   r = inl empty_summary).
Proof.
  intros H. pose proof H as U. apply summary_untouched in U.
  destruct U as (U1 & U2 & U3).
  split; [assumption|]. split; [assumption|]. split; [assumption|].
  split.
  - apply summary_cases in H.
    destruct H as [(a & i & -> & Ha & Hi) | ->]; [right | left; reflexivity].
    eexists. split; [reflexivity|]. cbn. auto.
  - intros rest Hc. rewrite (@summary_offline w uid rest Hc) in H.
    now inversion H.
Qed.

(** ** Looking an asset up, and its price *)

(** X5.  [get_asset_by_id] under any schedule of failures: it changes
    nothing; an asset it returns is the first stored asset with that id;
    when no stored asset has the id it returns [None] (or raises the
    MySQL error of the failed statement). *)
Theorem get_asset_by_id_returns_a_stored_asset (w : World) (aid : Z)
        (r : option Asset + exn) (w' : World) :
  get_asset_by_id aid w = (r, w') ->
  db w' = db w /\ session w' = session w /\ page w' = page w
  /\ (forall a, r = inl (Some a) ->
                find (fun x => asset_id x =? aid) (assets (db w)) = Some a
                /\ In a (assets (db w)) /\ asset_id a = aid)
  /\ (Forall (fun x => asset_id x <> aid) (assets (db w)) ->
      r = inl None \/ r = inr MySQLError).
Proof.
  unfold get_asset_by_id, bind.
  destruct (execute_query_fetch _ w) as [[rows|e] w1] eqn:E;
    apply fetch_inv in E; destruct E as (Ed & Es & Ep & E);
    intros H; inversion H; subst; clear H;
    (split; [assumption|]); (split; [assumption|]);
    (split; [assumption|]).
  - destruct E as [E|[E|E]]; inversion E; subst; clear E.
    + rewrite find_hd_filter.
      destruct (filter (fun a0 => asset_id a0 =? aid) (assets (db w)))
        as [|x l] eqn:F; cbn.
      * split; [intros a Ha; discriminate | auto].
      * assert (Hin : In x (filter (fun a0 => asset_id a0 =? aid)
                                   (assets (db w))))
          by (rewrite F; left; reflexivity).
        apply filter_In in Hin. destruct Hin as [Hin Hid].
        apply Z.eqb_eq in Hid.
        split.
        -- intros a Ha. inversion Ha; subst. auto.
        -- intros Hno. rewrite Forall_forall in Hno.
           apply Hno in Hin. contradiction.
    + split; [intros a Ha; discriminate | auto].
  - destruct E as [E|[E|E]]; inversion E; subst.
    split; [intros a Ha; discriminate | auto].
Qed.

Lemma find_update_rows R (key : R -> Z) id asg same (l : list R) :
  (forall x, key (asg x) = key x) ->
  find (fun x => key x =? id)
       (update_rows (fun x => key x =? id) asg same l)
  = option_map (fun x => if same x (asg x) then x else asg x)
               (find (fun x => key x =? id) l).
Proof.
  intros Hk. unfold update_rows.
  induction l as [|x l IH]; cbn; [reflexivity|].
  destruct (key x =? id) eqn:K; cbn.
  - destruct (same x (asg x)); cbn.
    + now rewrite K.
    + now rewrite Hk, K.
  - now rewrite K.
Qed.

(** X6.  A price written is the price read.  With no failure scheduled
    and an asset stored under [aid], after [update_asset_price aid p] the
    call [get_asset_by_id aid] returns an asset with that id, the same
    name and unit type as before, and a unit price equal to [p] as a
    number. *)
Theorem price_update_then_lookup (w : World) (aid : Z) (p : Decimal)
        (a0 : Asset) :
  healthy w ->
  find (fun x => asset_id x =? aid) (assets (db w)) = Some a0 ->
  let w1 := snd (update_asset_price aid p w) in
  exists a,
    get_asset_by_id aid w1 = (inl (Some a), w1)
    /\ asset_id a = aid /\ name a = name a0 /\ unit_type a = unit_type a0
    /\ (unit_price a == p)%dec.
Proof.
  intros Hw Hf w1.
  assert (Ew : w1 = set_db (set_assets
                              (update_rows (fun a => asset_id a =? aid)
                                           (set_unit_price p) same_price
                                           (assets (db w))) (db w)) w).
  { subst w1. now rewrite (update_asset_price_db _ _ Hw). }
  assert (Hw1 : healthy w1) by (rewrite Ew; now apply healthy_set_db).
  unfold get_asset_by_id, bind. rewrite (fetch_healthy _ Hw1).
  assert (Hfind : find (fun x => asset_id x =? aid) (assets (db w1))
                  = Some (if same_price a0 (set_unit_price p a0) then a0
                          else set_unit_price p a0)).
  { rewrite Ew. cbn [db set_db assets set_assets].
    rewrite find_update_rows by reflexivity. now rewrite Hf. }
  rewrite find_hd_filter in Hfind.
  destruct (filter _ (assets (db w1))) as [|a l]; [discriminate|].
  cbn in Hfind. inversion Hfind as [Ea]. clear Hfind.
  eexists. split; [reflexivity|].
  apply find_some in Hf. destruct Hf as [_ Hid]. apply Z.eqb_eq in Hid.
  destruct (same_price a0 (set_unit_price p a0)) eqn:S.
  - repeat split; try assumption.
    unfold same_price in S. cbn in S. now apply DecFacts.eqb_equiv.
  - cbn. repeat split; assumption.
Qed.

(** ** Updates: an id that is not there, and what an update leaves *)

Lemma update_rows_no_match R (m : R -> bool) asg same (l : list R) :
  Forall (fun x => m x = false) l ->
  update_rows m asg same l = l /\ changed_rows m asg same l = 0%nat.
Proof.
  unfold update_rows, changed_rows.
  induction 1 as [|x l Hx _ [IH1 IH2]]; cbn; [split; reflexivity|].
  rewrite Hx; cbn. rewrite IH1. split; [reflexivity | exact IH2].
Qed.

Lemma no_id_no_match R (key : R -> Z) id (l : list R) :
  Forall (fun x => key x <> id) l ->
  Forall (fun x => (key x =? id) = false) l.
Proof.
  intros H. eapply Forall_impl; [|exact H]. cbn. intros x Hx.
  now apply Z.eqb_neq.
Qed.

Lemma set_accounts_same d : set_accounts (accounts d) d = d.
Proof. destruct d; reflexivity. Qed.
Lemma set_assets_same d : set_assets (assets d) d = d.
Proof. destruct d; reflexivity. Qed.
Lemma set_investments_same d : set_investments (investments d) d = d.
Proof. destruct d; reflexivity. Qed.
Lemma set_portfolios_same d : set_portfolios (portfolios d) d = d.
Proof. destruct d; reflexivity. Qed.

(** X7.  An update by an id that no row carries: [update_account_balance],
    [update_asset_price], [update_investment] and [update_portfolio]
    return [False] and leave the world as it was (no failure
    scheduled). *)
Theorem update_of_a_missing_id_changes_nothing (w : World) (id : Z) :
  healthy w ->
  (forall b,
      Forall (fun a => account_id a <> id) (accounts (db w)) ->
      update_account_balance id b w = (inl (Some false), w))
  /\ (forall p,
         Forall (fun a => asset_id a <> id) (assets (db w)) ->
         update_asset_price id p w = (inl (Some false), w))
  /\ (forall f1 f2 f3 f4 f5 f6 f7 f8 f9 f10,
         Forall (fun i => investment_id i <> id) (investments (db w)) ->
         update_investment id f1 f2 f3 f4 f5 f6 f7 f8 f9 f10 w
         = (inl (Some false), w))
  /\ (forall n ds,
         Forall (fun p => portfolio_id p <> id) (portfolios (db w)) ->
         update_portfolio id n ds w = (inl (Some false), w)).
Proof.
  intros Hw.
  assert (Upd : forall q,
             fst (q (db w)) = db w -> snd (q (db w)) = 0%nat ->
             execute_query_update q w = (inl (Some false), w)).
  { intros q H1 H2. rewrite (update_healthy _ Hw), H1, H2.
    now rewrite set_db_same. }
  assert (Rows : forall R (m : R -> bool) asg same l,
             Forall (fun x => m x = false) l ->
             update_rows m asg same l = l
             /\ changed_rows m asg same l = 0%nat)
    by (intros; now apply update_rows_no_match).
  split; [|split; [|split]].
  - intros b H. apply no_id_no_match in H.
    unfold update_account_balance. apply Upd; cbn [fst snd].
    + rewrite (proj1 (Rows _ _ _ _ _ H)). apply set_accounts_same.
    + apply (proj2 (Rows _ _ _ _ _ H)).
  - intros p H. apply no_id_no_match in H.
    unfold update_asset_price. apply Upd; cbn [fst snd].
    + rewrite (proj1 (Rows _ _ _ _ _ H)). apply set_assets_same.
    + apply (proj2 (Rows _ _ _ _ _ H)).
  - intros f1 f2 f3 f4 f5 f6 f7 f8 f9 f10 H. apply no_id_no_match in H.
    unfold update_investment.
    destruct (_ ++ _) as [|u us] eqn:U; [reflexivity|].
    apply Upd; unfold update_investment_stmt; cbn [fst snd].
    + rewrite (proj1 (Rows _ _ _ _ _ H)). apply set_investments_same.
    + apply (proj2 (Rows _ _ _ _ _ H)).
  - intros n ds H. apply no_id_no_match in H.
    unfold update_portfolio.
    destruct (_ ++ _) as [|u us] eqn:U; [reflexivity|].
    apply Upd; cbn [fst snd].
    + rewrite (proj1 (Rows _ _ _ _ _ H)). apply set_portfolios_same.
    + apply (proj2 (Rows _ _ _ _ _ H)).
Qed.

Lemma update_rows_map_key R K (key : R -> K) m asg same (l : list R) :
  (forall x, key (asg x) = key x) ->
  map key (update_rows m asg same l) = map key l.
Proof.
  intros Hk. unfold update_rows. rewrite map_map.
  apply map_ext. intros x. destruct (_ && _); [apply Hk | reflexivity].
Qed.

Lemma update_rows_other_ids R (key : R -> Z) id asg same (l : list R) :
  (forall x, key (asg x) = key x) ->
  filter (fun x => negb (key x =? id))
         (update_rows (fun x => key x =? id) asg same l)
  = filter (fun x => negb (key x =? id)) l.
Proof.
  intros Hk. unfold update_rows.
  induction l as [|x l IH]; cbn; [reflexivity|].
  destruct (key x =? id) eqn:K; cbn.
  - destruct (same x (asg x)); cbn.
    + now rewrite K.
    + now rewrite Hk, K.
  - rewrite K. cbn. now rewrite IH.
Qed.

Lemma assignments_keep R K (key : R -> K) U (apply1 : R -> U -> R)
      (us : list U) :
  (forall x u, key (apply1 x u) = key x) ->
  forall x, key (fold_left apply1 us x) = key x.
Proof.
  intros H. induction us as [|u us IH]; intros x; cbn; [reflexivity|].
  now rewrite IH, H.
Qed.

(** X8.  What [update_investment] cannot touch, whatever fields are given
    and whatever fails: every table but [investments]; the investment ids
    and the owners, in table order (no row is added, removed or moved to
    another user); and every row whose id is not the one given. *)
Theorem update_investment_keeps_identity (w : World) (iid : Z)
        (f_name f_symbol : option string) (f_amount : option Decimal)
        (f_date : option string) (f_quantity : option Decimal)
        (f_currency f_notes : option string)
        (f_portfolio f_category f_asset : option Z)
        (r : option bool + exn) (w' : World) :
  update_investment iid f_name f_symbol f_amount f_date f_quantity
                    f_currency f_notes f_portfolio f_category f_asset w
  = (r, w') ->
  set_investments (investments (db w')) (db w) = db w'
  /\ map investment_id (investments (db w'))
     = map investment_id (investments (db w))
  /\ map inv_user_id (investments (db w'))
     = map inv_user_id (investments (db w))
  /\ filter (fun i => negb (investment_id i =? iid)) (investments (db w'))
     = filter (fun i => negb (investment_id i =? iid)) (investments (db w)).
Proof.
  unfold update_investment.
  destruct (_ ++ _) as [|u us] eqn:U.
  - intros H; inversion H; subst.
    split; [apply set_investments_same | repeat split].
  - clear U. intros H. apply update_inv in H.
    unfold update_investment_stmt in H; cbn [fst snd] in H.
    destruct H as (_ & _ & [[_ Ed] | [_ Ed]]); rewrite Ed;
      [| split; [apply set_investments_same | repeat split]].
    cbn [investments set_investments].
    split; [reflexivity|].
    split; [|split].
    + apply update_rows_map_key. intros x.
      apply assignments_keep. intros y []; reflexivity.
    + apply update_rows_map_key. intros x.
      apply assignments_keep. intros y []; reflexivity.
    + apply update_rows_other_ids. intros x.
      apply assignments_keep. intros y []; reflexivity.
Qed.

(** X9.  What [update_account_balance] touches, whatever fails: no table
    but [accounts]; ids, owners and names of the accounts stay, in table
    order; the rows with another id are untouched; and when the call
    returns (rather than raises or gets no connection) every account with
    the id holds a balance equal to the new one as a number. *)
Theorem update_account_balance_touches_one_balance (w : World) (aid : Z)
        (b : Decimal) (r : option bool + exn) (w' : World) :
  update_account_balance aid b w = (r, w') ->
  set_accounts (accounts (db w')) (db w) = db w'
  /\ map account_id (accounts (db w')) = map account_id (accounts (db w))
  /\ map acc_user_id (accounts (db w'))
     = map acc_user_id (accounts (db w))
  /\ map account_name (accounts (db w'))
     = map account_name (accounts (db w))
  /\ filter (fun a => negb (account_id a =? aid)) (accounts (db w'))
     = filter (fun a => negb (account_id a =? aid)) (accounts (db w))
  /\ (forall x, r = inl (Some x) ->
                forall a, In a (accounts (db w')) -> account_id a = aid ->
                          (current_balance a == b)%dec).
Proof.
  unfold update_account_balance. intros H. apply update_inv in H.
  cbn [fst snd] in H.
  destruct H as (_ & _ & [[Er Ed] | [Er Ed]]); rewrite Ed.
  - cbn [accounts set_accounts].
    split; [reflexivity|].
    split; [now apply update_rows_map_key|].
    split; [now apply update_rows_map_key|].
    split; [now apply update_rows_map_key|].
    split; [now apply update_rows_other_ids|].
    intros x _ a Ha Hid. apply update_rows_In in Ha.
    destruct Ha as (a0 & _ & [(_ & _ & ->) | ([Hm | Hs] & ->)]).
    + apply DecFacts.equiv_refl.
    + apply Z.eqb_neq in Hm. contradiction.
    + unfold same_balance in Hs; cbn in Hs. now apply DecFacts.eqb_equiv.
  - split; [apply set_accounts_same|]. repeat split.
    intros x Hx. destruct Er as [Er|Er]; rewrite Er in Hx; discriminate.
Qed.

(** ** Deleting one row *)

Lemma delete_where_count R (p : R -> bool) (l : list R) :
  Nat.ltb 0 (List.length (filter p l)) = existsb p l.
Proof.
  induction l as [|x l IH]; cbn; [reflexivity|].
  destruct (p x); cbn; [reflexivity | exact IH].
Qed.

Lemma delete_stmt_inv R (key : R -> Z) (tbl : Store -> list R)
      (set : list R -> Store -> Store) id w r w' :
  (forall l d, tbl (set l d) = l) ->
  execute_query_update
    (fun d => let (l, n) := delete_where (fun x => key x =? id) (tbl d) in
              (set l d, n)) w = (r, w') ->
  page w' = page w /\ session w' = session w
  /\ (db w' = set (tbl (db w')) (db w) \/ db w' = db w)
  /\ deleted_by_id key id (tbl (db w)) (tbl (db w')) r.
Proof.
  intros Hts H. apply update_inv in H. unfold delete_where in H.
  cbn [fst snd] in H.
  destruct H as (Hs & Hp & [[Er Ed] | [Er Ed]]).
  - split; [assumption|]. split; [assumption|].
    rewrite Ed, Hts. split; [left; reflexivity|].
    left. split; [reflexivity|]. rewrite Er.
    now rewrite delete_where_count.
  - split; [assumption|]. split; [assumption|].
    rewrite Ed. split; [right; reflexivity|].
    right. split; [reflexivity | assumption].
Qed.

(** X10.  [delete_account], [delete_portfolio], [delete_investment] and
    [delete_transaction], whatever fails: only their own table changes;
    either the statement ran, the table is the old one less the rows with
    the id and the result tells whether such a row existed, or the table
    is untouched and the result is [None] (no connection) or the MySQL
    error. *)
Theorem delete_by_id_removes_exactly_that_id (w : World) (id : Z) :
  (forall r w',
      delete_account id w = (r, w') ->
      set_accounts (accounts (db w')) (db w) = db w'
      /\ deleted_by_id account_id id (accounts (db w)) (accounts (db w')) r)
  /\ (forall r w',
         delete_portfolio id w = (r, w') ->
         set_portfolios (portfolios (db w')) (db w) = db w'
         /\ deleted_by_id portfolio_id id (portfolios (db w))
                          (portfolios (db w')) r)
  /\ (forall r w',
         delete_investment id w = (r, w') ->
         set_investments (investments (db w')) (db w) = db w'
         /\ deleted_by_id investment_id id (investments (db w))
                          (investments (db w')) r)
  /\ (forall r w',
         delete_transaction id w = (r, w') ->
         set_transactions (transactions (db w')) (db w) = db w'
         /\ deleted_by_id transaction_id id (transactions (db w))
                          (transactions (db w')) r).
Proof.
  split; [|split; [|split]]; intros r w' H.
  - apply (@delete_stmt_inv _ account_id accounts set_accounts) in H;
      [|reflexivity].
    destruct H as (_ & _ & [E|E] & D); split; try exact D.
    + now rewrite <- E.
    + rewrite E. apply set_accounts_same.
  - apply (@delete_stmt_inv _ portfolio_id portfolios set_portfolios) in H;
      [|reflexivity].
    destruct H as (_ & _ & [E|E] & D); split; try exact D.
    + now rewrite <- E.
    + rewrite E. apply set_portfolios_same.
  - apply (@delete_stmt_inv _ investment_id investments set_investments)
      in H; [|reflexivity].
    destruct H as (_ & _ & [E|E] & D); split; try exact D.
    + now rewrite <- E.
    + rewrite E. apply set_investments_same.
  - apply (@delete_stmt_inv _ transaction_id transactions set_transactions)
      in H; [|reflexivity].
    destruct H as (_ & _ & [E|E] & D); split; try exact D.
    + now rewrite <- E.
    + rewrite E. destruct (db w); reflexivity.
Qed.

(** ** A new investment: listed, hidden, removed again *)

Lemma insert_healthy (q : Store -> Store * Z) w :
  healthy w ->
  execute_query_insert q w
  = (inl (Some (snd (q (db w)))), set_db (fst (q (db w))) w).
Proof.
  intros [Hc Hs].
  unfold execute_query_insert, bind, create_connection, cursor_execute, ret.
  rewrite Hc; cbn. rewrite Hs; cbn. reflexivity.
Qed.

Lemma no_partner R (key : R -> Z) id (l : list R) :
  Forall (fun x => key x <> id) l ->
  filter (fun x => id =? key x) l = [].
Proof.
  intros H. apply filter_none. eapply Forall_impl; [|exact H].
  cbn. intros x Hx. apply Z.eqb_neq. congruence.
Qed.

Lemma add_investment_healthy w uid pid cid aid nm sym amount date q cur nts :
  healthy w ->
  add_investment uid pid cid aid nm sym amount date q cur nts w
  = (inl (Some (next_investment_id (db w))),
     set_db
       (mkStore (users (db w)) (accounts (db w)) (portfolios (db w))
                (asset_types (db w)) (assets (db w))
                (investments (db w)
                 ++ [new_investment (db w) uid pid cid aid nm sym amount
                                    date q cur nts])
                (transactions (db w)) (next_investment_id (db w) + 1)
                (next_transaction_id (db w)) (collation (db w)))
       w).
Proof.
  intros Hw. unfold add_investment.
  now rewrite (insert_healthy _ Hw).
Qed.

(** X11.  An investment added is an investment listed.  With no failure
    scheduled and the portfolio, the category and the asset stored,
    [add_investment] returns the new id, and the next
    [get_investments_by_user] of that user has the row, joined with the
    names of that portfolio and category, its current value being the
    quantity times the asset's unit price. *)
Theorem added_investment_is_listed (w : World) (uid pid cid aid : Z)
        (nm : string) (sym : option string) (amount : Decimal)
        (date : string) (q : Decimal) (cur : string) (nts : option string)
        (p : Portfolio) (c : AssetType) (a : Asset) :
  healthy w ->
  In p (portfolios (db w)) -> portfolio_id p = pid ->
  In c (asset_types (db w)) -> asset_type_id c = cid ->
  In a (assets (db w)) -> asset_id a = aid ->
  let i := new_investment (db w) uid pid cid aid nm sym amount date q cur
                          nts in
  let w1 := snd (add_investment uid pid cid aid nm sym amount date q cur
                                nts w) in
  fst (add_investment uid pid cid aid nm sym amount date q cur nts w)
  = inl (Some (investment_id i))
  /\ exists rows,
      get_investments_by_user uid w1 = (inl (Some rows), w1)
      /\ In (join_row i p c a) rows
      /\ current_value (join_row i p c a) = (q * unit_price a)%dec
      /\ r_portfolio_name (join_row i p c a) = portfolio_name p
      /\ r_asset_category_name (join_row i p c a) = type_name c.
Proof.
  intros Hw Hp Hpid Hc Hcid Ha Haid i w1.
  subst w1. rewrite (add_investment_healthy _ _ _ _ _ _ _ _ _ _ _ Hw).
  cbn [fst snd]. split; [reflexivity|].
  eexists. split.
  { unfold get_investments_by_user. apply fetch_healthy.
    now apply healthy_set_db. }
  split; [|repeat split].
  cbn [db set_db]. unfold select_investments_by_user.
  apply in_flat_map. exists i. split.
  - apply filter_In. split.
    + cbn [investments]. apply in_or_app. right. left. reflexivity.
    + cbn. apply Z.eqb_refl.
  - unfold join_investment. cbn [portfolios asset_types assets].
    apply in_flat_map. exists p. split.
    { apply filter_In. split; [assumption|]. cbn. rewrite Hpid.
      apply Z.eqb_refl. }
    apply in_flat_map. exists c. split.
    { apply filter_In. split; [assumption|]. cbn. rewrite Hcid.
      apply Z.eqb_refl. }
    apply in_map. apply filter_In. split; [assumption|].
    cbn. rewrite Haid. apply Z.eqb_refl.
Qed.

Lemma flat_map_nil A B (f : A -> list B) l :
  (forall x, f x = []) -> flat_map f l = [].
Proof.
  intros H. induction l as [|x l IH]; cbn; [reflexivity|].
  now rewrite H, IH.
Qed.


(** ** The stores a purchase can leave *)

Lemma log_transaction_store s rq acc ast w r w' :
  log_transaction s rq acc ast (total_cost rq ast) w = (r, w') ->
  db w' = db w \/ db w' = log_store (ss_user_id s) rq acc ast (db w).
Proof.
  unfold log_transaction, add_transaction. unfold bind at 1.
  destruct (execute_query_insert _ w) as [[id|e] w1] eqn:E;
    apply insert_inv in E; cbn [fst snd] in E; destruct E as (_ & _ & E).
  2:{ intros H; inversion H; subst. left.
      destruct E as [[? _] | [_ E]]; [discriminate | exact E]. }
  assert (Hd1 : db w1 = db w
                \/ db w1 = log_store (ss_user_id s) rq acc ast (db w)).
  { destruct E as [[_ E] | [_ E]]; [right | left]; exact E. }
  clear E.
  destruct (negb (truthy_id id)).
  { intros H; inversion H; subst. exact Hd1. }
  unfold bind at 1. cbn [st_write]. unfold bind at 1.
  destruct (refresh_data _) as [[[]|e] w2] eqn:E2;
    apply keeps_refresh_data in E2; unfold same_db in E2; cbn in E2;
    intros H; inversion H; subst; rewrite E2; exact Hd1.
Qed.

Lemma add_new_holding_store s rq acc ast w r w' :
  add_new_holding s rq acc ast (total_cost rq ast)
                  (log_transaction s rq acc ast (total_cost rq ast)) w
  = (r, w') ->
  db w' = db w
  \/ exists prow crow,
      In prow (portfolios_df s) /\ In crow (asset_types_df s)
      /\ (db w' = open_holding (ss_user_id s) prow crow rq acc ast (db w)
          \/ db w' = log_store (ss_user_id s) rq acc ast
                       (open_holding (ss_user_id s) prow crow rq acc ast
                                     (db w))).
Proof.
  unfold add_new_holding. unfold bind at 1. cbn [st_write].
  set (w1 := set_page (page w ++ [WarnNoHolding]) w).
  assert (Hdb1 : db w1 = db w) by reflexivity.
  clearbody w1.
  assert (Quiet1 : forall r w',
            st_write ErrSelectPortfolioAndCategory w1 = (r, w') ->
            db w' = db w
            \/ exists prow crow,
                In prow (portfolios_df s) /\ In crow (asset_types_df s)
                /\ (db w' = open_holding (ss_user_id s) prow crow rq acc ast
                              (db w)
                    \/ db w' = log_store (ss_user_id s) rq acc ast
                                 (open_holding (ss_user_id s) prow crow rq
                                               acc ast (db w)))).
  { intros r0 w0' H. apply st_write_inv in H.
    destruct H as (_ & Hd' & _). left. congruence. }
  destruct (selectbox (map portfolio_name (portfolios_df s)) _)
    as [pname|]; [|apply Quiet1].
  destruct (selectbox (map type_name (asset_types_df s)) _)
    as [cname|]; [|apply Quiet1].
  destruct (negb (pname =? "")%string && negb (cname =? "")%string);
    [|apply Quiet1].
  clear Quiet1.
  unfold bind at 1.
  destruct (iloc0 _ w1) as [[prow|e] w2] eqn:E2;
    apply iloc0_inv in E2; destruct E2 as [-> E2].
  2:{ intros H; inversion H; subst. left. exact Hdb1. }
  destruct E2 as [(x & Ex & Hprow) | ?]; [|discriminate].
  inversion Ex; subst x; clear Ex.
  apply filter_In in Hprow. destruct Hprow as [Hprow _].
  unfold bind at 1.
  destruct (iloc0 _ w1) as [[crow|e] w2] eqn:E2;
    apply iloc0_inv in E2; destruct E2 as [-> E2].
  2:{ intros H; inversion H; subst. left. exact Hdb1. }
  destruct E2 as [(x & Ex & Hcrow) | ?]; [|discriminate].
  inversion Ex; subst x; clear Ex.
  apply filter_In in Hcrow. destruct Hcrow as [Hcrow _].
  unfold bind at 1. unfold add_investment.
  destruct (execute_query_insert _ w1) as [[id|e] w2] eqn:E3;
    apply insert_inv in E3; cbn [fst snd] in E3;
    destruct E3 as (_ & _ & E3).
  2:{ intros H; inversion H; subst. left.
      destruct E3 as [[? _] | [_ E3]]; [discriminate | congruence]. }
  assert (Hd2 : db w2 = db w
                \/ db w2 = open_holding (ss_user_id s) prow crow rq acc ast
                             (db w)).
  { destruct E3 as [[_ E3] | [_ E3]]; [right | left];
      rewrite E3, ?Hdb1; reflexivity. }
  destruct (negb (truthy_id id)) eqn:Tid.
  { intros H; inversion H; subst.
    destruct Hd2 as [Hd2|Hd2]; [left; exact Hd2|].
    right. exists prow, crow. auto. }
  destruct E3 as [[Er Ed] | [[Er|Er] _]];
    [ | inversion Er; subst id; discriminate | discriminate ].
  unfold bind at 1. cbn [st_write].
  intros H. apply log_transaction_store in H. cbn [db set_page] in H.
  right. exists prow, crow. split; [assumption|]. split; [assumption|].
  rewrite Ed, Hdb1 in H. exact H.
Qed.

Lemma purchase_store s rq acc ast w r w' :
  purchase s rq acc ast (total_cost rq ast) w = (r, w') ->
  purchase_stores (ss_user_id s) (portfolios_df s) (asset_types_df s) rq acc
                  ast (db w) (db w').
Proof.
  unfold purchase, purchase_stores. unfold bind at 1.
  unfold update_account_balance.
  destruct (execute_query_update _ w) as [[deb|e] w1] eqn:E1;
    apply update_inv in E1; cbn [fst snd] in E1;
    destruct E1 as (_ & _ & E1).
  2:{ intros H; inversion H; subst.
      destruct E1 as [[? _] | [_ E1]]; [discriminate | left; exact E1]. }
  assert (Hd1 : db w1 = db w
                \/ db w1 = debit_store acc (total_cost rq ast) (db w)).
  { destruct E1 as [[_ E1] | [_ E1]]; [right | left]; exact E1. }
  destruct (negb (truthy_bool deb)) eqn:T1.
  { intros H; inversion H; subst.
    destruct Hd1 as [Hd1|Hd1]; [left | right; left]; exact Hd1. }
  destruct E1 as [[Er1 Ed1] | [[Er1|Er1] _]];
    [ | inversion Er1; subst deb; discriminate | discriminate ].
  clear Hd1.
  change (db w1 = debit_store acc (total_cost rq ast) (db w)) in Ed1.
  unfold bind at 1. unfold get_investments_by_user.
  destruct (execute_query_fetch _ w1) as [[rows|e] w2] eqn:E2;
    apply fetch_inv in E2; destruct E2 as (Ed2 & _ & _ & E2).
  2:{ intros H; inversion H; subst. right; left. congruence. }
  destruct rows as [rows|].
  2:{ intros H; inversion H; subst. right; left. congruence. }
  destruct E2 as [E2 | [E2|E2]]; [|discriminate|discriminate].
  inversion E2; subst rows; clear E2.
  rewrite Ed1.
  change (find (fun inv => r_asset_id inv =? asset_id ast)
               (select_investments_by_user (ss_user_id s)
                  (debit_store acc (total_cost rq ast) (db w))))
    with (first_holding (ss_user_id s) ast
            (debit_store acc (total_cost rq ast) (db w))).
  set (d1 := debit_store acc (total_cost rq ast) (db w)) in *.
  unfold holding_store.
  destruct (first_holding (ss_user_id s) ast d1) as [ex|] eqn:Fh.
  2:{ intros H. apply add_new_holding_store in H.
      rewrite Ed2, Ed1 in H.
      destruct H as [H | (prow & crow & Hp & Hc & H)];
        [right; left; exact H|].
      right; right. eexists. split; [|exact H].
      exists prow, crow. auto. }
  unfold bind at 1.
  unfold update_investment; cbn [opt_assign app].
  destruct (execute_query_update _ w2) as [[upd|e] w3] eqn:E3;
    apply update_inv in E3; destruct E3 as (_ & _ & E3).
  2:{ intros H; inversion H; subst. right; left.
      destruct E3 as [[? _] | [_ E3]]; [discriminate | congruence]. }
  assert (Hd3 : db w3 = d1
                \/ db w3 = raise_holding ex (quantity_to_buy rq) d1).
  { destruct E3 as [[_ E3] | [_ E3]]; [right | left];
      rewrite E3, Ed2, Ed1; reflexivity. }
  destruct (negb (truthy_bool upd)) eqn:T3.
  { intros H; inversion H; subst.
    destruct Hd3 as [Hd3|Hd3]; [right; left; exact Hd3|].
    right; right. eexists. split; [reflexivity|]. left. exact Hd3. }
  destruct E3 as [[Er3 Ed3] | [[Er3|Er3] _]];
    [ | inversion Er3; subst upd; discriminate | discriminate ].
  unfold bind at 1. cbn [st_write].
  intros H. apply log_transaction_store in H. cbn [db set_page] in H.
  right; right. eexists. split; [reflexivity|].
  rewrite Ed3, Ed2, Ed1 in H. exact H.
Qed.

Lemma purchase_try_store s rq acc ast w r w' :
  try_except (purchase s rq acc ast (total_cost rq ast)) purchase_failed w
  = (r, w') ->
  purchase_stores (ss_user_id s) (portfolios_df s) (asset_types_df s) rq acc
                  ast (db w) (db w').
Proof.
  unfold try_except.
  destruct (purchase _ _ _ _ _ w) as [[[]|e] w1] eqn:E;
    apply purchase_store in E; intros H.
  - inversion H; subst. exact E.
  - apply purchase_failed_inv in H. destruct H as (Hd & _).
    rewrite Hd. exact E.
Qed.

(** The page: the store is changed only past the five checks. *)
Lemma buy_assets_stores rq w r w' :
  buy_assets rq w = (r, w') ->
  db w' = db w
  \/ exists acc ast,
      In acc (accounts_df (session w)) /\ In ast (assets_df (session w))
      /\ checks_passed rq acc ast
      /\ purchase_stores (ss_user_id (session w)) (portfolios_df (session w))
                         (asset_types_df (session w)) rq acc ast (db w)
                         (db w').
Proof.
  assert (Quiet : forall w0 m r w', db w0 = db w ->
            st_write m w0 = (r, w') -> db w' = db w).
  { intros w0 m r0 w0' Hd H. apply st_write_inv in H.
    destruct H as (_ & H & _). congruence. }
  unfold buy_assets. unfold bind at 1. cbn [get_session].
  destruct (assets_df (session w)) as [|x0 xs] eqn:Ex;
    [intros H; left; eapply Quiet; [reflexivity | exact H]|].
  destruct (accounts_df (session w)) as [|a0 al] eqn:Ea;
    [intros H; left; eapply Quiet; [reflexivity | exact H]|].
  rewrite <- Ex, <- Ea. clear Ex Ea.
  unfold bind at 1.
  destruct (select_account _ _ w) as [[sel_acc|e] w1] eqn:E1;
    apply select_account_inv in E1; destruct E1 as (Ed1 & E1).
  2:{ intros H; inversion H; subst. left. exact Ed1. }
  unfold bind at 1.
  destruct (select_asset _ _ w1) as [[sel_ast|e] w2] eqn:E2;
    apply select_asset_inv in E2; destruct E2 as (Ed2 & E2).
  2:{ intros H; inversion H; subst. left. congruence. }
  assert (Hd2 : db w2 = db w) by congruence.
  destruct (submitted rq) eqn:Sub.
  2:{ intros H; inversion H; subst. left. exact Hd2. }
  unfold confirm_purchase.
  destruct sel_acc as [acc|];
    [|intros H; left; eapply Quiet; [exact Hd2 | exact H]].
  destruct (account_id acc =? 0) eqn:Ia;
    [intros H; left; eapply Quiet; [exact Hd2 | exact H]|].
  destruct sel_ast as [ast|];
    [|intros H; left; eapply Quiet; [exact Hd2 | exact H]].
  destruct (asset_id ast =? 0) eqn:Ix;
    [intros H; left; eapply Quiet; [exact Hd2 | exact H]|].
  destruct (Dec.leb _ _) eqn:Q;
    [intros H; left; eapply Quiet; [exact Hd2 | exact H]|].
  destruct (Dec.gtb _ _) eqn:G;
    [intros H; left; eapply Quiet; [exact Hd2 | exact H]|].
  destruct E1 as [(x & Er1 & -> & Hacc) | [[? _] | [? _]]];
    try discriminate.
  inversion Er1; subst x; clear Er1.
  destruct E2 as [(x & Er2 & -> & Hast) | [[? _] | [? _]]];
    try discriminate.
  inversion Er2; subst x; clear Er2.
  intros H. apply purchase_try_store in H.
  right. exists acc, ast.
  split; [exact Hacc|]. split; [exact Hast|].
  split; [|exact H].
  apply Z.eqb_neq in Ia, Ix. repeat split; assumption.
Qed.

Lemma purchase_stores_incl uid pfs cats pfs' cats' rq acc ast d d' :
  incl pfs pfs' -> incl cats cats' ->
  purchase_stores uid pfs cats rq acc ast d d' ->
  purchase_stores uid pfs' cats' rq acc ast d d'.
Proof.
  intros Hp Hc. unfold purchase_stores, holding_store.
  intros [H | [H | (d2 & H2 & H)]]; [left; exact H | right; left; exact H |].
  right; right. exists d2. split; [|exact H].
  destruct (first_holding _ _ _); [exact H2|].
  destruct H2 as (prow & crow & A & B & C). exists prow, crow. auto.
Qed.

Lemma run_buy_page_inv rq w r w' :
  run_buy_page rq w = (r, w') ->
  db w' = db w
  \/ exists w1,
      db w1 = db w
      /\ ss_user_id (session w1) = ss_user_id (session w)
      /\ frames_sound (ss_user_id (session w)) (db w) (session w1)
      /\ buy_assets rq w1 = (r, w').
Proof.
  unfold run_buy_page. unfold bind at 1. cbn [get_session]. unfold bind.
  destruct (load_data _ _ w) as [[[]|e] w1] eqn:E; apply load_data_inv in E;
    destruct E as (Ed & _ & Eu & _ & Ef); intros H.
  - right. exists w1. auto.
  - inversion H; subst. left. exact Ed.
Qed.


(** ** No overdraft *)

Lemma no_overdraft b c :
  Dec.gtb c b = false -> Dec.leb (mkDec 0 0) (b - c)%dec = true.
Proof.
  unfold Dec.gtb, Dec.ltb, Dec.leb, Dec.compare, Dec.sub.
  cbn [Dec.scale Dec.coef Nat.max].
  set (S := Nat.max (Dec.scale b) (Dec.scale c)).
  set (x := Dec.rescale b S). set (y := Dec.rescale c S).
  unfold Dec.rescale. cbn [Dec.coef Dec.scale].
  rewrite Nat.sub_diag, DecFacts.pow10_0, Z.mul_1_r, Z.mul_0_l.
  destruct (Z.compare_spec x y); intros G; try discriminate;
    destruct (Z.compare_spec 0 (x - y)); try reflexivity; lia.
Qed.

Lemma purchase_stores_accounts uid pfs cats rq acc ast d d' :
  purchase_stores uid pfs cats rq acc ast d d' ->
  accounts d' = accounts d
  \/ accounts d'
     = update_rows (fun a => account_id a =? account_id acc)
                   (set_current_balance
                      (current_balance acc - total_cost rq ast)%dec)
                   same_balance (accounts d).
Proof.
  unfold purchase_stores, holding_store.
  intros [-> | [-> | (d2 & H2 & H)]]; [left; reflexivity
                                      | right; reflexivity |].
  right.
  assert (E2 : accounts d2
               = accounts (debit_store acc (total_cost rq ast) d)).
  { destruct (first_holding _ _ _) as [ex|].
    - subst d2. reflexivity.
    - destruct H2 as (prow & crow & _ & _ & ->). reflexivity. }
  destruct H as [-> | ->]; cbn [accounts log_store]; rewrite E2;
    reflexivity.
Qed.


(** ** Other users *)

Lemma NoDup_key_inj R (key : R -> Z) (l : list R) x y :
  NoDup (map key l) -> In x l -> In y l -> key x = key y -> x = y.
Proof.
  induction l as [|z l IH]; cbn; [intros _ []|].
  intros N Hx Hy E. inversion N as [|? ? Hz N']; subst.
  destruct Hx as [-> | Hx], Hy as [-> | Hy]; auto.
  - exfalso. apply Hz. rewrite E. now apply in_map.
  - exfalso. apply Hz. rewrite <- E. now apply in_map.
Qed.

Lemma filter_update_rows_outside R (p m : R -> bool) asg same (l : list R) :
  (forall x, In x l -> m x = true -> p x = false /\ p (asg x) = false) ->
  filter p (update_rows m asg same l) = filter p l.
Proof.
  unfold update_rows. induction l as [|x l IH]; intros H; [reflexivity|].
  cbn [map filter]. rewrite IH by (intros y Hy; apply H; now right).
  destruct (m x) eqn:M; cbn [andb]; [|reflexivity].
  destruct (H x (or_introl eq_refl) M) as [P1 P2].
  destruct (negb _); now rewrite ?P1, ?P2.
Qed.

Lemma filter_app_outside R (p : R -> bool) (l : list R) x :
  p x = false -> filter p (l ++ [x]) = filter p l.
Proof.
  intros H. rewrite filter_app. cbn. rewrite H. apply app_nil_r.
Qed.

Lemma first_holding_owner uid ast d ex :
  first_holding uid ast d = Some ex ->
  exists i, In i (investments d) /\ inv_user_id i = uid
            /\ r_investment_id ex = investment_id i.
Proof.
  unfold first_holding. intros H. apply find_some in H.
  destruct H as [H _]. apply joined_row_value in H.
  destruct H as (i & a & Hi & _ & Hu & _ & Hid & _). exists i. auto.
Qed.

(** The rows of a user [u] other than the buyer, table by table. *)
Lemma purchase_stores_others uid pfs cats rq acc ast d d' u :
  purchase_stores uid pfs cats rq acc ast d d' ->
  In acc (accounts d) -> acc_user_id acc = uid ->
  NoDup (map account_id (accounts d)) ->
  NoDup (map investment_id (investments d)) ->
  u <> uid ->
  accounts_of u d' = accounts_of u d
  /\ investments_of u d' = investments_of u d
  /\ filter (fun t => tx_user_id t =? u) (transactions d')
     = filter (fun t => tx_user_id t =? u) (transactions d).
Proof.
  intros H Hacc Hown Na Ni Hu.
  assert (Hne : (uid =? u) = false) by (apply Z.eqb_neq; congruence).
  set (d1 := debit_store acc (total_cost rq ast) d).
  assert (A1 : accounts_of u d1 = accounts_of u d).
  { unfold accounts_of, d1, debit_store. cbn [accounts set_accounts].
    apply filter_update_rows_outside. intros x Hx Hm.
    apply Z.eqb_eq in Hm.
    rewrite (NoDup_key_inj account_id _ x acc Na Hx Hacc Hm).
    cbn. rewrite Hown. auto. }
  assert (D1 : accounts_of u d1 = accounts_of u d
               /\ investments_of u d1 = investments_of u d
               /\ filter (fun t => tx_user_id t =? u) (transactions d1)
                  = filter (fun t => tx_user_id t =? u) (transactions d))
    by (split; [exact A1 | split; reflexivity]).
  unfold purchase_stores in H. fold d1 in H.
  destruct H as [-> | [-> | (d2 & H2 & H)]];
    [repeat split | exact D1 |].
  assert (D2 : accounts_of u d2 = accounts_of u d
               /\ investments_of u d2 = investments_of u d
               /\ filter (fun t => tx_user_id t =? u) (transactions d2)
                  = filter (fun t => tx_user_id t =? u) (transactions d)).
  { unfold holding_store in H2.
    destruct (first_holding uid ast d1) as [ex|] eqn:Fh.
    - subst d2. split; [exact A1|]. split; [|reflexivity].
      apply first_holding_owner in Fh.
      destruct Fh as (i & Hi & Hiu & Hid).
      unfold investments_of, raise_holding, update_investment_stmt.
      cbn [fst investments set_investments].
      change (investments d1) with (investments d) in *.
      apply filter_update_rows_outside. intros x Hx Hm.
      apply Z.eqb_eq in Hm. rewrite Hid in Hm.
      rewrite (NoDup_key_inj investment_id _ x i Ni Hx Hi Hm).
      cbn. rewrite Hiu. auto.
    - destruct H2 as (prow & crow & _ & _ & ->).
      split; [exact A1|]. split; [|reflexivity].
      unfold investments_of, open_holding. cbn [investments].
      change (investments d1) with (investments d).
      now apply filter_app_outside. }
  destruct H as [-> | ->]; [exact D2|].
  destruct D2 as (B1 & B2 & B3).
  split; [exact B1|]. split; [exact B2|].
  unfold log_store. cbn [transactions]. rewrite <- B3.
  now apply filter_app_outside.
Qed.

Lemma purchase_stores_reference uid pfs cats rq acc ast d d' :
  purchase_stores uid pfs cats rq acc ast d d' ->
  users d' = users d /\ portfolios d' = portfolios d
  /\ asset_types d' = asset_types d /\ assets d' = assets d.
Proof.
  unfold purchase_stores, holding_store.
  intros [-> | [-> | (d2 & H2 & H)]]; [repeat split | repeat split |].
  assert (E2 : users d2 = users d /\ portfolios d2 = portfolios d
               /\ asset_types d2 = asset_types d /\ assets d2 = assets d).
  { destruct (first_holding _ _ _) as [ex|].
    - subst d2. repeat split.
    - destruct H2 as (prow & crow & _ & _ & ->). repeat split. }
  destruct H as [-> | ->]; exact E2.
Qed.


(** ** The frames after a load that failed in part *)

Lemma df_fresh R (q : Store -> list R) w r w' :
  (rows <- execute_query_fetch q ;; ret (frame rows)) w = (r, w') ->
  db w' = db w /\ page w' = page w /\ session w' = session w
  /\ forall l, r = inl l -> fresh_or_empty l (q (db w)).
Proof.
  intros H. apply df_inv in H. destruct H as ([H1 H2] & H3 & H4).
  repeat split; try assumption.
  intros l Hl. destruct (H4 l Hl); [right | left]; assumption.
Qed.

Lemma load_data_fresh uid user_role w r w' :
  uid <> 0 ->
  load_data uid user_role w = (r, w') ->
  frames_fresh uid (db w) (session w').
Proof.
  intros Hu. apply Z.eqb_neq in Hu.
  unfold load_data. unfold bind at 1. cbn [modify_session].
  set (w0 := set_session _ w).
  assert (Hd0 : db w0 = db w) by reflexivity.
  assert (Hf0 : frames_fresh uid (db w) (session w0))
    by (subst w0; cbn; repeat split; left; reflexivity).
  clearbody w0. unfold frames_fresh in *.
  destruct Hf0 as (A0 & P0 & T0 & X0).
  (* accounts *)
  unfold bind at 1.
  unfold get_account_balances_df at 1. rewrite Hu. cbn [negb].
  unfold get_accounts_by_user.
  destruct ((_ <- execute_query_fetch _ ;; _) w0) as [[a|e] w1] eqn:E1;
    apply df_fresh in E1; destruct E1 as (Ed1 & _ & Es1 & E1).
  2:{ intros H; inversion H; subst. rewrite Es1. auto. }
  pose proof (E1 a eq_refl) as Fa. rewrite Hd0 in Fa. clear E1.
  unfold bind at 1. cbn [modify_session].
  (* portfolios *)
  unfold bind at 1. unfold get_portfolios_df at 1, get_portfolios_by_user.
  destruct ((_ <- execute_query_fetch _ ;; _) _) as [[p|e] w2] eqn:E2;
    apply df_fresh in E2; destruct E2 as (Ed2 & _ & Es2 & E2);
    cbn in Ed2, Es2.
  2:{ intros H; inversion H; subst. rewrite Es2. cbn. rewrite Es1. auto. }
  pose proof (E2 p eq_refl) as Fp. cbn in Fp. rewrite Ed1, Hd0 in Fp.
  clear E2.
  unfold bind at 1. cbn [modify_session].
  (* asset types *)
  unfold bind at 1. unfold get_asset_types_df at 1, get_asset_types.
  destruct ((_ <- execute_query_fetch _ ;; _) _) as [[t|e] w3] eqn:E3;
    apply df_fresh in E3; destruct E3 as (Ed3 & _ & Es3 & E3);
    cbn in Ed3, Es3.
  2:{ intros H; inversion H; subst. rewrite Es3. cbn. rewrite Es2. cbn.
      rewrite Es1. auto. }
  pose proof (E3 t eq_refl) as Ft. cbn in Ft. rewrite Ed2, Ed1, Hd0 in Ft.
  clear E3.
  unfold bind at 1. cbn [modify_session].
  (* assets *)
  unfold bind at 1. unfold get_assets_df at 1, get_all_assets.
  destruct ((_ <- execute_query_fetch _ ;; _) _) as [[x|e] w4] eqn:E4;
    apply df_fresh in E4; destruct E4 as (Ed4 & _ & Es4 & E4);
    cbn in Ed4, Es4.
  2:{ intros H; inversion H; subst. rewrite Es4. cbn. rewrite Es3. cbn.
      rewrite Es2. cbn. rewrite Es1. auto. }
  pose proof (E4 x eq_refl) as Fx. cbn in Fx.
  rewrite Ed3, Ed2, Ed1, Hd0 in Fx. clear E4.
  unfold bind at 1. cbn [modify_session].
  destruct (user_role =? "admin")%string.
  - intros H; inversion H; subst. cbn. rewrite Es4. cbn. rewrite Es3.
    cbn. rewrite Es2. cbn. auto.
  - unfold bind at 1.
    destruct (get_portfolio_summary uid _) as [[sm|e] w5] eqn:E5;
      apply summary_untouched in E5;
      destruct E5 as (_ & _ & Es5); cbn in Es5;
      intros H; inversion H; subst; cbn; rewrite Es5; cbn; rewrite Es4;
      cbn; rewrite Es3; cbn; rewrite Es2; cbn; auto.
Qed.

(** X16.  [load_data] for a user, whatever fails: it writes nothing to the
    store or the page, and afterwards each of the four frames holds the
    rows its query gives on the store as it is now, or no row at all,
    never the rows of an earlier load; the account and the portfolio
    frame hold rows of that user only. *)
Theorem load_shows_current_rows_or_none (w : World) (uid : Z)
        (user_role : string) (r : unit + exn) (w' : World) :
  uid <> 0 ->
  load_data uid user_role w = (r, w') ->
  db w' = db w /\ page w' = page w
  /\ frames_fresh uid (db w) (session w')
  /\ Forall (fun a => acc_user_id a = uid) (accounts_df (session w'))
  /\ Forall (fun p => pf_user_id p = uid) (portfolios_df (session w')).
Proof.
  intros Hu H.
  pose proof (@load_data_fresh uid user_role w r w' Hu H) as F.
  apply load_data_inv in H. destruct H as (Hd & Hp & _ & _ & _).
  split; [exact Hd|]. split; [exact Hp|]. split; [exact F|].
  destruct F as ([Fa|Fa] & [Fp|Fp] & _); rewrite Fa, Fp;
    split; try constructor;
    apply Forall_forall; intros x Hx; apply filter_In in Hx;
    now apply Z.eqb_eq.
Qed.

(** ** The further properties, at work *)

Lemma delete_user_all_or_nothing_witness :
  let w := world_delete_fails in
  let r := fst (delete_user_and_all_data 1 w) in
  let w' := snd (delete_user_and_all_data 1 w) in
  delete_user_and_all_data 1 w = (r, w')
  /\ r <> inl true
  /\ db w' = db w /\ (r = inl false \/ r = inr MySQLError).
Proof.
  intros w r w'.
  assert (E : delete_user_and_all_data 1 w = (r, w'))
    by apply surjective_pairing.
  assert (Hr : r <> inl true) by (vm_compute; discriminate).
  split; [exact E|]. split; [exact Hr|].
  exact (@delete_user_all_or_nothing w 1 r w' E Hr).
Defined.

Lemma delete_unknown_user_reports_success_witness :
  let w := world store_holding in
  healthy w /\ unknown_user 9 (db w)
  /\ delete_user_and_all_data 9 w = (inl true, w).
Proof.
  intros w.
  assert (Hw : healthy w) by (split; reflexivity).
  assert (Hu : unknown_user 9 (db w))
    by (repeat split; repeat constructor; discriminate).
  split; [exact Hw|]. split; [exact Hu|].
  exact (@delete_unknown_user_reports_success w 9 Hw Hu).
Defined.

Lemma deleted_user_is_gone_witness :
  let w := world store_holding in
  let w1 := snd (delete_user_and_all_data 1 w) in
  healthy w
  /\ get_user_by_id 1 w1 = (inl (Some []), w1)
  /\ get_user_role 1 w1 = (inl None, w1)
  /\ get_accounts_by_user 1 w1 = (inl (Some []), w1)
  /\ get_portfolios_by_user 1 w1 = (inl (Some []), w1)
  /\ get_investments_by_user 1 w1 = (inl (Some []), w1)
  /\ get_portfolio_summary 1 w1 = (inl empty_summary, w1).
Proof.
  intros w w1.
  assert (Hw : healthy w) by (split; reflexivity).
  split; [exact Hw|].
  exact (@deleted_user_is_gone w 1 Hw).
Defined.

Lemma summary_total_is_the_sum_of_its_parts_witness :
  let w := world_offline in
  let r := fst (get_portfolio_summary 1 w) in
  let w' := snd (get_portfolio_summary 1 w) in
  get_portfolio_summary 1 w = (r, w')
  /\ conn_faults w = [true; true]
  /\ db w' = db w /\ session w' = session w /\ page w' = page w
  /\ r = inl empty_summary.
Proof.
  intros w r w'.
  assert (E : get_portfolio_summary 1 w = (r, w'))
    by apply surjective_pairing.
  split; [exact E|]. split; [reflexivity|].
  destruct (@summary_total_is_the_sum_of_its_parts w 1 r w' E)
    as (H1 & H2 & H3 & _ & H5).
  split; [exact H1|]. split; [exact H2|]. split; [exact H3|].
  exact (H5 [] eq_refl).
Defined.

Lemma get_asset_by_id_returns_a_stored_asset_witness :
  let w := world store_holding in
  let r := fst (get_asset_by_id 5 w) in
  let w' := snd (get_asset_by_id 5 w) in
  get_asset_by_id 5 w = (r, w')
  /\ r = inl (Some gold)
  /\ db w' = db w
  /\ find (fun x => asset_id x =? 5) (assets (db w)) = Some gold
  /\ In gold (assets (db w)) /\ asset_id gold = 5.
Proof.
  intros w r w'.
  assert (E : get_asset_by_id 5 w = (r, w')) by apply surjective_pairing.
  assert (Er : r = inl (Some gold)) by reflexivity.
  split; [exact E|]. split; [exact Er|].
  destruct (@get_asset_by_id_returns_a_stored_asset w 5 r w' E)
    as (H1 & _ & _ & H4 & _).
  split; [exact H1|]. exact (H4 gold Er).
Defined.

Lemma price_update_then_lookup_witness :
  let w := world store_holding in
  let w1 := snd (update_asset_price 5 (mkDec 7500 2) w) in
  healthy w
  /\ find (fun x => asset_id x =? 5) (assets (db w)) = Some gold
  /\ exists a,
      get_asset_by_id 5 w1 = (inl (Some a), w1)
      /\ asset_id a = 5 /\ name a = name gold
      /\ unit_type a = unit_type gold
      /\ (unit_price a == mkDec 7500 2)%dec.
Proof.
  intros w w1.
  assert (Hw : healthy w) by (split; reflexivity).
  assert (Hf : find (fun x => asset_id x =? 5) (assets (db w)) = Some gold)
    by reflexivity.
  split; [exact Hw|]. split; [exact Hf|].
  exact (@price_update_then_lookup w 5 (mkDec 7500 2) gold Hw Hf).
Defined.

Lemma update_of_a_missing_id_changes_nothing_witness :
  let w := world store_holding in
  healthy w
  /\ Forall (fun a => account_id a <> 99) (accounts (db w))
  /\ update_account_balance 99 (mkDec 100 2) w = (inl (Some false), w)
  /\ Forall (fun a => asset_id a <> 99) (assets (db w))
  /\ update_asset_price 99 (mkDec 100 2) w = (inl (Some false), w)
  /\ Forall (fun i => investment_id i <> 99) (investments (db w))
  /\ update_investment 99 None None None None (Some (mkDec 10 1)) None None
                       None None None w
     = (inl (Some false), w)
  /\ Forall (fun p => portfolio_id p <> 99) (portfolios (db w))
  /\ update_portfolio 99 (Some "Growth") None w = (inl (Some false), w).
Proof.
  intros w.
  assert (Hw : healthy w) by (split; reflexivity).
  assert (Ha : Forall (fun a => account_id a <> 99) (accounts (db w)))
    by (repeat constructor; discriminate).
  assert (Hx : Forall (fun a => asset_id a <> 99) (assets (db w)))
    by (repeat constructor; discriminate).
  assert (Hi : Forall (fun i => investment_id i <> 99) (investments (db w)))
    by (repeat constructor; discriminate).
  assert (Hp : Forall (fun p => portfolio_id p <> 99) (portfolios (db w)))
    by (repeat constructor; discriminate).
  destruct (@update_of_a_missing_id_changes_nothing w 99 Hw)
    as (U1 & U2 & U3 & U4).
  split; [exact Hw|].
  split; [exact Ha|]. split; [exact (U1 _ Ha)|].
  split; [exact Hx|]. split; [exact (U2 _ Hx)|].
  split; [exact Hi|]. split; [exact (U3 _ _ _ _ _ _ _ _ _ _ Hi)|].
  split; [exact Hp|]. exact (U4 _ _ Hp).
Defined.

Lemma update_investment_keeps_identity_witness :
  let w := world store_holding in
  let run := update_investment 7 None None None None (Some (mkDec 150 1))
                               None None None None (Some 6) w in
  run = (fst run, snd run)
  /\ map quantity (investments (db (snd run))) = [mkDec 150 1]
  /\ set_investments (investments (db (snd run))) (db w) = db (snd run)
  /\ map investment_id (investments (db (snd run)))
     = map investment_id (investments (db w))
  /\ map inv_user_id (investments (db (snd run)))
     = map inv_user_id (investments (db w))
  /\ filter (fun i => negb (investment_id i =? 7))
            (investments (db (snd run)))
     = filter (fun i => negb (investment_id i =? 7)) (investments (db w)).
Proof.
  intros w run.
  assert (E : run = (fst run, snd run)) by apply surjective_pairing.
  split; [exact E|]. split; [reflexivity|].
  exact (@update_investment_keeps_identity
           w 7 None None None None (Some (mkDec 150 1)) None None None None
           (Some 6) (fst run) (snd run) E).
Defined.

Lemma update_account_balance_touches_one_balance_witness :
  let w := world store_holding in
  let run := update_account_balance 10 (mkDec 2500 1) w in
  run = (fst run, snd run)
  /\ fst run = inl (Some true)
  /\ map account_id (accounts (db (snd run)))
     = map account_id (accounts (db w))
  /\ filter (fun a => negb (account_id a =? 10)) (accounts (db (snd run)))
     = [checking]
  /\ Forall (fun a => account_id a = 10 ->
                      (current_balance a == mkDec 2500 1)%dec)
            (accounts (db (snd run))).
Proof.
  intros w run.
  assert (E : run = (fst run, snd run)) by apply surjective_pairing.
  assert (Er : fst run = inl (Some true)) by reflexivity.
  destruct (@update_account_balance_touches_one_balance
              w 10 (mkDec 2500 1) (fst run) (snd run) E)
    as (_ & H2 & _ & _ & H5 & H6).
  split; [exact E|]. split; [exact Er|]. split; [exact H2|].
  split; [exact H5|].
  apply Forall_forall. intros a Ha Hid. exact (H6 true Er a Ha Hid).
Defined.

Lemma delete_by_id_removes_exactly_that_id_witness :
  let w := world store_holding in
  let run1 := delete_account 10 w in
  let run2 := delete_portfolio 99 w in
  let run3 := delete_investment 7 w in
  let run4 := delete_transaction 1 w in
  (run1 = (fst run1, snd run1)
   /\ deleted_by_id account_id 10 (accounts (db w))
                    (accounts (db (snd run1))) (fst run1))
  /\ (run2 = (fst run2, snd run2)
      /\ deleted_by_id portfolio_id 99 (portfolios (db w))
                       (portfolios (db (snd run2))) (fst run2))
  /\ (run3 = (fst run3, snd run3)
      /\ deleted_by_id investment_id 7 (investments (db w))
                       (investments (db (snd run3))) (fst run3))
  /\ (run4 = (fst run4, snd run4)
      /\ deleted_by_id transaction_id 1 (transactions (db w))
                       (transactions (db (snd run4))) (fst run4)).
Proof.
  intros w run1 run2 run3 run4.
  destruct (@delete_by_id_removes_exactly_that_id w 10) as (D1 & _).
  destruct (@delete_by_id_removes_exactly_that_id w 99) as (_ & D2 & _).
  destruct (@delete_by_id_removes_exactly_that_id w 7) as (_ & _ & D3 & _).
  destruct (@delete_by_id_removes_exactly_that_id w 1) as (_ & _ & _ & D4).
  split; [|split; [|split]]; (split; [apply surjective_pairing|]).
  - exact (proj2 (D1 _ _ (surjective_pairing run1))).
  - exact (proj2 (D2 _ _ (surjective_pairing run2))).
  - exact (proj2 (D3 _ _ (surjective_pairing run3))).
  - exact (proj2 (D4 _ _ (surjective_pairing run4))).
Defined.

Lemma added_investment_is_listed_witness :
  let w := world store_portfolio in
  let i := new_investment (db w) 1 3 1 5 "Gold Holdings" None
                          (mkDec 35000 2) "2024-06-01" (mkDec 50 1) "USD"
                          None in
  let run := add_investment 1 3 1 5 "Gold Holdings" None (mkDec 35000 2)
                            "2024-06-01" (mkDec 50 1) "USD" None w in
  healthy w
  /\ (In core (portfolios (db w)) /\ portfolio_id core = 3)
  /\ (In commodity (asset_types (db w)) /\ asset_type_id commodity = 1)
  /\ (In gold (assets (db w)) /\ asset_id gold = 5)
  /\ fst run = inl (Some 8)
  /\ exists rows,
      get_investments_by_user 1 (snd run) = (inl (Some rows), snd run)
      /\ In (join_row i core commodity gold) rows
      /\ current_value (join_row i core commodity gold) = mkDec 350000 3.
Proof.
  intros w i run.
  assert (Hw : healthy w) by (split; reflexivity).
  assert (Hp : In core (portfolios (db w))) by (left; reflexivity).
  assert (Hc : In commodity (asset_types (db w))) by (left; reflexivity).
  assert (Ha : In gold (assets (db w))) by (left; reflexivity).
  destruct (@added_investment_is_listed
              w 1 3 1 5 "Gold Holdings" None (mkDec 35000 2) "2024-06-01"
              (mkDec 50 1) "USD" None core commodity gold
              Hw Hp eq_refl Hc eq_refl Ha eq_refl)
    as (R1 & rows & R2 & R3 & R4 & _).
  split; [exact Hw|]. split; [split; [exact Hp | reflexivity]|].
  split; [split; [exact Hc | reflexivity]|].
  split; [split; [exact Ha | reflexivity]|].
  split; [exact R1|].
  exists rows. split; [exact R2|]. split; [exact R3 | exact R4].
Defined.





Lemma load_shows_current_rows_or_none_witness :
  let w := world_second_read_fails in
  let run := load_data 1 "user" w in
  (1 <> 0 /\ run = (fst run, snd run))
  /\ accounts_df (session (snd run)) = [savings]
  /\ portfolios_df (session (snd run)) = []
  /\ db (snd run) = db w /\ page (snd run) = page w
  /\ frames_fresh 1 (db w) (session (snd run))
  /\ Forall (fun a => acc_user_id a = 1) (accounts_df (session (snd run)))
  /\ Forall (fun p => pf_user_id p = 1) (portfolios_df (session (snd run))).
Proof.
  intros w run.
  assert (Hu : 1 <> 0) by discriminate.
  assert (E : run = (fst run, snd run)) by apply surjective_pairing.
  split; [split; [exact Hu | exact E]|].
  split; [reflexivity|]. split; [reflexivity|].
  exact (@load_shows_current_rows_or_none w 1 "user" (fst run) (snd run)
                                          Hu E).
Defined.
